(** * A model of the catalog backend: controllers, middleware and models.

    The JavaScript handlers are embedded as pure functions over an explicit
    store: a handler takes the collection(s) it reads and the request, and
    returns the collection(s) after the call, the HTTP response it sent and
    the side effects it started.  A [try]/[catch] block becomes a match on a
    result that is either a value or a thrown error.

    Numbers.  A JavaScript number is modelled by [jsnum]: NaN, the two
    infinities, or a finite value held as an exact rational.  Rounding to
    binary64, overflow of huge literals and the sign of zero are not
    modelled.  Strings are strings of bytes, the UTF-8 form of the text;
    only the ASCII white space characters are recognised as white space,
    and the lower-case form of a string is left to a parameter.

    Identifiers.  A stored identifier is the string form of an ObjectId:
    24 hexadecimal digits in lower case.  An identifier that comes with a
    request is cast first: a string that is not made of 24 hexadecimal
    digits makes the store throw a CastError, and any other string stands
    for the ObjectId written with the same digits in lower case.  The
    texts of the errors of the store are abbreviated. *)

From Stdlib Require Import ZArith QArith Qround String Ascii List Lia Bool DecimalString.
From Stdlib Require Import DecimalNat.
From stdpp Require Import base option gmap strings list sorting.

Set Warnings "-register-all".

Local Open Scope Z_scope.
Local Open Scope string_scope.
Local Open Scope list_scope.

(* ===================================================================== *)
(** ** JavaScript primitives used by the handlers *)
(* ===================================================================== *)

Module JS.

Inductive jsnum : Type :=
| NaN
| PosInf
| NegInf
| Fin (q : Q).

Definition isNaN (n : jsnum) : bool :=
  match n with NaN => true | _ => false end.

Definition ofZ (z : Z) : jsnum := Fin (inject_Z z).

(** [a === b] on numbers: NaN is different from everything, itself included. *)
Definition strict_eq (a b : jsnum) : bool :=
  match a, b with
  | Fin x, Fin y => Qeq_bool x y
  | PosInf, PosInf => true
  | NegInf, NegInf => true
  | _, _ => false
  end.

(** [a !== b]. *)
Definition strict_neq (a b : jsnum) : bool := negb (strict_eq a b).

Definition Qsgn (q : Q) : Z := Z.sgn (Qnum q).

Definition neg (a : jsnum) : jsnum :=
  match a with
  | NaN => NaN
  | PosInf => NegInf
  | NegInf => PosInf
  | Fin q => Fin (Qopp q)
  end.

Definition sub (a b : jsnum) : jsnum :=
  match a, b with
  | NaN, _ | _, NaN => NaN
  | Fin x, Fin y => Fin (Qminus x y)
  | PosInf, PosInf | NegInf, NegInf => NaN
  | PosInf, _ | _, NegInf => PosInf
  | NegInf, _ | _, PosInf => NegInf
  end.

Definition inf_of_sign (s : Z) : jsnum :=
  if (s =? 0)%Z then NaN else if (0 <? s)%Z then PosInf else NegInf.

Definition sign (a : jsnum) : Z :=
  match a with
  | NaN => 0
  | PosInf => 1
  | NegInf => -1
  | Fin q => Qsgn q
  end.

Definition mul (a b : jsnum) : jsnum :=
  match a, b with
  | NaN, _ | _, NaN => NaN
  | Fin x, Fin y => Fin (Qmult x y)
  | _, _ => inf_of_sign (sign a * sign b)
  end.

(** Division.  A finite non-zero number over zero is an infinity, zero over
    zero is NaN.  Zero has no sign here, so the infinity takes the sign of
    the numerator. *)
Definition div (a b : jsnum) : jsnum :=
  match a, b with
  | NaN, _ | _, NaN => NaN
  | Fin x, Fin y =>
      if Qeq_bool y 0 then inf_of_sign (Qsgn x) else Fin (Qdiv x y)
  | Fin _, _ => Fin 0
  | _, Fin y => if Qeq_bool y 0 then a else inf_of_sign (sign a * Qsgn y)
  | _, _ => NaN
  end.

(** [Math.ceil]. *)
Definition ceil (a : jsnum) : jsnum :=
  match a with
  | Fin q => Fin (inject_Z (Qceiling q))
  | _ => a
  end.

(** [a >= b] and [a <= b]: false as soon as one side is NaN. *)
Definition geb (a b : jsnum) : bool :=
  match a, b with
  | NaN, _ | _, NaN => false
  | Fin x, Fin y => Qle_bool y x
  | PosInf, _ | _, NegInf => true
  | _, _ => false
  end.

Definition leb (a b : jsnum) : bool := geb b a.

(** *** Strings *)

Definition is_ws (c : ascii) : bool :=
  let n := nat_of_ascii c in
  ((9 <=? n)%nat && (n <=? 13)%nat) || (n =? 32)%nat.

Definition is_digit (c : ascii) : bool :=
  let n := nat_of_ascii c in (48 <=? n)%nat && (n <=? 57)%nat.

Definition digit_val (c : ascii) : Z := Z.of_nat (nat_of_ascii c) - 48.

Fixpoint skip_ws (s : string) : string :=
  match s with
  | String c r => if is_ws c then skip_ws r else s
  | EmptyString => s
  end.

(** The longest prefix of decimal digits and what follows it. *)
Fixpoint take_digits (s : string) : list Z * string :=
  match s with
  | String c r =>
      if is_digit c
      then let '(ds, rest) := take_digits r in (digit_val c :: ds, rest)
      else (nil, s)
  | EmptyString => (nil, s)
  end.

Definition digits_value (ds : list Z) : Z :=
  fold_left (fun acc d => 10 * acc + d) ds 0.

(** An optional sign: [true] for a leading minus. *)
Definition take_sign (s : string) : bool * string :=
  match s with
  | String "-" r => (true, r)
  | String "+" r => (false, r)
  | _ => (false, s)
  end.

(** [parseInt(s, 10)]: leading white space and one sign are skipped, then
    the longest run of decimal digits is read; no digit gives NaN. *)
Definition parseInt (s : string) : jsnum :=
  let '(minus, s1) := take_sign (skip_ws s) in
  let '(ds, _) := take_digits s1 in
  match ds with
  | nil => NaN
  | _ => ofZ (if minus then - digits_value ds else digits_value ds)
  end.

Fixpoint starts_with (p s : string) : bool :=
  match p, s with
  | EmptyString, _ => true
  | String a p', String b s' => Ascii.eqb a b && starts_with p' s'
  | String _ _, EmptyString => false
  end.

(** The exponent part [e], [e+] or [e-] followed by at least one digit;
    an incomplete exponent is not part of the literal and counts as 0. *)
Definition take_exponent (s : string) : Z :=
  match s with
  | String c r =>
      if Ascii.eqb c "e" || Ascii.eqb c "E" then
        let '(minus, r1) := take_sign r in
        let '(ds, _) := take_digits r1 in
        match ds with
        | nil => 0
        | _ => if minus then - digits_value ds else digits_value ds
        end
      else 0
  | EmptyString => 0
  end.

(** [m * 10^e] as a rational. *)
Definition scale10 (m e : Z) : Q :=
  if (0 <=? e)%Z then inject_Z (m * 10 ^ e)
  else Qmake m (Z.to_pos (10 ^ (- e))).

(** [parseFloat(s)]: leading white space is skipped and the longest prefix
    that is a decimal literal is read: a sign, then [Infinity], or digits
    with an optional fraction and exponent.  Anything else gives NaN. *)
Definition parseFloat (s : string) : jsnum :=
  let '(minus, s1) := take_sign (skip_ws s) in
  if starts_with "Infinity" s1 then (if minus then NegInf else PosInf)
  else
    let '(ip, s2) := take_digits s1 in
    let '(fp, s3) :=
      match s2 with
      | String "." r => take_digits r
      | _ => (nil, s2)
      end in
    match ip ++ fp with
    | nil => NaN
    | ds =>
        let m := digits_value ds in
        let e := take_exponent s3 - Z.of_nat (List.length fp) in
        Fin (scale10 (if minus then - m else m) e)
    end.

(** A string is falsy exactly when it is empty; [undefined] is falsy. *)
Definition truthy (v : option string) : bool :=
  match v with
  | Some (String _ _) => true
  | _ => false
  end.

(** The value when it is truthy, [None] for a falsy one. *)
Definition keep_truthy (v : option string) : option string :=
  if truthy v then v else None.

(** [a || b] on possibly undefined strings. *)
Definition or_else (a b : option string) : option string :=
  if truthy a then a else b.

(** [parseFloat(v)] and [parseInt(v, 10)] on a value that may be
    [undefined]. *)
Definition parseFloat_opt (v : option string) : jsnum :=
  match v with Some s => parseFloat s | None => NaN end.

Definition parseInt_opt (v : option string) : jsnum :=
  match v with Some s => parseInt s | None => NaN end.

(** [s.split(sep)] for a separator of one character. *)
Fixpoint split_aux (sep : ascii) (cur : string) (s : string) : list string :=
  match s with
  | EmptyString => cur :: nil
  | String c r =>
      if Ascii.eqb c sep then cur :: split_aux sep EmptyString r
      else split_aux sep (cur ++ String c EmptyString) r
  end.

Definition split (sep : ascii) (s : string) : list string :=
  split_aux sep EmptyString s.

Definition split_space (s : string) : list string := split " " s.

(** [parts.join(sep)]. *)
Fixpoint join (sep : string) (parts : list string) : string :=
  match parts with
  | nil => EmptyString
  | p :: nil => p
  | p :: rest => p ++ sep ++ join sep rest
  end.

(** [parts.indexOf(x)]: [None] stands for -1. *)
Fixpoint indexOf (x : string) (parts : list string) : option nat :=
  match parts with
  | nil => None
  | p :: rest =>
      if String.eqb p x then Some O
      else match indexOf x rest with Some i => Some (S i) | None => None end
  end.

(** [s.lastIndexOf(c)]: [None] stands for -1. *)
Fixpoint lastIndexOf (c : ascii) (s : string) : option nat :=
  match s with
  | EmptyString => None
  | String a r =>
      match lastIndexOf c r with
      | Some i => Some (S i)
      | None => if Ascii.eqb a c then Some O else None
      end
  end.

(** [s.substring(0, k)], where a negative [k] counts as 0. *)
Definition substring_to (k : option nat) (s : string) : string :=
  match k with
  | Some n => String.substring 0 n s
  | None => EmptyString
  end.

Fixpoint drop_ws_end (s : string) : string :=
  match s with
  | EmptyString => EmptyString
  | String c r =>
      match drop_ws_end r with
      | EmptyString => if is_ws c then EmptyString else String c EmptyString
      | r' => String c r'
      end
  end.

(** [s.trim()]. *)
Definition trim (s : string) : string := drop_ws_end (skip_ws s).

(** The UTF-16 code units of the text the bytes encode in UTF-8.  The
    first byte of a character counts for one unit and a continuation byte
    for none, except that a character of four bytes is a surrogate pair:
    its second unit is counted at its first continuation byte, which
    [pair] announces. *)
Fixpoint utf16_units (pair : bool) (s : string) : nat :=
  match s with
  | EmptyString => 0%nat
  | String c r =>
      let n := nat_of_ascii c in
      if (n <? 128)%nat then S (utf16_units false r)
      else if (n <? 192)%nat
      then (if pair then S (utf16_units false r) else utf16_units false r)
      else if (n <? 240)%nat then S (utf16_units false r)
      else S (utf16_units true r)
  end.

(** [s.length]: the number of UTF-16 code units of the string. *)
Definition length (s : string) : nat := utf16_units false s.

End JS.

(* ===================================================================== *)
(** ** HTTP responses and thrown errors *)
(* ===================================================================== *)

Module Http.

(** The JSON value handed to [res.json].  A property whose value is
    [undefined] is left out by the serializer, so it never appears in
    [JObj]. *)
Inductive json : Type :=
| JNull
| JBool (b : bool)
| JNum (n : JS.jsnum)
| JStr (s : string)
| JArr (items : list json)
| JObj (props : list (string * json)).

Fixpoint assoc (k : string) (props : list (string * json)) : option json :=
  match props with
  | nil => None
  | (k', v) :: rest => if String.eqb k k' then Some v else assoc k rest
  end.

(** [o.k] on a JSON object. *)
Definition prop (k : string) (o : json) : option json :=
  match o with
  | JObj props => assoc k props
  | _ => None
  end.

Definition has_prop (k : string) (o : json) : bool :=
  match prop k o with Some _ => true | None => false end.

(** An optional property: present only when the value is defined. *)
Definition opt_prop (k : string) (v : option json) : list (string * json) :=
  match v with
  | Some j => (k, j) :: nil
  | None => nil
  end.

Record response : Type := mkResponse { status : Z; body : json }.

Definition is_success (r : response) : bool :=
  ((200 <=? status r)%Z && (status r <? 300)%Z)%bool.

Definition is_client_error (r : response) : bool :=
  ((400 <=? status r)%Z && (status r <? 500)%Z)%bool.

(** A thrown JavaScript error. *)
Record error : Type := mkError {
  name : string;
  message : string;
  code : option Z
}.

Inductive result (A : Type) : Type :=
| Ok (a : A)
| Throw (e : error).

Arguments Ok {A} a.
Arguments Throw {A} e.

End Http.

Import Http.

(* ===================================================================== *)
(** ** ObjectIds *)
(* ===================================================================== *)

Module Mongo.

Definition is_hex (c : ascii) : bool :=
  let n := nat_of_ascii c in
  ((48 <=? n)%nat && (n <=? 57)%nat)
  || ((97 <=? n)%nat && (n <=? 102)%nat)
  || ((65 <=? n)%nat && (n <=? 70)%nat).

Fixpoint all_hex (s : string) : bool :=
  match s with
  | EmptyString => true
  | String c r => is_hex c && all_hex r
  end.

(** Does the string cast to an ObjectId?  The cast accepts a string of 24
    hexadecimal digits, in either case. *)
Definition isObjectId (s : string) : bool :=
  (String.length s =? 24)%nat && all_hex s.

Definition lower_hex (c : ascii) : ascii :=
  let n := nat_of_ascii c in
  if (65 <=? n)%nat && (n <=? 70)%nat then ascii_of_nat (n + 32) else c.

(** The string form of the ObjectId a string of hexadecimal digits casts
    to: the same digits in lower case. *)
Fixpoint canon (s : string) : string :=
  match s with
  | EmptyString => EmptyString
  | String c r => String (lower_hex c) (canon r)
  end.

(** The cast of a request identifier. *)
Definition castObjectId (s : string) : option string :=
  if isObjectId s then Some (canon s) else None.

(** Is the string the string form of an ObjectId? *)
Definition is_id (s : string) : bool :=
  isObjectId s && String.eqb (canon s) s.

(** The error of a failed cast on the given path. *)
Definition cast_error (path : string) : error :=
  mkError "CastError" ("Cast to ObjectId failed at path " ++ path) None.

(** The cast of an optional reference: [null] stays [null]. *)
Definition castable_ref (v : option string) : bool :=
  match v with
  | Some s => isObjectId s
  | None => true
  end.

End Mongo.

(* ===================================================================== *)
(** ** src/controllers/genericController.js *)
(* ===================================================================== *)

Module Generic.

(** [req.body] of the catalog routes: an object with string properties. *)
Abbreviation body_t := (gmap string string).

(** What the factory uses of the Mongoose model it is given.  [new_doc] is
    [new Model(req.body)], with the identifier the driver generates for
    it; the three operations return the collection after the call, or
    throw. *)
Record Model : Type := mkModel {
  doc : Type;
  collection : Type;
  new_doc : string -> body_t -> doc;
  save : doc -> collection -> result (doc * collection);
  findByIdAndUpdate : string -> body_t -> collection -> result (option doc * collection);
  findByIdAndDelete : string -> collection -> result (option doc * collection);
  toJSON : doc -> json
}.

(** [handleError(res, error, message)]. *)
Definition handleError (e : error) (msg : string) : response :=
  mkResponse 500 (JObj (("message", JStr msg) :: ("error", JStr (message e)) :: nil)).

Definition not_found : response :=
  mkResponse 404 (JObj (("message", JStr "Item no encontrado") :: nil)).

(** [createOne(Model)]. *)
Definition createOne (M : Model) (fresh_id : string) (body : body_t)
    (c : collection M) : collection M * response :=
  match save M (new_doc M fresh_id body) c with
  | Ok (savedItem, c') => (c', mkResponse 201 (toJSON M savedItem))
  | Throw e => (c, handleError e "Error al crear el item")
  end.

(** [updateOne(Model)], with [req.params.id] and [req.body]. *)
Definition updateOne (M : Model) (id : string) (body : body_t)
    (c : collection M) : collection M * response :=
  match findByIdAndUpdate M id body c with
  | Ok (None, c') => (c', not_found)
  | Ok (Some updatedItem, c') => (c', mkResponse 200 (toJSON M updatedItem))
  | Throw e => (c, handleError e "Error al actualizar el item")
  end.

(** [deleteOne(Model)], with [req.params.id]. *)
Definition deleteOne (M : Model) (id : string)
    (c : collection M) : collection M * response :=
  match findByIdAndDelete M id c with
  | Ok (None, c') => (c', not_found)
  | Ok (Some _, c') =>
      (c', mkResponse 200
             (JObj (("message", JStr "Item eliminado exitosamente")
                    :: ("_id", JStr id) :: nil)))
  | Throw e => (c, handleError e "Error al eliminar el item")
  end.

(** *** The collection behind a catalog model

    A schema as the files under src/models declare it: for each path
    whether it is required (with its message), unique, and trimmed.  All
    catalog paths are strings.  A collection maps an identifier to the
    paths of its document; the time stamps are left out. *)

Record path_spec : Type := mkPath {
  path : string;
  required : option string;
  unique : bool;
  trim : bool
}.

Definition schema : Type := list path_spec.

Abbreviation fields_t := (gmap string string).

Record document : Type := mkDoc { _id : string; fields : fields_t }.

(** Only the paths of the schema are kept, trimmed where the schema says. *)
Definition cast (sch : schema) (body : body_t) : fields_t :=
  fold_right
    (fun p acc =>
       match body !! path p with
       | Some v => <[path p := if trim p then JS.trim v else v]> acc
       | None => acc
       end) ∅ sch.

Definition validation_error (msg : string) : error :=
  mkError "ValidationError" msg None.

Definition duplicate_key : error :=
  mkError "MongoServerError" "E11000 duplicate key error" (Some 11000).

(** The first required path of [ps] that is missing or empty in [f]. *)
Fixpoint check_required (ps : list path_spec) (f : fields_t) : option error :=
  match ps with
  | nil => None
  | p :: rest =>
      match required p, f !! path p with
      | Some msg, None | Some msg, Some "" => Some (validation_error msg)
      | _, _ => check_required rest f
      end
  end.

(** Does another document hold the same value on a unique path? *)
Definition clashes (sch : schema) (id : string) (f : fields_t)
    (c : gmap string fields_t) : bool :=
  existsb
    (fun p =>
       unique p &&
       match f !! path p with
       | Some v =>
           bool_decide (map_Exists (fun id' f' => id' ≠ id ∧ f' !! path p = Some v) c)
       | None => false
       end) sch.

(** [doc.save()] on a new document.  The identifier of the document is
    the one generated for it; a document whose identifier is not the
    string form of an ObjectId is refused, as no such document can be
    written. *)
Definition mem_save (sch : schema) (d : document) (c : gmap string fields_t)
    : result (document * gmap string fields_t) :=
  match check_required sch (fields d) with
  | Some e => Throw e
  | None =>
      if clashes sch (_id d) (fields d) c || bool_decide (is_Some (c !! _id d))
      then Throw duplicate_key
      else if negb (Mongo.is_id (_id d)) then Throw (Mongo.cast_error "_id")
      else Ok (d, <[_id d := fields d]> c)
  end.

(** The validators that [runValidators] runs: the ones of the paths of the
    update. *)
Definition update_validators (sch : schema) (upd : fields_t) : option error :=
  check_required (filter (fun p => bool_decide (is_Some (upd !! path p))) sch) upd.

(** [Model.findByIdAndUpdate(id, body, { new: true, runValidators: true })]:
    the identifier and the update are cast and the update is validated
    before the store is asked for the document, so a rejected update
    throws whether or not the identifier is stored. *)
Definition mem_findByIdAndUpdate (sch : schema) (id : string) (body : body_t)
    (c : gmap string fields_t) : result (option document * gmap string fields_t) :=
  match Mongo.castObjectId id with
  | None => Throw (Mongo.cast_error "_id")
  | Some oid =>
      let upd := cast sch body in
      match update_validators sch upd with
      | Some e => Throw e
      | None =>
          match c !! oid with
          | None => Ok (None, c)
          | Some old =>
              let f := upd ∪ old in
              if clashes sch oid upd c then Throw duplicate_key
              else Ok (Some (mkDoc oid f), <[oid := f]> c)
          end
      end
  end.

(** [Model.findByIdAndDelete(id)]. *)
Definition mem_findByIdAndDelete (id : string) (c : gmap string fields_t)
    : result (option document * gmap string fields_t) :=
  match Mongo.castObjectId id with
  | None => Throw (Mongo.cast_error "_id")
  | Some oid =>
      match c !! oid with
      | None => Ok (None, c)
      | Some old => Ok (Some (mkDoc oid old), delete oid c)
      end
  end.

Definition mem_toJSON (sch : schema) (d : document) : json :=
  JObj (("_id", JStr (_id d))
        :: omap (fun p => (fun v => (path p, JStr v)) <$> fields d !! path p) sch).

Definition memModel (sch : schema) : Model :=
  {| doc := document;
     collection := gmap string fields_t;
     new_doc := fun id body => mkDoc id (cast sch body);
     save := mem_save sch;
     findByIdAndUpdate := mem_findByIdAndUpdate sch;
     findByIdAndDelete := mem_findByIdAndDelete;
     toJSON := mem_toJSON sch |}.

(** src/models/Marca.js *)
Definition marcaSchema : schema :=
  mkPath "nombre" (Some "El nombre de la marca es obligatorio") true true :: nil.

(** src/models/Modelo.js *)
Definition modeloSchema : schema :=
  mkPath "nombre" (Some "El nombre del modelo es obligatorio") true true :: nil.

(** The color and size models. *)
Definition colorSchema : schema :=
  mkPath "nombre" (Some "El nombre del color es obligatorio") true true
  :: mkPath "hexCode" None false true :: nil.

Definition tallaSchema : schema :=
  mkPath "nombre" (Some "El nombre de la talla es obligatorio") false true :: nil.

End Generic.

(* ===================================================================== *)
(** ** src/middleware/authMiddleware.js *)
(* ===================================================================== *)

Module Auth.

Record request : Type := mkRequest {
  authorization : option string;   (* req.headers.authorization *)
  userId : option string           (* req.userId *)
}.

(** The payload [jwt.verify] returns; the middleware reads its [id]. *)
Record claim : Type := mkClaim { claim_id : option string }.

(** What the middleware does with the request: it hands it to the next
    handler of the route, or it sends a response. *)
Inductive action : Type :=
| Next (req : request)
| Send (r : response).

Definition unauthorized (msg : string) : response :=
  mkResponse 401 (JObj (("message", JStr msg) :: nil)).

(** [req.headers.authorization.split(' ')[1]]. *)
Definition bearer_token (header : string) : option string :=
  JS.split_space header !! 1%nat.

Section Protect.

(** [jwt.verify(token, process.env.JWT_SECRET)]: the decoded payload, or a
    thrown error for a token that is missing, malformed, expired or signed
    with another key. *)
Variable jwt_verify : option string -> result claim.

(** [protect(req, res, next)].  [token] is assigned before the
    verification, so it stays set when the verification throws. *)
Definition protect (req : request) : list action :=
  let '(token, done) :=
    match authorization req with
    | Some header =>
        if JS.truthy (Some header) && JS.starts_with "Bearer" header then
          let token := bearer_token header in
          match jwt_verify token with
          | Ok decoded =>
              (token, Next (mkRequest (authorization req) (claim_id decoded)) :: nil)
          | Throw _ =>
              (token, Send (unauthorized "Token no válido o expirado") :: nil)
          end
        else (None, nil)
    | None => (None, nil)
    end in
  done ++
  (if JS.truthy token then nil
   else Send (unauthorized "No autorizado, no se proporcionó token") :: nil).

Definition is_next (a : action) : bool :=
  match a with Next _ => true | Send _ => false end.

(** Was the protected handler reached? *)
Definition next_called (req : request) : bool := existsb is_next (protect req).

End Protect.

End Auth.

(* ===================================================================== *)
(** ** src/models/User.js, the authentication controller and
       src/controllers/userController.js *)
(* ===================================================================== *)

Module Users.

Record role : Type := mkRole { role_id : string; role_nombre : string }.

(** A user document.  [modified] lists the paths changed since the
    document was loaded or created: it is what [isModified] reads. *)
Record user : Type := mkUser {
  _id : string;
  nombre : option string;
  email : option string;
  password : option string;
  idRol : string;
  direcciones : list json;
  modified : list string
}.

Record state : Type := mkState { users : list user; roles : list role }.

(** The library functions the model and the controllers call. *)
Record Libs : Type := mkLibs {
  bcrypt_hash : string -> string -> string;      (* bcrypt.hash(plain, salt) *)
  bcrypt_compare : string -> string -> bool;     (* bcrypt.compare(plain, hash) *)
  jwt_sign : string -> option string -> string;  (* jwt.sign({ id, role }, secret, ...) *)
  validate : user -> option error;               (* the schema validators run by save *)
  toLowerCase : string -> string                 (* String.prototype.toLowerCase *)
}.

Definition isModified (p : string) (u : user) : bool :=
  bool_decide (p ∈ modified u).

Definition mark (p : string) (u : user) : list string :=
  if isModified p u then modified u else p :: modified u.

(** The [trim] setter of the schema: the value given to the path is
    trimmed. *)
Definition trimmed (v : option string) : option string := JS.trim <$> v.

(** Assignments to the paths of a document: the setters of the path are
    applied to the value, and the path is marked as modified when its
    value changes.  [nombre] has the [trim] setter, [password] has none. *)
Definition set_nombre (v : option string) (u : user) : user :=
  let v := trimmed v in
  if bool_decide (nombre u = v) then u
  else mkUser (_id u) v (email u) (password u) (idRol u) (direcciones u) (mark "nombre" u).

Definition set_password (v : option string) (u : user) : user :=
  if bool_decide (password u = v) then u
  else mkUser (_id u) (nombre u) (email u) v (idRol u) (direcciones u) (mark "password" u).

Definition duplicate_key : error :=
  mkError "MongoServerError" "E11000 duplicate key error" (Some 11000).

Definition illegal_arguments : error :=
  mkError "Error" "Illegal arguments" None.

Definition type_error : error :=
  mkError "TypeError" "Cannot read properties of null" None.

Section WithLibs.

Variable L : Libs.

(** The [lowercase] setter of the schema: a value that is not empty is
    put in lower case. *)
Definition lowercased (v : option string) : option string :=
  (fun s => if String.eqb s "" then s else toLowerCase L s) <$> v.

(** The setters of [email], [lowercase] and [trim]: the value is trimmed,
    then put in lower case. *)
Definition email_setters (v : option string) : option string :=
  lowercased (trimmed v).

Definition set_email (v : option string) (u : user) : user :=
  let v := email_setters v in
  if bool_decide (email u = v) then u
  else mkUser (_id u) (nombre u) v (password u) (idRol u) (direcciones u) (mark "email" u).

(** [new User({ nombre, email, password, idRol })]: every path that is
    given a value is modified. *)
Definition new_User (id : string) (n e p : option string) (r : string) : user :=
  set_password p (set_email e (set_nombre n
    (mkUser id None None None r nil ("idRol" :: nil)))).

(** [userSchema.pre('save', ...)]: the password is hashed only when it was
    modified. *)
Definition pre_save (salt : string) (u : user) : result user :=
  if negb (isModified "password" u) then Ok u
  else
    match password u with
    | Some plain => Ok (set_password (Some (bcrypt_hash L plain salt)) u)
    | None => Throw illegal_arguments
    end.

(** [userSchema.methods.comparePassword]. *)
Definition comparePassword (candidate : option string) (u : user) : result bool :=
  match candidate, password u with
  | Some c, Some h => Ok (bcrypt_compare L c h)
  | _, _ => Throw illegal_arguments
  end.

(** A document read from the collection has no modified path. *)
Definition load (u : user) : user :=
  mkUser (_id u) (nombre u) (email u) (password u) (idRol u) (direcciones u) nil.

(** [User.findById(id)] for an identifier that casts: the user whose
    identifier is the ObjectId the string casts to. *)
Definition findById (id : string) (us : list user) : option user :=
  load <$> find (fun u => String.eqb (_id u) (Mongo.canon id)) us.

(** [User.findOne({ email })]: the setters of the path are applied to the
    value of the query too. *)
Definition findOne_email (e : option string) (us : list user) : option user :=
  load <$> find (fun u => bool_decide (email u = email_setters e)) us.

(** [Role.findOne({ nombre })]. *)
Definition findOne_role (n : string) (rs : list role) : option role :=
  find (fun r => String.eqb (role_nombre r) n) rs.

Definition role_by_id (id : string) (rs : list role) : option role :=
  find (fun r => String.eqb (role_id r) id) rs.

(** The write of a saved document: it replaces the stored document with the
    same identifier, or is appended. *)
Fixpoint upsert (u : user) (us : list user) : list user :=
  match us with
  | nil => u :: nil
  | v :: rest => if String.eqb (_id v) (_id u) then u :: rest else v :: upsert u rest
  end.

(** The unique index on [email]. *)
Definition email_taken (u : user) (us : list user) : bool :=
  existsb (fun v => negb (String.eqb (_id v) (_id u)) && bool_decide (email v = email u)) us.

(** [doc.save()]: validation, then the pre-save hook, then the write.  The
    saved document is returned with no modified path left.  A document
    whose identifier is not the string form of an ObjectId is refused, as
    no such document can be written. *)
Definition save (salt : string) (u : user) (us : list user) : result (user * list user) :=
  match validate L u with
  | Some e => Throw e
  | None =>
      match pre_save salt u with
      | Throw e => Throw e
      | Ok h =>
          if email_taken h us then Throw duplicate_key
          else if negb (Mongo.is_id (_id h)) then Throw (Mongo.cast_error "_id")
          else
            let stored := load h in
            Ok (stored, upsert stored us)
      end
  end.

(** The JSON form of a user; [rol] is the value of [idRol], populated or
    not.  A path that is [undefined] is left out. *)
Definition user_json (rol : json) (u : user) : json :=
  JObj (("_id", JStr (_id u))
        :: opt_prop "nombre" (JStr <$> nombre u)
        ++ opt_prop "email" (JStr <$> email u)
        ++ opt_prop "password" (JStr <$> password u)
        ++ ("idRol", rol) :: ("direcciones", JArr (direcciones u)) :: nil).

Definition role_json (r : role) : json :=
  JObj (("_id", JStr (role_id r)) :: ("nombre", JStr (role_nombre r)) :: nil).

Definition populated (rs : list role) (u : user) : json :=
  match role_by_id (idRol u) rs with
  | Some r => role_json r
  | None => JNull
  end.

Definition msg (status : Z) (m : string) : response :=
  mkResponse status (JObj (("message", JStr m) :: nil)).

Definition server_error (m : string) (e : error) : response :=
  mkResponse 500 (JObj (("message", JStr m) :: ("error", JStr (message e)) :: nil)).

Definition dquote : string := String (ascii_of_nat 34) EmptyString.

(** [loginUser], with [req.body.email] and [req.body.password]. *)
Definition loginUser (st : state) (email_ password_ : option string) : response :=
  match findOne_email email_ (users st) with
  | None => msg 401 "Credenciales inválidas (email)"
  | Some u =>
      match comparePassword password_ u with
      | Throw e => server_error "Error en el servidor al intentar iniciar sesión" e
      | Ok false => msg 401 "Credenciales inválidas (contraseña)"
      | Ok true =>
          match role_by_id (idRol u) (roles st) with
          | None => server_error "Error en el servidor al intentar iniciar sesión" type_error
          | Some r =>
              let token := jwt_sign L (_id u) (Some (role_nombre r)) in
              let u' := set_password None u in
              mkResponse 200
                (JObj (("token", JStr token) :: ("user", user_json (role_json r) u') :: nil))
          end
      end
  end.

(** [registerAdmin]. *)
Definition registerAdmin (salt fresh_id : string) (st : state)
    (nombre_ email_ password_ : option string) : state * response :=
  match findOne_role "admin" (roles st) with
  | None =>
      (st, msg 500 ("Error de configuración: El rol " ++ dquote ++ "admin" ++ dquote
                    ++ " no existe en la BD."))
  | Some adminRole =>
      match findOne_email email_ (users st) with
      | Some _ => (st, msg 400 "El email ya está registrado")
      | None =>
          let newUser := new_User fresh_id nombre_ email_ password_ (role_id adminRole) in
          match save salt newUser (users st) with
          | Throw e => (st, server_error "Error al registrar administrador" e)
          | Ok (savedUser, us) =>
              let savedUser := set_password None savedUser in
              (mkState us (roles st),
               mkResponse 201
                 (JObj (("message", JStr "Administrador creado exitosamente")
                        :: ("user", user_json (JStr (idRol savedUser)) savedUser) :: nil)))
          end
      end
  end.

(** [registerClient]. *)
Definition registerClient (salt fresh_id : string) (st : state)
    (nombre_ email_ password_ : option string) : state * response :=
  if negb (JS.truthy nombre_) || negb (JS.truthy email_) || negb (JS.truthy password_)
  then (st, msg 400 "Todos los campos son obligatorios.")
  else if (JS.length (default "" password_) <? 6)%nat
  then (st, msg 400 "La contraseña debe tener al menos 6 caracteres.")
  else
    match findOne_role "cliente" (roles st) with
    | None =>
        (st, msg 500 ("Error de configuración: El rol " ++ dquote ++ "cliente" ++ dquote
                      ++ " no existe."))
    | Some clientRole =>
        match findOne_email email_ (users st) with
        | Some _ => (st, msg 400 "El email ya está registrado.")
        | None =>
            let newUser := new_User fresh_id nombre_ email_ password_ (role_id clientRole) in
            match save salt newUser (users st) with
            | Throw e => (st, server_error "Error al registrar el usuario" e)
            | Ok (savedUser, us) =>
                let token := jwt_sign L (_id savedUser) (Some (role_nombre clientRole)) in
                let savedUser := set_password None savedUser in
                (mkState us (roles st),
                 mkResponse 201
                   (JObj (("message", JStr "Usuario creado exitosamente.")
                          :: ("token", JStr token)
                          :: ("user", user_json (JStr (idRol savedUser)) savedUser) :: nil)))
            end
        end
    end.

(** [.select('-password')]. *)
Definition without_password (u : user) : user :=
  mkUser (_id u) (nombre u) (email u) None (idRol u) (direcciones u) (modified u).

(** [getAdminUsers]. *)
Definition getAdminUsers (st : state) : response :=
  match findOne_role "admin" (roles st) with
  | None =>
      msg 500 ("Error de configuración: El rol " ++ dquote ++ "admin" ++ dquote
               ++ " no existe.")
  | Some adminRole =>
      let admins :=
        filter (fun u => String.eqb (idRol u) (role_id adminRole) = true) (users st) in
      mkResponse 200
        (JArr (map (fun u => user_json (populated (roles st) u) (without_password u)) admins))
  end.

(** [updateUser], with [req.params.id] and [req.body]. *)
Definition updateUser (salt : string) (st : state) (id : string)
    (nombre_ email_ password_ : option string) : state * response :=
  if negb (Mongo.isObjectId id)
  then (st, server_error "Error al actualizar el usuario" (Mongo.cast_error "_id"))
  else
  match findById id (users st) with
  | None => (st, msg 404 "Usuario no encontrado")
  | Some u =>
      let u := set_nombre (JS.or_else nombre_ (nombre u)) u in
      let u := set_email (JS.or_else email_ (email u)) u in
      let u :=
        if JS.truthy password_ && (6 <=? JS.length (default "" password_))%nat
        then set_password password_ u else u in
      match save salt u (users st) with
      | Ok (updatedUser, us) =>
          let updatedUser := set_password None updatedUser in
          (mkState us (roles st),
           mkResponse 200
             (JObj (("message", JStr "Usuario actualizado exitosamente")
                    :: ("user", user_json (JStr (idRol updatedUser)) updatedUser) :: nil)))
      | Throw e =>
          if bool_decide (code e = Some 11000)
          then (st, msg 400 "El email ya está en uso por otro usuario.")
          else (st, server_error "Error al actualizar el usuario" e)
      end
  end.

End WithLibs.

End Users.

(* ===================================================================== *)
(** ** The product model and the product controller *)
(* ===================================================================== *)

Module Products.

(** A stored product.  The references are kept as identifiers. *)
Record product : Type := mkProduct {
  _id : string;
  NombreProducto : string;
  PrecioVenta : JS.jsnum;
  imagen : option string;
  stock : JS.jsnum;
  idMarca : string;
  idModelo : option string;
  idColor : option string;
  idTalla : option string;
  createdAt : Z
}.

(** The collection, in its natural order.  Identifiers are unique. *)
Abbreviation collection := (list product).

(** [JSON.stringify] writes NaN and the infinities as [null]. *)
Definition number (n : JS.jsnum) : json :=
  match n with JS.Fin _ => JNum n | _ => JNull end.

Definition nullable (v : option string) : json :=
  match v with Some s => JStr s | None => JNull end.

Definition product_json (p : product) : json :=
  JObj (("_id", JStr (_id p))
        :: ("NombreProducto", JStr (NombreProducto p))
        :: ("PrecioVenta", number (PrecioVenta p))
        :: opt_prop "imagen" (JStr <$> imagen p)
        ++ ("stock", number (stock p))
        :: ("idMarca", JStr (idMarca p))
        :: ("idModelo", nullable (idModelo p))
        :: ("idColor", nullable (idColor p))
        :: ("idTalla", nullable (idTalla p))
        :: nil).

Definition server_error (m : string) (e : error) : response :=
  mkResponse 500 (JObj (("message", JStr m) :: ("error", JStr (message e)) :: nil)).

Definition cast_error : error := mkError "CastError" "Cast to Number failed" None.

Definition validation_error : error :=
  mkError "ValidationError" "Validation failed" None.

Definition bad_value : error := mkError "MongoServerError" "BadValue" None.

(** *** getAllProducts *)

(** [req.query]: each parameter is a string or absent. *)
Record query : Type := mkQuery {
  search : option string;
  marca : option string;
  color : option string;
  minPrice : option string;
  maxPrice : option string;
  sort : option string;
  page : option string;
  limit : option string
}.

(** [{ $gte, $lte }], each bound present or not. *)
Record price_range : Type := mkRange {
  gte : option JS.jsnum;
  lte : option JS.jsnum
}.

Record filterObject : Type := mkFilter {
  f_NombreProducto : option string;       (* { $regex: search, $options: 'i' } *)
  f_idMarca : option string;
  f_idColor : option string;
  f_PrecioVenta : option price_range
}.

Inductive sortObject : Type :=
| PrecioVenta_asc      (* { PrecioVenta: 1 } *)
| PrecioVenta_desc     (* { PrecioVenta: -1 } *)
| createdAt_desc.      (* { createdAt: -1 } *)

Definition build_filter (q : query) : filterObject :=
  mkFilter
    (JS.keep_truthy (search q))
    (JS.keep_truthy (marca q))
    (JS.keep_truthy (color q))
    (if JS.truthy (minPrice q) || JS.truthy (maxPrice q) then
       Some (mkRange
               (if JS.truthy (minPrice q) then Some (JS.parseFloat_opt (minPrice q)) else None)
               (if JS.truthy (maxPrice q) then Some (JS.parseFloat_opt (maxPrice q)) else None))
     else None).

Definition build_sort (q : query) : sortObject :=
  let sort := default "newest" (sort q) in
  if String.eqb sort "price-asc" then PrecioVenta_asc
  else if String.eqb sort "price-desc" then PrecioVenta_desc
  else createdAt_desc.

(** The defaults of the destructuring apply to an absent parameter only;
    [parseInt] reads the default number through its decimal form. *)
Definition pageNum (q : query) : JS.jsnum := JS.parseInt (default "1" (page q)).

Definition limitNum (q : query) : JS.jsnum := JS.parseInt (default "8" (limit q)).

Definition skip (q : query) : JS.jsnum :=
  JS.mul (JS.sub (pageNum q) (JS.ofZ 1)) (limitNum q).

(** The integer a number holds, if it is one. *)
Definition as_integer (n : JS.jsnum) : option Z :=
  match n with
  | JS.Fin x => if Qeq_bool (inject_Z (Qfloor x)) x then Some (Qfloor x) else None
  | _ => None
  end.

Fixpoint insert_by (le : product -> product -> bool) (x : product)
    (l : list product) : list product :=
  match l with
  | nil => x :: nil
  | y :: rest => if le x y then x :: l else y :: insert_by le x rest
  end.

Definition sort_by (le : product -> product -> bool) (l : list product) : list product :=
  fold_right (insert_by le) nil l.

Definition sort_le (s : sortObject) (a b : product) : bool :=
  match s with
  | PrecioVenta_asc => JS.leb (PrecioVenta a) (PrecioVenta b)
  | PrecioVenta_desc => JS.geb (PrecioVenta a) (PrecioVenta b)
  | createdAt_desc => (createdAt b <=? createdAt a)%Z
  end.

Section Store.

(** Does the text match the pattern, case-insensitively?  The regular
    expression engine is the server's. *)
Variable regex_test : string -> string -> bool.

Definition in_range (r : price_range) (x : JS.jsnum) : bool :=
  match gte r with Some lo => JS.geb x lo | None => true end
  && match lte r with Some hi => JS.leb x hi | None => true end.

(** Does the product satisfy the filter?  The brand and the color of the
    filter are compared as the ObjectIds they cast to. *)
Definition matches (f : filterObject) (p : product) : bool :=
  match f_NombreProducto f with Some re => regex_test re (NombreProducto p) | None => true end
  && match f_idMarca f with Some m => String.eqb (idMarca p) (Mongo.canon m) | None => true end
  && match f_idColor f with
     | Some c => bool_decide (idColor p = Some (Mongo.canon c))
     | None => true
     end
  && match f_PrecioVenta f with Some r => in_range r (PrecioVenta p) | None => true end.

(** Can the filter be cast to the types of its paths?  A NaN bound is no
    Number, and a brand or a color that is not made of 24 hexadecimal
    digits is no ObjectId. *)
Definition castable (f : filterObject) : bool :=
  match f_PrecioVenta f with
  | Some r =>
      negb (JS.isNaN (default (JS.ofZ 0) (gte r)))
      && negb (JS.isNaN (default (JS.ofZ 0) (lte r)))
  | None => true
  end
  && Mongo.castable_ref (f_idMarca f)
  && Mongo.castable_ref (f_idColor f).

(** [Product.countDocuments(filter)]. *)
Definition countDocuments (f : filterObject) (c : collection) : result nat :=
  if castable f then Ok (List.length (List.filter (matches f) c)) else Throw cast_error.

(** [.limit(n)]: 0 asks for no limit, a negative number for its absolute
    value. *)
Definition apply_limit (n : Z) (l : list product) : list product :=
  if (n =? 0)%Z then l else firstn (Z.to_nat (Z.abs n)) l.

(** [Product.find(filter).sort(s).skip(k).limit(n)].  The skip has to be a
    non-negative integer and the limit an integer.  The store promises no
    order among documents with equal sort keys; here they keep the order
    of the collection.  [may_answer] below is what the store may answer,
    whatever it does with equal keys. *)
Definition find (f : filterObject) (s : sortObject) (k n : JS.jsnum)
    (c : collection) : result (list product) :=
  if castable f then
    match as_integer k, as_integer n with
    | Some k', Some n' =>
        if (k' <? 0)%Z then Throw bad_value
        else Ok (apply_limit n' (skipn (Z.to_nat k') (sort_by (sort_le s) (List.filter (matches f) c))))
    | _, _ => Throw bad_value
    end
  else Throw cast_error.

(** The fetch without pagination: no record skipped, no limit. *)
Definition unpaginated (f : filterObject) (s : sortObject) (c : collection)
    : result (list product) :=
  find f s (JS.ofZ 0) (JS.ofZ 0) c.


(** [getAllProducts], with [req.query]. *)
Definition getAllProducts (q : query) (c : collection) : response :=
  let filterObject := build_filter q in
  let sortObject := build_sort q in
  let pageNum := pageNum q in
  let limitNum := limitNum q in
  let skip := skip q in
  match countDocuments filterObject c with
  | Throw e => server_error "Error al obtener los productos" e
  | Ok totalProducts =>
      let totalPages := JS.ceil (JS.div (JS.ofZ (Z.of_nat totalProducts)) limitNum) in
      match find filterObject sortObject skip limitNum c with
      | Throw e => server_error "Error al obtener los productos" e
      | Ok products =>
          mkResponse 200
            (JObj (("products", JArr (map product_json products))
                   :: ("currentPage", number pageNum)
                   :: ("totalPages", number totalPages)
                   :: ("totalProducts", number (JS.ofZ (Z.of_nat totalProducts)))
                   :: nil))
      end
  end.

End Store.

(** *** updateProduct *)

(** [req.file], as the upload middleware leaves it. *)
Record file : Type := mkFile {
  file_path : string;
  file_filename : option string
}.

(** [req.body] of the update: a multipart form, every field a string or
    absent. *)
Record update_body : Type := mkBody {
  b_NombreProducto : option string;
  b_PrecioVenta : option string;
  b_stock : option string;
  b_idMarca : option string;
  b_idModelo : option string;
  b_idColor : option string;
  b_idTalla : option string
}.

(** The update sent to the store.  An [undefined] name, brand or image
    leaves the stored value as it is; the three optional references are
    written as given, [null] included. *)
Record updateData : Type := mkUpdate {
  u_NombreProducto : option string;
  u_PrecioVenta : JS.jsnum;
  u_stock : JS.jsnum;
  u_idMarca : option string;
  u_idModelo : option string;
  u_idColor : option string;
  u_idTalla : option string;
  u_imagen : option string
}.

(** Side effects started and not awaited. *)
Inductive effect : Type :=
| Destroy (public_id : string)                                (* cloudinary uploader.destroy *)
| PriceChangeEmail (updated : product) (oldPrice : JS.jsnum). (* sendPriceChangeEmail *)

Definition is_email (e : effect) : bool :=
  match e with PriceChangeEmail _ _ => true | Destroy _ => false end.

(** [Product.findById(id)] for an identifier that casts: the product
    whose identifier is the ObjectId the string casts to. *)
Definition findById (id : string) (c : collection) : option product :=
  List.find (fun p => String.eqb (_id p) (Mongo.canon id)) c.

Fixpoint replace (p' : product) (c : collection) : collection :=
  match c with
  | nil => nil
  | x :: rest =>
      if String.eqb (_id x) (_id p') then p' :: rest else x :: replace p' rest
  end.

(** The references are stored as the ObjectIds they cast to. *)
Definition apply_update (u : updateData) (p : product) : product :=
  mkProduct (_id p)
    (default (NombreProducto p) (u_NombreProducto u))
    (u_PrecioVenta u)
    (match u_imagen u with Some i => Some i | None => imagen p end)
    (u_stock u)
    (default (idMarca p) (Mongo.canon <$> u_idMarca u))
    (Mongo.canon <$> u_idModelo u) (Mongo.canon <$> u_idColor u)
    (Mongo.canon <$> u_idTalla u)
    (createdAt p).

(** The cast of an update and the validators of the product schema on its
    paths: the numbers have to be numbers and the references ObjectIds,
    the price at least 0, the name not empty. *)
Definition update_validators (u : updateData) : option error :=
  if JS.isNaN (u_PrecioVenta u) || JS.isNaN (u_stock u) then Some cast_error
  else if negb (Mongo.castable_ref (u_idMarca u) && Mongo.castable_ref (u_idModelo u)
                && Mongo.castable_ref (u_idColor u) && Mongo.castable_ref (u_idTalla u))
  then Some (Mongo.cast_error "idMarca, idModelo, idColor, idTalla")
  else if negb (JS.geb (u_PrecioVenta u) (JS.ofZ 0)) then Some validation_error
  else if bool_decide (u_NombreProducto u = Some "") then Some validation_error
  else None.

(** [Product.findByIdAndUpdate(id, updateData, { new: true, runValidators: true })]:
    the identifier and the update are cast and the update is validated
    before the store is asked for the document. *)
Definition findByIdAndUpdate (id : string) (u : updateData) (c : collection)
    : result (option product * collection) :=
  if negb (Mongo.isObjectId id) then Throw (Mongo.cast_error "_id")
  else
    match update_validators u with
    | Some e => Throw e
    | None =>
        match findById id c with
        | None => Ok (None, c)
        | Some p => let p' := apply_update u p in Ok (Some p', replace p' c)
        end
    end.

(** The public id of the stored image, read off its URL. *)
Definition old_public_id (oldImagePath : string) : option string :=
  let urlParts := JS.split "/" oldImagePath in
  match JS.indexOf "prostore_products" urlParts with
  | Some folderIndex =>
      let publicIdWithFolderAndExt := JS.join "/" (skipn folderIndex urlParts) in
      let publicId :=
        JS.substring_to (JS.lastIndexOf "." publicIdWithFolderAndExt)
                        publicIdWithFolderAndExt in
      JS.keep_truthy (Some publicId)
  | None => None
  end.

Definition destroy_old (f : option file) (oldImagePath : option string) : list effect :=
  match f, JS.keep_truthy oldImagePath with
  | Some _, Some old =>
      match old_public_id old with
      | Some publicId => Destroy publicId :: nil
      | None => nil
      end
  | _, _ => nil
  end.

(** The [catch] block: the image just uploaded is removed. *)
Definition destroy_new (f : option file) : list effect :=
  match f with
  | Some f' =>
      match JS.keep_truthy (file_filename f') with
      | Some n => Destroy n :: nil
      | None => nil
      end
  | None => nil
  end.

Definition type_error : error :=
  mkError "TypeError" "Cannot read properties of null" None.

(** [updateProduct], with [req.params.id], [req.body] and [req.file].
    The first read of the product is inside the [try] block: an
    identifier that does not cast makes it throw, and the [catch] block
    answers. *)
Definition updateProduct (id : string) (b : update_body) (f : option file)
    (c : collection) : collection * response * list effect :=
  let numericPrecioVenta := JS.parseFloat_opt (b_PrecioVenta b) in
  let numericStock := JS.parseInt_opt (b_stock b) in
  if negb (Mongo.isObjectId id)
  then (c, server_error "Error al actualizar el producto" (Mongo.cast_error "_id"),
        destroy_new f)
  else
  match findById id c with
  | None =>
      (c, mkResponse 404 (JObj (("message", JStr "Producto no encontrado") :: nil)), nil)
  | Some productBeforeUpdate =>
      let oldPrice := PrecioVenta productBeforeUpdate in
      let oldImagePath := imagen productBeforeUpdate in
      let updateData :=
        mkUpdate (b_NombreProducto b)
          (if JS.isNaN numericPrecioVenta then PrecioVenta productBeforeUpdate
           else numericPrecioVenta)
          (if JS.isNaN numericStock then stock productBeforeUpdate else numericStock)
          (b_idMarca b)
          (JS.keep_truthy (b_idModelo b))
          (JS.keep_truthy (b_idColor b))
          (JS.keep_truthy (b_idTalla b))
          (file_path <$> f) in
      let started := destroy_old f oldImagePath in
      match findByIdAndUpdate id updateData c with
      | Throw e =>
          (c, server_error "Error al actualizar el producto" e, started ++ destroy_new f)
      | Ok (None, c') =>
          (c', server_error "Error al actualizar el producto" type_error,
           started ++ destroy_new f)
      | Ok (Some updatedProduct, c') =>
          let newPrice := PrecioVenta updatedProduct in
          (c', mkResponse 200 (product_json updatedProduct),
           started ++
           (if JS.strict_neq oldPrice newPrice
            then PriceChangeEmail updatedProduct oldPrice :: nil else nil))
      end
  end.

(** Was the price-change notification dispatched? *)
Definition notified (effects : list effect) : bool := existsb is_email effects.

(** *** uploadMassProducts *)

(** A cell of the sheet as the spreadsheet reader returns it. *)
Inductive cell : Type :=
| CStr (s : string)
| CNum (x : Q)
| CBool (b : bool).

(** A row of the sheet: an array in which an empty cell is a hole. *)
Abbreviation row := (list (option cell)).

(** A value of the object built for a row. *)
Inductive pvalue : Type :=
| PNum (n : JS.jsnum)
| PStr (s : string).

Abbreviation productData := (gmap string pvalue).

Definition model_field (header : string) : string :=
  let modelField := header in
  let modelField := if String.eqb header "Nombre Producto" then "NombreProducto" else modelField in
  let modelField := if String.eqb header "Precio Venta" then "PrecioVenta" else modelField in
  let modelField := if String.eqb header "Marca ID" then "idMarca" else modelField in
  let modelField := if String.eqb header "Modelo ID" then "idModelo" else modelField in
  let modelField := if String.eqb header "Color ID" then "idColor" else modelField in
  let modelField := if String.eqb header "Talla ID" then "idTalla" else modelField in
  modelField.

(** [['PrecioVenta', 'stock'].includes(modelField)]. *)
Definition is_numeric_field (modelField : string) : bool :=
  String.eqb modelField "PrecioVenta" || String.eqb modelField "stock".

(** [parseFloat(cellValue)]: a number reads back as itself, a boolean is
    not a number. *)
Definition parseFloat_cell (v : cell) : JS.jsnum :=
  match v with
  | CStr s => JS.parseFloat s
  | CNum x => JS.Fin x
  | CBool _ => JS.NaN
  end.

(** Is the value falsy? *)
Definition falsy (v : option pvalue) : bool :=
  match v with
  | None => true
  | Some (PStr s) => negb (JS.truthy (Some s))
  | Some (PNum n) => JS.isNaN n || JS.strict_eq n (JS.ofZ 0)
  end.

Definition nat_to_string (n : nat) : string := NilEmpty.string_of_uint (Nat.to_uint n).

Definition pvalue_json (v : pvalue) : json :=
  match v with PNum n => number n | PStr s => JStr s end.

Definition productData_json (pd : productData) : json :=
  JObj (map (fun kv => (fst kv, pvalue_json (snd kv))) (map_to_list pd)).

(** An entry of [error.writeErrors]. *)
Record write_error : Type := mkWriteError { index : nat; errmsg : string }.

(** How [insertMany] ended: all documents written, a bulk write error
    after some were written, or another error. *)
Inductive insert_outcome : Type :=
| Inserted (n : nat)
| BulkWriteError (nInserted : nat) (writeErrors : list write_error)
| Failed (e : error).

Section MassUpload.

(** The decimal form of a number, [Number.prototype.toString]. *)
Variable number_toString : Q -> string.

(** [Product.insertMany(docs, { ordered: false })]. *)
Variable insertMany : list productData -> collection -> insert_outcome * collection.

(** [cellValue.toString()]. *)
Definition cell_toString (v : cell) : string :=
  match v with
  | CStr s => s
  | CNum x => number_toString x
  | CBool true => "true"
  | CBool false => "false"
  end.

(** The body of [headers.forEach((header, index) => ...)]. *)
Definition assign (r : row) (pd : productData) (index : nat)
    (header : option string) : productData :=
  match header with
  | None => pd
  | Some header =>
      let modelField := model_field header in
      match JS.keep_truthy (Some modelField), r !! index with
      | Some _, Some (Some cellValue) =>
          if is_numeric_field modelField then
            let numValue := parseFloat_cell cellValue in
            <[modelField := PNum (if JS.isNaN numValue then JS.ofZ 0 else numValue)]> pd
          else
            <[modelField := PStr (JS.trim (cell_toString cellValue))]> pd
      | _, _ => pd
      end
  end.

Fixpoint fill (r : row) (headers : list (option string)) (index : nat)
    (pd : productData) : productData :=
  match headers with
  | nil => pd
  | h :: rest => fill r rest (S index) (assign r pd index h)
  end.

(** The required-field test made before the insertion. *)
Definition missing_required (pd : productData) : bool :=
  falsy (pd !! "NombreProducto")
  || bool_decide (pd !! "PrecioVenta" = None)
  || bool_decide (pd !! "stock" = None)
  || falsy (pd !! "idMarca").

(** The callback of [rows.map]: [None] marks a skipped row. *)
Definition row_to_product (headers : list (option string)) (r : row) : option productData :=
  let productData := fill r headers 0 ∅ in
  if missing_required productData then None else Some productData.

(** [rows.map(...).filter(p => p !== null)]. *)
Definition productsToCreate (headers : list (option string)) (rows : list row)
    : list productData :=
  omap (row_to_product headers) rows.

(** [jsonData[0].map(h => h.toString().trim())]: holes stay holes. *)
Definition read_headers (first : row) : list (option string) :=
  map (fun h => (fun v => JS.trim (cell_toString v)) <$> h) first.

Definition error_json (docs : list productData) (e : write_error) : json :=
  JObj (("index", number (JS.ofZ (Z.of_nat (index e))))
        :: ("message", JStr (errmsg e))
        :: opt_prop "rowData" (productData_json <$> docs !! index e)).

Definition upload_message (insertedCount total : nat) : string :=
  "Carga masiva completada. " ++ nat_to_string insertedCount ++ " de "
  ++ nat_to_string total ++ " productos procesados creados.".

Definition bad_request (m : string) : response :=
  mkResponse 400 (JObj (("message", JStr m) :: nil)).

(** The answer to the upload once [insertMany] has ended on [docs]. *)
Definition upload_answer (docs : list productData)
    (ended : insert_outcome * collection) : collection * response :=
  match ended with
  | (Inserted n, c') =>
      (c', mkResponse 201
             (JObj (("message", JStr (upload_message n (List.length docs)))
                    :: ("errors", JArr nil) :: nil)))
  | (BulkWriteError nInserted writeErrors, c') =>
      (c', mkResponse 201
             (JObj (("message", JStr (upload_message nInserted (List.length docs)))
                    :: ("errors", JArr (map (error_json docs) writeErrors))
                    :: nil)))
  | (Failed e, c') =>
      (c', server_error "Error procesando el archivo Excel." e)
  end.

(** [uploadMassProducts]: [sheet] is the first sheet of [req.file] read as
    an array of rows, absent when no file was sent. *)
Definition uploadMassProducts (sheet : option (list row)) (c : collection)
    : collection * response :=
  match sheet with
  | None => (c, bad_request "No se subió ningún archivo Excel.")
  | Some jsonData =>
      match jsonData with
      | nil | _ :: nil =>
          (c, bad_request "El archivo Excel está vacío o solo contiene encabezados.")
      | first :: rows =>
          let headers := read_headers first in
          let docs := productsToCreate headers rows in
          match docs with
          | nil =>
              (c, bad_request "No se encontraron productos válidos para importar en el archivo.")
          | _ => upload_answer docs (insertMany docs c)
          end
      end
  end.

End MassUpload.

End Products.

(* ===================================================================== *)
(** ** The rest of the product controller: create, delete, export *)
(* ===================================================================== *)

Module Lifecycle.

Import Products.

Definition duplicate_key : error :=
  mkError "MongoServerError" "E11000 duplicate key error" (Some 11000).

(** The document [new Product({ ... })] builds.  The values given for the
    references are cast: [refs_cast] tells whether the four casts went
    well, and the references of the document are the ObjectIds the values
    cast to. *)
Record new_document : Type := mkNew {
  built : product;
  refs_cast : bool
}.

(** The validators of the product schema on a new document: the price and
    the stock have to be numbers, the references ObjectIds, the price at
    least 0, the name and the brand present. *)
Definition save_validators (d : new_document) : option error :=
  let p := built d in
  if JS.isNaN (PrecioVenta p) || JS.isNaN (stock p) then Some validation_error
  else if negb (refs_cast d) then Some validation_error
  else if negb (JS.geb (PrecioVenta p) (JS.ofZ 0)) then Some validation_error
  else if String.eqb (NombreProducto p) "" || String.eqb (idMarca p) ""
  then Some validation_error
  else None.

(** [newProduct.save()]: the document is validated and appended.  A
    document whose identifier is not the string form of an ObjectId is
    refused, as no such document can be written. *)
Definition save (d : new_document) (c : collection) : result (product * collection) :=
  let p := built d in
  match save_validators d with
  | Some e => Throw e
  | None =>
      match findById (_id p) c with
      | Some _ => Throw duplicate_key
      | None =>
          if negb (Mongo.is_id (_id p)) then Throw (Mongo.cast_error "_id")
          else Ok (p, c ++ p :: nil)
      end
  end.

Definition bad_request (m : string) : response :=
  mkResponse 400 (JObj (("message", JStr m) :: nil)).

(** Do the four references of a creation request cast?  An empty or
    absent model, color or size stands for [null]. *)
Definition refs_castable (b : update_body) : bool :=
  Mongo.castable_ref (b_idMarca b)
  && Mongo.castable_ref (JS.keep_truthy (b_idModelo b))
  && Mongo.castable_ref (JS.keep_truthy (b_idColor b))
  && Mongo.castable_ref (JS.keep_truthy (b_idTalla b)).

(** The price, the stock and the references of a creation request pass
    the casts and the validators of the product schema. *)
Definition acceptable (b : update_body) : Prop :=
  JS.isNaN (JS.parseFloat_opt (b_PrecioVenta b)) = false
  /\ JS.geb (JS.parseFloat_opt (b_PrecioVenta b)) (JS.ofZ 0) = true
  /\ JS.isNaN (JS.parseInt_opt (b_stock b)) = false
  /\ refs_castable b = true.

(** [createProduct], with [req.body] and [req.file]; [fresh_id] and [now]
    are the identifier and the creation time the new document gets. *)
Definition createProduct (fresh_id : string) (now : Z) (b : update_body)
    (f : option file) (c : collection) : collection * response * list effect :=
  let imagenPath := file_path <$> f in
  if negb (JS.truthy (b_NombreProducto b)) || negb (JS.truthy (b_PrecioVenta b))
     || negb (JS.truthy (b_stock b)) || negb (JS.truthy (b_idMarca b))
  then (c, bad_request "Nombre, Precio, Stock y Marca son obligatorios.", nil)
  else
    let newProduct :=
      mkNew
        (mkProduct fresh_id
           (default "" (b_NombreProducto b))
           (JS.parseFloat_opt (b_PrecioVenta b))
           imagenPath
           (JS.parseInt_opt (b_stock b))
           (Mongo.canon (default "" (b_idMarca b)))
           (Mongo.canon <$> JS.keep_truthy (b_idModelo b))
           (Mongo.canon <$> JS.keep_truthy (b_idColor b))
           (Mongo.canon <$> JS.keep_truthy (b_idTalla b))
           now)
        (refs_castable b) in
    match save newProduct c with
    | Ok (savedProduct, c') => (c', mkResponse 201 (product_json savedProduct), nil)
    | Throw e => (c, server_error "Error al crear el producto" e, destroy_new f)
    end.

(** The collection without the first document of that identifier. *)
Fixpoint remove (id : string) (c : collection) : collection :=
  match c with
  | nil => nil
  | x :: rest => if String.eqb (_id x) id then rest else x :: remove id rest
  end.

(** The image of a deleted product is removed from the image host. *)
Definition destroy_image (imagen : option string) : list effect :=
  match JS.keep_truthy imagen with
  | Some url =>
      match old_public_id url with
      | Some publicId => Destroy publicId :: nil
      | None => nil
      end
  | None => nil
  end.

(** [deleteProduct], with [req.params.id]. *)
Definition deleteProduct (id : string) (c : collection)
    : collection * response * list effect :=
  if negb (Mongo.isObjectId id)
  then (c, server_error "Error al eliminar el producto" (Mongo.cast_error "_id"), nil)
  else
  match findById id c with
  | None =>
      (c, mkResponse 404 (JObj (("message", JStr "Producto no encontrado") :: nil)), nil)
  | Some deletedProduct =>
      (remove (Mongo.canon id) c,
       mkResponse 200
         (JObj (("message", JStr "Producto eliminado exitosamente")
                :: ("_id", JStr id) :: nil)),
       destroy_image (imagen deletedProduct))
  end.

(** A row of the exported sheet. *)
Record export_row : Type := mkRow {
  x_id : string;
  x_NombreProducto : string;
  x_idMarca : string;
  x_idModelo : string;
  x_idColor : string;
  x_PrecioVenta : JS.jsnum;
  x_stock : JS.jsnum
}.


(** [ref?.nombre || 'N/A'] on a populated reference: the name of the
    referenced document, if the reference resolves and the name is not
    empty. *)
Definition nombre_or_NA (refs : gmap string (gmap string string))
    (id : option string) : string :=
  let nombre :=
    match id with
    | Some i => match refs !! i with Some d => d !! "nombre" | None => None end
    | None => None
    end in
  default "N/A" (JS.keep_truthy nombre).



Section Workbooks.

Variable regex_test : string -> string -> bool.

(** The catalog collections the references are populated from. *)
Variables marcas modelos colores : gmap string (gmap string string).

Definition to_row (p : product) : export_row :=
  mkRow (_id p) (NombreProducto p)
    (nombre_or_NA marcas (Some (idMarca p)))
    (nombre_or_NA modelos (idModelo p))
    (nombre_or_NA colores (idColor p))
    (PrecioVenta p) (stock p).


End Workbooks.

End Lifecycle.

(* ===================================================================== *)
(** ** The list handler of the generic controller and the catalog routes *)
(* ===================================================================== *)

Module Catalog.

Import Generic.

(** [getAll(Model)]; [find_sorted] is [Model.find().sort({ nombre: 1 })]. *)
Definition getAll (M : Model) (find_sorted : collection M -> result (list (doc M)))
    (c : collection M) : response :=
  match find_sorted c with
  | Ok items => mkResponse 200 (JArr (map (toJSON M) items))
  | Throw e => handleError e "Error al obtener los items"
  end.

(** Ascending order on the name: a missing name comes first, names are
    compared byte by byte. *)
Definition nombre_le (a b : document) : bool :=
  match fields a !! "nombre", fields b !! "nombre" with
  | None, _ => true
  | Some _, None => false
  | Some x, Some y => String.leb x y
  end.

Fixpoint insert_sorted (x : document) (l : list document) : list document :=
  match l with
  | nil => x :: nil
  | y :: rest => if nombre_le x y then x :: l else y :: insert_sorted x rest
  end.

Definition documents (c : gmap string (gmap string string)) : list document :=
  map (fun kv => mkDoc (fst kv) (snd kv)) (map_to_list c).

Definition mem_find_sorted (c : gmap string (gmap string string))
    : result (list document) :=
  Ok (fold_right insert_sorted nil (documents c)).

(** The two answers of [protect]. *)
Definition no_token_response : response :=
  Auth.unauthorized "No autorizado, no se proporcionó token".

Definition bad_token_response : response :=
  Auth.unauthorized "Token no válido o expirado".

(** A route guarded by [protect]: the handler runs when the middleware
    hands the request on, and every response sent is recorded in order. *)
Definition guard {S : Type} (jwt_verify : option string -> result Auth.claim)
    (req : Auth.request) (handler : S -> S * response) (s : S) : S * list response :=
  fold_left
    (fun acc a =>
       match a with
       | Auth.Next _ => let '(s', r) := handler (fst acc) in (s', snd acc ++ r :: nil)
       | Auth.Send r => (fst acc, snd acc ++ r :: nil)
       end)
    (Auth.protect jwt_verify req) (s, nil).

(** The four requests of a catalog resource. *)
Inductive catalog_request : Type :=
| ListAll                                         (* GET /resource *)
| Create (fresh_id : string) (body : body_t)      (* POST /resource *)
| Update (id : string) (body : body_t)            (* PUT /resource/:id *)
| Remove (id : string).                           (* DELETE /resource/:id *)

(** [createCrudRoutes(resource, Model)]: the list is public, the three
    writes go through [protect]. *)
Definition catalog_route (M : Model)
    (find_sorted : collection M -> result (list (doc M)))
    (jwt_verify : option string -> result Auth.claim)
    (req : Auth.request) (rq : catalog_request) (c : collection M)
    : collection M * list response :=
  match rq with
  | ListAll => (c, getAll M find_sorted c :: nil)
  | Create fresh_id body => guard jwt_verify req (createOne M fresh_id body) c
  | Update id body => guard jwt_verify req (updateOne M id body) c
  | Remove id => guard jwt_verify req (deleteOne M id) c
  end.

End Catalog.

(* ===================================================================== *)
(** ** deleteUser, the role seed, and the routes of users and sessions *)
(* ===================================================================== *)

Module Accounts.

Import Users.

(** The users without the first one of that identifier. *)
Fixpoint remove (id : string) (us : list user) : list user :=
  match us with
  | nil => nil
  | u :: rest => if String.eqb (_id u) id then rest else u :: remove id rest
  end.

(** [deleteUser], with [req.params.id]. *)
Definition deleteUser (st : state) (id : string) : state * response :=
  if negb (Mongo.isObjectId id)
  then (st, server_error "Error al eliminar el usuario" (Mongo.cast_error "_id"))
  else
  match findById id (users st) with
  | None => (st, msg 404 "Usuario no encontrado")
  | Some _ =>
      (mkState (remove (Mongo.canon id) (users st)) (roles st),
       mkResponse 200
         (JObj (("message", JStr "Usuario eliminado exitosamente")
                :: ("_id", JStr id) :: nil)))
  end.

(** [createInitialRoles]: the two roles are written only when the
    collection is empty; [id1] and [id2] are their new identifiers. *)
Definition createInitialRoles (id1 id2 : string) (rs : list role) : list role :=
  if (0 <? List.length rs)%nat then rs
  else mkRole id1 "admin" :: mkRole id2 "cliente" :: nil.

(** The requests of the session and user routes. *)
Inductive account_request : Type :=
| Login (email_ password_ : option string)                          (* POST /login *)
| RegisterAdmin (nombre_ email_ password_ : option string)          (* POST /register-admin *)
| RegisterClient (nombre_ email_ password_ : option string)         (* POST /register-client *)
| ListAdmins                                                        (* GET /admins *)
| UpdateUser (id : string) (nombre_ email_ password_ : option string) (* PUT /:id *)
| DeleteUser (id : string).                                         (* DELETE /:id *)

(** The session routes and the user routes: the login and the client
    registration are public, the others go through [protect]. *)
Definition account_route (L : Libs)
    (jwt_verify : option string -> result Auth.claim)
    (salt fresh_id : string) (req : Auth.request) (rq : account_request)
    (st : state) : state * list response :=
  match rq with
  | Login e p => (st, loginUser L st e p :: nil)
  | RegisterClient n e p =>
      let '(st', r) := registerClient L salt fresh_id st n e p in (st', r :: nil)
  | RegisterAdmin n e p =>
      Catalog.guard jwt_verify req (fun s => registerAdmin L salt fresh_id s n e p) st
  | ListAdmins => Catalog.guard jwt_verify req (fun s => (s, getAdminUsers s)) st
  | UpdateUser id n e p =>
      Catalog.guard jwt_verify req (fun s => updateUser L salt s id n e p) st
  | DeleteUser id => Catalog.guard jwt_verify req (fun s => deleteUser s id) st
  end.

End Accounts.

(* ===================================================================== *)
(** ** src/config/mailer.js *)
(* ===================================================================== *)

Module Mailer.

(** The message handed to the mail provider: the recipients and the
    subject.  The HTML body is left out. *)
Record mail : Type := mkMail {
  mail_to : list (option string);
  mail_subject : string
}.

(** [sendPriceChangeEmail(product, oldPrice)]: [None] when nothing is
    sent. *)
Definition sendPriceChangeEmail (st : Users.state) (p : Products.product)
    (oldPrice : JS.jsnum) : option mail :=
  match Users.findOne_role "admin" (Users.roles st) with
  | None => None
  | Some adminRole =>
      let adminUsers :=
        List.filter (fun u => String.eqb (Users.idRol u) (Users.role_id adminRole))
                    (Users.users st) in
      let adminEmails := map Users.email adminUsers in
      match adminEmails with
      | nil => None
      | _ => Some (mkMail adminEmails
                     ("⚠️ Cambio de Precio: " ++ Products.NombreProducto p))
      end
  end.

(** The mails the effects of a product update lead to. *)
Definition mails (st : Users.state) (effects : list Products.effect) : list mail :=
  omap (fun e =>
          match e with
          | Products.PriceChangeEmail p oldPrice => sendPriceChangeEmail st p oldPrice
          | Products.Destroy _ => None
          end) effects.

End Mailer.

(* ===================================================================== *)
(** ** The upload middleware *)
(* ===================================================================== *)

Module Upload.

(** [fileFilter]: only images are accepted. *)
Definition fileFilter (mimetype : string) : result bool :=
  if JS.starts_with "image/" mimetype then Ok true
  else Throw (mkError "Error"
                "Formato de archivo no soportado. Solo se permiten imágenes." None).

(** The filter of the spreadsheet upload. *)
Definition excelFilter (mimetype : string) : result bool :=
  if String.eqb mimetype "application/vnd.openxmlformats-officedocument.spreadsheetml.sheet"
     || String.eqb mimetype "application/vnd.ms-excel"
  then Ok true
  else Throw (mkError "Error" "Solo se permiten archivos Excel (.xlsx, .xls)" None).

(** [file.originalname.split('.').slice(0, -1).join('.')]. *)
Definition filenameWithoutExt (originalname : string) : string :=
  JS.join "." (removelast (JS.split "." originalname)).

(** [public_id(req, file)]; [now] is [Date.now()] and [rnd] the rounded
    random number of the suffix. *)
Definition public_id (now rnd : nat) (originalname : string) : string :=
  "product-" ++ filenameWithoutExt originalname ++ "-"
  ++ Products.nat_to_string now ++ "-" ++ Products.nat_to_string rnd.

End Upload.

(* ===================================================================== *)
(** ** Predicates on the stores *)
(* ===================================================================== *)

Module Invariants.

(** Every numeric field of the object built for a row holds a number that
    is not NaN and every other field holds a string. *)
Definition well_typed (pd : gmap string Products.pvalue) : Prop :=
  forall X v, pd !! X = Some v ->
    if Products.is_numeric_field X
    then exists n, v = Products.PNum n /\ JS.isNaN n = false
    else exists s, v = Products.PStr s.

(** Every document of the catalog has its required paths, not empty. *)
Definition required_ok (sch : Generic.schema) (c : gmap string (gmap string string)) : Prop :=
  forall id f, c !! id = Some f -> Generic.check_required sch f = None.

(** No two documents of the catalog share a value on a unique path. *)
Definition unique_ok (sch : Generic.schema) (c : gmap string (gmap string string)) : Prop :=
  forall p id1 id2 f1 f2 v,
    In p sch -> Generic.unique p = true ->
    c !! id1 = Some f1 -> c !! id2 = Some f2 ->
    f1 !! Generic.path p = Some v -> f2 !! Generic.path p = Some v ->
    id1 = id2.

(** The users have distinct identifiers and distinct emails. *)
Definition users_ok (us : list Users.user) : Prop :=
  List.NoDup (map Users._id us)
  /\ forall u v, In u us -> In v us -> Users.email u = Users.email v ->
                 Users._id u = Users._id v.

End Invariants.

(* ===================================================================== *)
(** ** Sample data *)
(* ===================================================================== *)

(** An identifier: 24 hexadecimal digits, the last four given. *)
Definition oid (tail : string) : string := String.append "65f0a1b2c3d4e5f6a7b8" tail.

Definition sample_product (id : string) (price : Z) (created : Z) : Products.product :=
  Products.mkProduct id "Zapatilla" (JS.ofZ price) None (JS.ofZ 5) (oid "00a1")
    None None None created.

Definition sample_collection : list Products.product :=
  sample_product (oid "0001") 10 1 :: sample_product (oid "0002") 20 2
  :: sample_product (oid "0003") 30 3 :: nil.

Definition sample_query : Products.query :=
  Products.mkQuery None None None (Some "15") None (Some "price-asc") (Some "2") (Some "1").

Definition any_match (pattern text : string) : bool := true.

Definition non_numeric_query : Products.query :=
  Products.mkQuery None None None (Some "abc") None None (Some "abc") None.

Definition empty_query : Products.query :=
  Products.mkQuery None None None None None None None None.

Definition price_update (price : option string) : Products.update_body :=
  Products.mkBody (Some "Zapatilla") price (Some "5") (Some (oid "00a1")) None None None.

Definition marcas : gmap string (gmap string string) :=
  <[(oid "00b1") := {["nombre" := "Nike"]}]> ∅.

Definition sample_verify (token : option string) : result Auth.claim :=
  if bool_decide (token = Some "good")
  then Ok (Auth.mkClaim (Some (oid "00c1")))
  else Throw (mkError "JsonWebTokenError" "invalid token" None).

(** Lower case on the letters of ASCII. *)
Fixpoint ascii_lower (s : string) : string :=
  match s with
  | EmptyString => EmptyString
  | String c r =>
      let n := nat_of_ascii c in
      String (if (65 <=? n)%nat && (n <=? 90)%nat then ascii_of_nat (n + 32) else c)
             (ascii_lower r)
  end.

Definition sample_libs : Users.Libs :=
  Users.mkLibs
    (fun plain salt => ("$2a$" ++ salt ++ "$" ++ plain)%string)
    (fun plain hash => String.eqb hash ("$2a$salt0$" ++ plain)%string)
    (fun id role => ("jwt." ++ id)%string)
    (fun _ => None)
    ascii_lower.

Definition sample_users : Users.state :=
  Users.mkState
    (Users.mkUser (oid "00c1") (Some "Ana") (Some "ana@example.com") (Some "$2a$salt0$secreto")
       (oid "00d1") nil nil :: nil)
    (Users.mkRole (oid "00d1") "admin" :: Users.mkRole (oid "00d2") "cliente" :: nil).

Definition decimal_of (x : Q) : string := Products.nat_to_string (Z.to_nat (Qfloor x)).

Definition sample_headers : list (option string) :=
  Products.read_headers decimal_of
    (Some (Products.CStr "Nombre Producto") :: Some (Products.CStr " Precio Venta ")
     :: Some (Products.CStr "stock") :: Some (Products.CStr "Marca ID") :: nil).

Definition sample_row : Products.row :=
  Some (Products.CStr "Zapatilla") :: Some (Products.CStr "gratis")
  :: Some (Products.CNum 4) :: Some (Products.CStr (oid "00a1")) :: nil.

Definition sample_insertMany (docs : list (gmap string Products.pvalue))
    (c : list Products.product) : Products.insert_outcome * list Products.product :=
  (Products.Inserted (List.length docs), c).



Definition sample_all : list Products.product :=
  sample_product (oid "0003") 30 3 :: sample_product (oid "0002") 20 2
  :: sample_product (oid "0001") 10 1 :: nil.

Definition nike_product : Products.product :=
  Products.mkProduct (oid "0009") "Bota" (JS.ofZ 40) None (JS.ofZ 2) (oid "00b1") None None None 9.

Definition new_product_body : Products.update_body :=
  Products.mkBody (Some "Sandalia") (Some "49.90") (Some "7") (Some (oid "00a1")) None None None.

Definition no_header : Auth.request := Auth.mkRequest None None.

Definition plain_libs : Users.Libs :=
  Users.mkLibs
    (fun plain salt => ("h:" ++ plain)%string)
    (fun plain hash => String.eqb hash ("h:" ++ plain)%string)
    (fun id role => ("jwt." ++ id)%string)
    (fun _ => None)
    ascii_lower.

(* ===================================================================== *)
(** * Properties *)
(* ===================================================================== *)

(** ** Numbers and strings *)

Lemma strict_neq_Fin (x y : Q) :
  JS.strict_neq (JS.Fin x) (JS.Fin y) = true <-> ~ (x == y)%Q.
Proof.
  unfold JS.strict_neq; simpl.
  rewrite negb_true_iff.
  split.
  - intros Hb Heq. apply Qeq_bool_iff in Heq. congruence.
  - intros Hne. destruct (Qeq_bool x y) eqn:E; [|reflexivity].
    exfalso. apply Hne. now apply Qeq_bool_iff.
Qed.

Lemma strict_eq_refl (n : JS.jsnum) :
  JS.isNaN n = false -> JS.strict_eq n n = true.
Proof.
  destruct n; simpl; try congruence.
  intros _. apply Qeq_bool_iff. reflexivity.
Qed.

(** [parseInt] gives NaN or an integer. *)
Lemma parseInt_integer (s : string) :
  JS.parseInt s = JS.NaN \/ exists z, JS.parseInt s = JS.ofZ z.
Proof.
  unfold JS.parseInt.
  destruct (JS.take_sign (JS.skip_ws s)) as [minus s1].
  destruct (JS.take_digits s1) as [ds rest].
  destruct ds; [now left|right; eauto].
Qed.


Lemma as_integer_ofZ (z : Z) : Products.as_integer (JS.ofZ z) = Some z.
Proof.
  unfold Products.as_integer, JS.ofZ.
  rewrite Qfloor_Z.
  destruct (Qeq_bool (inject_Z z) (inject_Z z)) eqn:E; [reflexivity|].
  assert (Qeq_bool (inject_Z z) (inject_Z z) = true) by (apply Qeq_bool_iff; reflexivity).
  congruence.
Qed.

(** ** Identifiers and string lengths *)

Lemma lower_hex_idem (c : ascii) : Mongo.lower_hex (Mongo.lower_hex c) = Mongo.lower_hex c.
Proof. destruct c as [[] [] [] [] [] [] [] []]; reflexivity. Qed.

Lemma is_hex_lower (c : ascii) : Mongo.is_hex (Mongo.lower_hex c) = Mongo.is_hex c.
Proof. destruct c as [[] [] [] [] [] [] [] []]; reflexivity. Qed.

Lemma canon_idem (s : string) : Mongo.canon (Mongo.canon s) = Mongo.canon s.
Proof. induction s as [|c s IH]; simpl; [reflexivity|]. now rewrite lower_hex_idem, IH. Qed.

Lemma length_canon (s : string) : String.length (Mongo.canon s) = String.length s.
Proof. induction s as [|c s IH]; simpl; [reflexivity|]. now rewrite IH. Qed.

Lemma all_hex_canon (s : string) : Mongo.all_hex (Mongo.canon s) = Mongo.all_hex s.
Proof. induction s as [|c s IH]; simpl; [reflexivity|]. now rewrite is_hex_lower, IH. Qed.

Lemma isObjectId_canon (s : string) : Mongo.isObjectId (Mongo.canon s) = Mongo.isObjectId s.
Proof. unfold Mongo.isObjectId. now rewrite length_canon, all_hex_canon. Qed.

(** The ObjectId a string casts to is the string form of an ObjectId. *)
Lemma is_id_canon (s : string) :
  Mongo.isObjectId s = true -> Mongo.is_id (Mongo.canon s) = true.
Proof.
  intros H. unfold Mongo.is_id. rewrite isObjectId_canon, H, canon_idem.
  apply String.eqb_refl.
Qed.

Lemma is_id_inv (s : string) :
  Mongo.is_id s = true -> Mongo.isObjectId s = true /\ Mongo.canon s = s.
Proof.
  unfold Mongo.is_id. intros H. apply andb_true_iff in H as [H1 H2].
  split; [exact H1|now apply String.eqb_eq].
Qed.

Lemma castObjectId_Some (s oid : string) :
  Mongo.castObjectId s = Some oid <-> Mongo.isObjectId s = true /\ oid = Mongo.canon s.
Proof.
  unfold Mongo.castObjectId. destruct (Mongo.isObjectId s); split.
  - intros [= <-]. auto.
  - intros [_ ->]. reflexivity.
  - discriminate.
  - intros [H _]. discriminate.
Qed.

Lemma castObjectId_None (s : string) :
  Mongo.castObjectId s = None <-> Mongo.isObjectId s = false.
Proof. unfold Mongo.castObjectId. destruct (Mongo.isObjectId s); split; congruence. Qed.



Example length_ascii : JS.length "secreto" = 7%nat.
Proof. reflexivity. Qed.

(** Five characters, two of them of two bytes. *)
Example length_two_byte_characters : JS.length "ñandú" = 5%nat /\ String.length "ñandú" = 7%nat.
Proof. split; reflexivity. Qed.

(** ** The product list *)

Section ProductList.

Import Products.

Variable regex_test : string -> string -> bool.

Lemma length_insert_by le x l :
  List.length (insert_by le x l) = S (List.length l).
Proof.
  induction l as [|y l IH]; simpl; [reflexivity|].
  destruct (le x y); simpl; [reflexivity|now rewrite IH].
Qed.

Lemma length_sort_by le l : List.length (sort_by le l) = List.length l.
Proof.
  induction l as [|x l IH]; simpl; [reflexivity|].
  unfold sort_by in *. now rewrite length_insert_by, IH.
Qed.

Lemma unpaginated_ok f s c :
  castable f = true ->
  unpaginated regex_test f s c = Ok (sort_by (sort_le s) (List.filter (matches regex_test f) c)).
Proof.
  intros Hc. unfold unpaginated, find. rewrite Hc.
  rewrite as_integer_ofZ. reflexivity.
Qed.

(** C1. When the list request succeeds, the fetch of the same filter
    without pagination succeeds too, and the number of records it returns
    is the count reported as [totalProducts] and used for [totalPages];
    the page returned is cut out of that same list by the skip and the
    limit of the request. *)
Theorem pagination_metadata_same_filter (q : query) (c : collection) :
  status (getAllProducts regex_test q c) = 200 ->
  exists (all : list product) (k n : Z),
    unpaginated regex_test (build_filter q) (build_sort q) c = Ok all
    /\ countDocuments regex_test (build_filter q) c = Ok (List.length all)
    /\ List.length all = List.length (List.filter (matches regex_test (build_filter q)) c)
    /\ as_integer (skip q) = Some k /\ (0 <= k)%Z
    /\ as_integer (limitNum q) = Some n
    /\ body (getAllProducts regex_test q c) =
       JObj (("products", JArr (map product_json (apply_limit n (skipn (Z.to_nat k) all))))
             :: ("currentPage", number (pageNum q))
             :: ("totalPages",
                 number (JS.ceil (JS.div (JS.ofZ (Z.of_nat (List.length all))) (limitNum q))))
             :: ("totalProducts", number (JS.ofZ (Z.of_nat (List.length all))))
             :: nil).
Proof.
  unfold getAllProducts, countDocuments, find.
  destruct (castable (build_filter q)) eqn:Hc; [|simpl; discriminate].
  destruct (as_integer (skip q)) as [k|] eqn:Hk; [|simpl; discriminate].
  destruct (as_integer (limitNum q)) as [n|] eqn:Hn; [|simpl; discriminate].
  destruct (k <? 0)%Z eqn:Hneg; [simpl; discriminate|].
  intros _.
  exists (sort_by (sort_le (build_sort q))
            (List.filter (matches regex_test (build_filter q)) c)), k, n.
  rewrite (unpaginated_ok _ _ _ Hc), length_sort_by.
  apply Z.ltb_ge in Hneg.
  repeat split; auto.
Qed.


End ProductList.

Lemma pagination_metadata_same_filter_witness :
  exists (all : list Products.product) (k n : Z),
    Products.unpaginated any_match (Products.build_filter sample_query)
      (Products.build_sort sample_query) sample_collection = Ok all
    /\ Products.countDocuments any_match (Products.build_filter sample_query)
         sample_collection = Ok (List.length all)
    /\ List.length all =
       List.length (List.filter (Products.matches any_match (Products.build_filter sample_query))
                      sample_collection)
    /\ Products.as_integer (Products.skip sample_query) = Some k /\ (0 <= k)%Z
    /\ Products.as_integer (Products.limitNum sample_query) = Some n
    /\ body (Products.getAllProducts any_match sample_query sample_collection) =
       JObj (("products",
              JArr (map Products.product_json
                      (Products.apply_limit n (skipn (Z.to_nat k) all))))
             :: ("currentPage", Products.number (Products.pageNum sample_query))
             :: ("totalPages",
                 Products.number
                   (JS.ceil (JS.div (JS.ofZ (Z.of_nat (List.length all)))
                               (Products.limitNum sample_query))))
             :: ("totalProducts", Products.number (JS.ofZ (Z.of_nat (List.length all))))
             :: nil).
Proof.
  apply (pagination_metadata_same_filter any_match sample_query sample_collection).
  vm_compute. reflexivity.
Defined.


Section ProductListInputs.

Import Products.

Variable regex_test : string -> string -> bool.

Lemma truthy_nonempty (s : string) : s <> "" -> JS.truthy (Some s) = true.
Proof. destruct s; [congruence|reflexivity]. Qed.

Lemma mul_NaN_r (a : JS.jsnum) : JS.mul a JS.NaN = JS.NaN.
Proof. destruct a; reflexivity. Qed.

(** C2, as the code has it.  A value that does not parse is neither
    dropped nor replaced by a default: a non-empty price that parses to
    NaN becomes the bound of the price filter, and a page or limit that
    parses to NaN makes the page or limit, and the skip, NaN.  Only an
    absent page or limit takes its default, and only an absent or empty
    price adds no bound.  No error leaves the handler: when the store
    throws on the query, the answer is the 500 response. *)
Theorem non_numeric_parameters_reach_the_query (q : query) :
  (forall s, minPrice q = Some s -> s <> "" -> JS.parseFloat s = JS.NaN ->
     exists r, f_PrecioVenta (build_filter q) = Some r /\ gte r = Some JS.NaN)
  /\ (forall s, maxPrice q = Some s -> s <> "" -> JS.parseFloat s = JS.NaN ->
     exists r, f_PrecioVenta (build_filter q) = Some r /\ lte r = Some JS.NaN)
  /\ (forall s, page q = Some s -> JS.parseInt s = JS.NaN ->
     pageNum q = JS.NaN /\ skip q = JS.NaN)
  /\ (forall s, limit q = Some s -> JS.parseInt s = JS.NaN ->
     limitNum q = JS.NaN /\ skip q = JS.NaN)
  /\ (page q = None -> pageNum q = JS.ofZ 1)
  /\ (limit q = None -> limitNum q = JS.ofZ 8)
  /\ (JS.truthy (minPrice q) = false -> JS.truthy (maxPrice q) = false ->
      f_PrecioVenta (build_filter q) = None)
  /\ (forall c e,
        countDocuments regex_test (build_filter q) c = Throw e
        \/ find regex_test (build_filter q) (build_sort q) (skip q) (limitNum q) c = Throw e ->
        exists e', getAllProducts regex_test q c =
                   server_error "Error al obtener los productos" e').
Proof.
  split; [|split; [|split; [|split; [|split; [|split; [|split]]]]]].
  - intros s Hs Hne Hnan. unfold build_filter. rewrite Hs.
    destruct s as [|a s]; [congruence|]. cbn [f_PrecioVenta JS.truthy orb JS.parseFloat_opt].
    rewrite Hnan. eauto.
  - intros s Hs Hne Hnan. unfold build_filter. rewrite Hs.
    destruct s as [|a s]; [congruence|]. cbn [f_PrecioVenta JS.truthy JS.parseFloat_opt].
    rewrite orb_true_r, Hnan. eauto.
  - intros s Hs Hnan.
    assert (Hp : pageNum q = JS.NaN) by (unfold pageNum; rewrite Hs; exact Hnan).
    split; [exact Hp|]. unfold skip. rewrite Hp. reflexivity.
  - intros s Hs Hnan.
    assert (Hl : limitNum q = JS.NaN) by (unfold limitNum; rewrite Hs; exact Hnan).
    split; [exact Hl|]. unfold skip. rewrite Hl. apply mul_NaN_r.
  - intros Hp. unfold pageNum. rewrite Hp. reflexivity.
  - intros Hl. unfold limitNum. rewrite Hl. reflexivity.
  - intros Hmin Hmax. unfold build_filter. simpl. rewrite Hmin, Hmax. reflexivity.
  - intros c e [Hc|Hf]; unfold getAllProducts.
    + rewrite Hc. eauto.
    + destruct (countDocuments regex_test (build_filter q) c); [|eauto].
      rewrite Hf. eauto.
Qed.

End ProductListInputs.

Lemma non_numeric_parameters_reach_the_query_witness :
  (exists r, Products.f_PrecioVenta (Products.build_filter non_numeric_query) = Some r
             /\ Products.gte r = Some JS.NaN)
  /\ Products.pageNum non_numeric_query = JS.NaN
  /\ Products.skip non_numeric_query = JS.NaN.
Proof.
  pose proof (non_numeric_parameters_reach_the_query any_match non_numeric_query)
    as (Hmin & _ & Hpage & _).
  split.
  - apply (Hmin "abc"); [reflexivity|discriminate|reflexivity].
  - apply (Hpage "abc"); reflexivity.
Defined.

(** C2 fails as stated: for [minPrice=abc] and [page=abc] the filter holds
    a NaN bound and differs from the filter of a request without
    [minPrice], the page is NaN and not the default 1, the skip is NaN,
    and the request is answered with the 500 response. *)
Lemma non_numeric_values_not_discarded :
  Products.build_filter non_numeric_query =
    Products.mkFilter None None None (Some (Products.mkRange (Some JS.NaN) None))
  /\ Products.build_filter non_numeric_query <> Products.build_filter empty_query
  /\ Products.pageNum non_numeric_query = JS.NaN
  /\ Products.pageNum non_numeric_query <> Products.pageNum empty_query
  /\ Products.skip non_numeric_query = JS.NaN
  /\ status (Products.getAllProducts any_match non_numeric_query sample_collection) = 500.
Proof.
  repeat split; try reflexivity; vm_compute; discriminate.
Qed.

(** ** updateProduct *)

Section ProductUpdate.

Import Products.

Lemma findById_id id c p : findById id c = Some p -> _id p = Mongo.canon id.
Proof.
  unfold findById. intros H. apply find_some in H as [_ H].
  now apply String.eqb_eq.
Qed.

Lemma findById_replace id c p p' :
  findById id c = Some p -> _id p' = Mongo.canon id ->
  findById id (replace p' c) = Some p'.
Proof.
  unfold findById. intros H Hid. induction c as [|x c IH]; simpl in *; [discriminate|].
  rewrite Hid.
  destruct (String.eqb (_id x) (Mongo.canon id)) eqn:E; simpl.
  - rewrite Hid, String.eqb_refl. reflexivity.
  - rewrite E. auto.
Qed.

Lemma notified_app a b : notified (a ++ b) = notified a || notified b.
Proof. unfold notified. apply existsb_app. Qed.

Lemma destroy_old_not_email f old : notified (destroy_old f old) = false.
Proof.
  unfold destroy_old.
  destruct f; [|reflexivity].
  destruct (JS.keep_truthy old); [|reflexivity].
  destruct (old_public_id s); reflexivity.
Qed.

(** C3. After a successful update the notification was dispatched exactly
    when the stored price before the update and the stored price after it
    are different numbers.  When the price sent does not parse, the price
    falls back to the stored one, the stored price does not change and
    nothing is dispatched. *)
Theorem price_notification_iff_price_changed
    (id : string) (b : update_body) (f : option file) (c c' : collection)
    (r : response) (effects : list effect) :
  updateProduct id b f c = (c', r, effects) ->
  status r = 200 ->
  exists before after,
    findById id c = Some before
    /\ findById id c' = Some after
    /\ (notified effects = true <->
        JS.strict_neq (PrecioVenta before) (PrecioVenta after) = true)
    /\ (JS.isNaN (JS.parseFloat_opt (b_PrecioVenta b)) = true ->
        PrecioVenta after = PrecioVenta before /\ notified effects = false).
Proof.
  unfold updateProduct.
  destruct (Mongo.isObjectId id) eqn:Hid; [|intros [= <- <- <-]; simpl; discriminate].
  cbn [negb].
  destruct (findById id c) as [before|] eqn:Hb; [|intros [= <- <- <-]; simpl; discriminate].
  unfold findByIdAndUpdate. rewrite Hid, Hb. cbn [negb].
  match goal with |- context [update_validators ?u] => set (upd := u) end.
  destruct (update_validators upd) eqn:Hv; [intros [= <- <- <-]; simpl; discriminate|].
  intros [= <- <- <-] _.
  exists before, (apply_update upd before).
  split; [reflexivity|].
  split; [apply (findById_replace id c before); [exact Hb|exact (findById_id _ _ _ Hb)]|].
  split.
  - rewrite notified_app, destroy_old_not_email.
    subst upd. cbn [apply_update PrecioVenta u_PrecioVenta orb].
    destruct (JS.strict_neq _ _); simpl; split; congruence.
  - intros Hnan. subst upd. simpl. rewrite Hnan.
    split; [reflexivity|].
    rewrite notified_app, destroy_old_not_email. simpl.
    assert (Hold : JS.isNaN (PrecioVenta before) = false).
    { unfold update_validators in Hv. simpl in Hv. rewrite Hnan in Hv.
      destruct (JS.isNaN (PrecioVenta before)); [discriminate|reflexivity]. }
    unfold JS.strict_neq. rewrite (strict_eq_refl _ Hold). reflexivity.
Qed.

End ProductUpdate.

Lemma price_notification_iff_price_changed_witness :
  exists before after,
    Products.findById (oid "0002") sample_collection = Some before
    /\ Products.findById (oid "0002")
         (fst (fst (Products.updateProduct (oid "0002") (price_update (Some "caro")) None
                      sample_collection))) = Some after
    /\ (Products.notified
          (snd (Products.updateProduct (oid "0002") (price_update (Some "caro")) None
                  sample_collection)) = true <->
        JS.strict_neq (Products.PrecioVenta before) (Products.PrecioVenta after) = true)
    /\ (JS.isNaN (JS.parseFloat_opt (Products.b_PrecioVenta (price_update (Some "caro")))) = true ->
        Products.PrecioVenta after = Products.PrecioVenta before
        /\ Products.notified
             (snd (Products.updateProduct (oid "0002") (price_update (Some "caro")) None
                     sample_collection)) = false).
Proof.
  eapply (price_notification_iff_price_changed (oid "0002") (price_update (Some "caro")) None
            sample_collection).
  - vm_compute. reflexivity.
  - reflexivity.
Defined.

(** ** The generic controller *)

Section GenericController.

Import Generic.

Lemma createOne_throw (M : Model) (fresh_id : string) (body : body_t)
    (c : collection M) (e : error) :
  save M (new_doc M fresh_id body) c = Throw e ->
  createOne M fresh_id body c = (c, handleError e "Error al crear el item").
Proof. intros H. unfold createOne. now rewrite H. Qed.

Lemma mem_save_missing (sch : schema) (d : document) (c : gmap string (gmap string string))
    (e : error) :
  check_required sch (fields d) = Some e -> mem_save sch d c = Throw e.
Proof. intros H. unfold mem_save. now rewrite H. Qed.

Lemma mem_save_duplicate (sch : schema) (d : document) (c : gmap string (gmap string string)) :
  check_required sch (fields d) = None ->
  clashes sch (_id d) (fields d) c = true ->
  mem_save sch d c = Throw duplicate_key.
Proof. intros H1 H2. unfold mem_save. now rewrite H1, H2. Qed.

(** C4, as the code has it.  Whenever the store rejects the payload the
    collection is left as it was and the answer has status 500, with the
    message of the operation and the message of the store's error; it is
    not a client error.  For a catalog collection this is the answer when
    a required path is missing or empty and when a unique value is already
    taken. *)
Theorem create_rejected_is_server_error :
  (forall (M : Model) (fresh_id : string) (body : body_t) (c : collection M) (e : error),
      save M (new_doc M fresh_id body) c = Throw e ->
      createOne M fresh_id body c =
        (c, mkResponse 500
              (JObj (("message", JStr "Error al crear el item")
                     :: ("error", JStr (message e)) :: nil)))
      /\ is_client_error (snd (createOne M fresh_id body c)) = false)
  /\ (forall (sch : schema) (fresh_id : string) (body : body_t)
             (c : gmap string (gmap string string)) (e : error),
      check_required sch (cast sch body) = Some e ->
      createOne (memModel sch) fresh_id body c =
        (c, mkResponse 500
              (JObj (("message", JStr "Error al crear el item")
                     :: ("error", JStr (message e)) :: nil))))
  /\ (forall (sch : schema) (fresh_id : string) (body : body_t)
             (c : gmap string (gmap string string)),
      check_required sch (cast sch body) = None ->
      clashes sch fresh_id (cast sch body) c = true ->
      createOne (memModel sch) fresh_id body c =
        (c, mkResponse 500
              (JObj (("message", JStr "Error al crear el item")
                     :: ("error", JStr "E11000 duplicate key error") :: nil)))).
Proof.
  split; [|split].
  - intros M fresh_id body c e H.
    rewrite (createOne_throw M fresh_id body c e H). split; reflexivity.
  - intros sch fresh_id body c e H.
    apply (createOne_throw (memModel sch)). simpl. now apply mem_save_missing.
  - intros sch fresh_id body c H1 H2.
    apply (createOne_throw (memModel sch) fresh_id body c duplicate_key).
    simpl. now apply mem_save_duplicate.
Qed.

(** C5, as the code has it.  On a catalog collection, take an identifier
    that casts to an ObjectId no document has.  A delete answers 404 with
    the not-found message and changes nothing.  An update answers that
    same 404 when its body passes the validators of the update, and the
    500 of the validation error when it does not: the validators run
    before the store is asked for the document.  An identifier that does
    not cast is answered 500 by both, whatever is stored.  Nothing is
    changed in any of these cases, and a 404 never carries a record.  A
    delete of a stored identifier removes it and answers with the
    identifier of the request; an update answered 200 carries the whole
    document as it is stored after the update. *)
Theorem update_delete_not_found (sch : schema) (id : string) (body : body_t)
    (c : gmap string (gmap string string)) :
  (forall oid,
      Mongo.castObjectId id = Some oid -> c !! oid = None ->
      deleteOne (memModel sch) id c =
        (c, mkResponse 404 (JObj (("message", JStr "Item no encontrado") :: nil)))
      /\ (update_validators sch (cast sch body) = None ->
          updateOne (memModel sch) id body c =
            (c, mkResponse 404 (JObj (("message", JStr "Item no encontrado") :: nil))))
      /\ (forall e, update_validators sch (cast sch body) = Some e ->
          updateOne (memModel sch) id body c =
            (c, mkResponse 500
                  (JObj (("message", JStr "Error al actualizar el item")
                         :: ("error", JStr (message e)) :: nil)))))
  /\ (Mongo.castObjectId id = None ->
      updateOne (memModel sch) id body c =
        (c, mkResponse 500
              (JObj (("message", JStr "Error al actualizar el item")
                     :: ("error", JStr (message (Mongo.cast_error "_id"))) :: nil)))
      /\ deleteOne (memModel sch) id c =
        (c, mkResponse 500
              (JObj (("message", JStr "Error al eliminar el item")
                     :: ("error", JStr (message (Mongo.cast_error "_id"))) :: nil))))
  /\ (forall oid f,
      Mongo.castObjectId id = Some oid -> c !! oid = Some f ->
      deleteOne (memModel sch) id c =
        (delete oid c,
         mkResponse 200
           (JObj (("message", JStr "Item eliminado exitosamente")
                  :: ("_id", JStr id) :: nil)))
      /\ delete oid c !! oid = None)
  /\ (forall c' r,
      updateOne (memModel sch) id body c = (c', r) ->
      (status r = 404 ->
         c' = c /\ r = mkResponse 404 (JObj (("message", JStr "Item no encontrado") :: nil))
         /\ exists oid, Mongo.castObjectId id = Some oid /\ c !! oid = None)
      /\ (status r = 200 ->
          exists oid new,
            Mongo.castObjectId id = Some oid /\ is_Some (c !! oid)
            /\ c' !! oid = Some new
            /\ r = mkResponse 200 (mem_toJSON sch (mkDoc oid new)))).
Proof.
  split; [|split; [|split]].
  - intros oid Hcast Hnone. unfold updateOne, deleteOne. simpl.
    unfold mem_findByIdAndUpdate, mem_findByIdAndDelete. rewrite Hcast, Hnone.
    split; [reflexivity|]. split.
    + intros Hv. rewrite Hv. reflexivity.
    + intros e Hv. rewrite Hv. reflexivity.
  - intros Hcast. unfold updateOne, deleteOne. simpl.
    unfold mem_findByIdAndUpdate, mem_findByIdAndDelete. rewrite Hcast.
    split; reflexivity.
  - intros oid f Hcast Hsome. unfold deleteOne. simpl.
    unfold mem_findByIdAndDelete. rewrite Hcast, Hsome. split; [reflexivity|].
    apply lookup_delete_eq.
  - intros c' r. unfold updateOne. simpl. unfold mem_findByIdAndUpdate.
    destruct (Mongo.castObjectId id) as [oid|] eqn:Hcast;
      [|intros [= <- <-]; split; simpl; discriminate].
    destruct (update_validators sch (cast sch body));
      [intros [= <- <-]; split; simpl; discriminate|].
    destruct (c !! oid) as [old|] eqn:Hold.
    + destruct (clashes sch oid (cast sch body) c);
        intros [= <- <-]; (split; [simpl; discriminate|]); [simpl; discriminate|].
      intros _. exists oid, (cast sch body ∪ old).
      split; [reflexivity|]. split; [eauto|]. split; [apply lookup_insert_eq|reflexivity].
    + intros [= <- <-]. split; [|simpl; discriminate].
      intros _. split; [reflexivity|]. split; [reflexivity|]. exists oid. auto.
Qed.

End GenericController.

Lemma create_rejected_is_server_error_witness :
  Generic.createOne (Generic.memModel Generic.marcaSchema) (oid "00b2") ∅ marcas =
    (marcas,
     mkResponse 500
       (JObj (("message", JStr "Error al crear el item")
              :: ("error", JStr "El nombre de la marca es obligatorio") :: nil)))
  /\ is_client_error
       (snd (Generic.createOne (Generic.memModel Generic.marcaSchema) (oid "00b2") ∅ marcas)) = false.
Proof.
  apply (proj1 create_rejected_is_server_error
           (Generic.memModel Generic.marcaSchema) (oid "00b2") ∅ marcas
           (Generic.validation_error "El nombre de la marca es obligatorio")).
  vm_compute. reflexivity.
Defined.

(** C4 fails as stated: a brand without its required name, and a brand
    whose name is taken, are both rejected by the store, and both are
    answered with status 500, which is not a client error. *)
Lemma create_rejected_not_client_error :
  Generic.save (Generic.memModel Generic.marcaSchema)
    (Generic.new_doc (Generic.memModel Generic.marcaSchema) (oid "00b2") ∅) marcas =
    Throw (Generic.validation_error "El nombre de la marca es obligatorio")
  /\ status (snd (Generic.createOne (Generic.memModel Generic.marcaSchema) (oid "00b2") ∅ marcas)) = 500
  /\ is_client_error
       (snd (Generic.createOne (Generic.memModel Generic.marcaSchema) (oid "00b2") ∅ marcas)) = false
  /\ Generic.save (Generic.memModel Generic.marcaSchema)
       (Generic.new_doc (Generic.memModel Generic.marcaSchema) (oid "00b2") {["nombre" := "Nike"]})
       marcas = Throw Generic.duplicate_key
  /\ status (snd (Generic.createOne (Generic.memModel Generic.marcaSchema) (oid "00b2")
                    {["nombre" := "Nike"]} marcas)) = 500.
Proof.
  repeat split; vm_compute; reflexivity.
Qed.

Lemma update_delete_not_found_witness :
  Generic.deleteOne (Generic.memModel Generic.marcaSchema) (oid "00b9") marcas =
    (marcas, mkResponse 404 (JObj (("message", JStr "Item no encontrado") :: nil)))
  /\ Generic.updateOne (Generic.memModel Generic.marcaSchema) (oid "00b9")
       {["nombre" := "Puma"]} marcas =
    (marcas, mkResponse 404 (JObj (("message", JStr "Item no encontrado") :: nil)))
  /\ Generic.deleteOne (Generic.memModel Generic.marcaSchema) (oid "00B1") marcas =
    (delete (oid "00b1") marcas,
     mkResponse 200
       (JObj (("message", JStr "Item eliminado exitosamente")
              :: ("_id", JStr (oid "00B1")) :: nil))).
Proof.
  pose proof (proj1 (update_delete_not_found Generic.marcaSchema (oid "00b9")
                       {["nombre" := "Puma"]} marcas) (oid "00b9") eq_refl eq_refl)
    as (Hdel & Hupd & _).
  split; [exact Hdel|]. split; [apply Hupd; reflexivity|].
  apply (proj1 (proj2 (proj2 (update_delete_not_found Generic.marcaSchema (oid "00B1")
                                ∅ marcas)))
           (oid "00b1") {["nombre" := "Nike"]}); vm_compute; reflexivity.
Defined.

(** C5 fails as stated.  No brand has the identifier of the first two
    requests, which is well formed: the update with an empty name is
    answered 500, not 404.  No brand has the identifier of the last two
    either, which is not an ObjectId: the update and the delete are both
    answered 500. *)
Lemma update_delete_not_always_not_found :
  marcas !! oid "00b9" = None
  /\ status (snd (Generic.updateOne (Generic.memModel Generic.marcaSchema) (oid "00b9")
                    {["nombre" := ""]} marcas)) = 500
  /\ (forall k, k ∈ dom marcas -> k <> "m9")
  /\ status (snd (Generic.updateOne (Generic.memModel Generic.marcaSchema) "m9"
                    {["nombre" := "Puma"]} marcas)) = 500
  /\ status (snd (Generic.deleteOne (Generic.memModel Generic.marcaSchema) "m9" marcas)) = 500.
Proof.
  split; [reflexivity|]. split; [reflexivity|]. split; [|split; reflexivity].
  intros k Hk. unfold marcas in Hk. rewrite dom_insert_L, dom_empty_L in Hk.
  apply elem_of_union in Hk as [Hk|Hk]; [|now apply elem_of_empty in Hk].
  apply elem_of_singleton in Hk. subst k. discriminate.
Qed.

(** ** The authentication middleware *)

Section AuthGate.

Import Auth.

Variable jwt_verify : option string -> result claim.

Lemma starts_with_truthy (p s : string) :
  p <> "" -> JS.starts_with p s = true -> JS.truthy (Some s) = true.
Proof.
  destruct p; [congruence|]. destruct s; simpl; [discriminate|reflexivity].
Qed.

Lemma existsb_is_next_app (a b : list action) :
  existsb is_next (a ++ b) = existsb is_next a || existsb is_next b.
Proof. apply existsb_app. Qed.

(** C8. The protected handler is reached exactly when the request has an
    Authorization header that starts with Bearer and the verification of
    the token taken from it succeeded; the request it is handed carries
    the identifier of the verified payload.  With no header, another
    scheme, or a token that fails the verification, it is not reached. *)
Theorem next_only_after_verified_token (req : request) :
  (next_called jwt_verify req = true <->
   exists header decoded,
     authorization req = Some header
     /\ JS.starts_with "Bearer" header = true
     /\ jwt_verify (bearer_token header) = Ok decoded)
  /\ (forall req', In (Next req') (protect jwt_verify req) ->
      exists header decoded,
        authorization req = Some header
        /\ jwt_verify (bearer_token header) = Ok decoded
        /\ userId req' = claim_id decoded).
Proof.
  unfold next_called, protect.
  destruct (authorization req) as [header|] eqn:Hh.
  - destruct (JS.starts_with "Bearer" header) eqn:Hs.
    + rewrite (starts_with_truthy "Bearer" header ltac:(discriminate) Hs).
      cbn [andb].
      destruct (jwt_verify (bearer_token header)) as [decoded|e] eqn:Hv.
      * split.
        -- split; [intros _; eauto|reflexivity].
        -- intros req' [Heq|Hin].
           ++ inversion Heq; subst. exists header, decoded. auto.
           ++ destruct (JS.truthy (bearer_token header)); simpl in Hin;
                [contradiction|destruct Hin as [Hin|[]]; discriminate].
      * split.
        -- split.
           ++ rewrite existsb_is_next_app. simpl.
              destruct (JS.truthy (bearer_token header)); simpl; discriminate.
           ++ intros (h & d & Hh' & _ & Hv'). inversion Hh'; subst. congruence.
        -- intros req' Hin. exfalso. simpl in Hin.
           destruct Hin as [Hin|Hin]; [discriminate|].
           destruct (JS.truthy (bearer_token header)); simpl in Hin;
             [contradiction|destruct Hin as [Hin|[]]; discriminate].
    + rewrite andb_false_r. split.
      * split; [simpl; discriminate|].
        intros (h & d & Hh' & Hs' & _). inversion Hh'; subst. congruence.
      * simpl. intros req' [Hin|[]]. discriminate.
  - simpl. split.
    + split; [discriminate|]. intros (h & d & Hh' & _). discriminate.
    + intros req' [Hin|[]]. discriminate.
Qed.

End AuthGate.

Lemma next_only_after_verified_token_witness :
  Auth.next_called sample_verify (Auth.mkRequest (Some "Bearer good") None) = true
  /\ Auth.next_called sample_verify (Auth.mkRequest (Some "Bearer bad") None) <> true.
Proof.
  split.
  - apply (proj1 (next_only_after_verified_token sample_verify
                    (Auth.mkRequest (Some "Bearer good") None))).
    exists "Bearer good", (Auth.mkClaim (Some (oid "00c1"))).
    repeat split; reflexivity.
  - intros H.
    apply (proj1 (next_only_after_verified_token sample_verify
                    (Auth.mkRequest (Some "Bearer bad") None))) in H.
    destruct H as (h & d & Hh & _ & Hv). inversion Hh; subst.
    vm_compute in Hv. discriminate.
Defined.

(** ** The user model and its controllers *)

Section UserModel.

Import Users.

Variable L : Libs.

Lemma isModified_password_set_nombre v u :
  isModified "password" (set_nombre v u) = isModified "password" u.
Proof.
  unfold set_nombre. cbv zeta. destruct (bool_decide _); [reflexivity|].
  unfold isModified, mark, isModified. simpl.
  destruct (bool_decide ("nombre" ∈ modified u)); [reflexivity|].
  apply bool_decide_ext. rewrite elem_of_cons. split; [intros [H|H]|]; auto. discriminate.
Qed.

Lemma isModified_password_set_email v u :
  isModified "password" (set_email L v u) = isModified "password" u.
Proof.
  unfold set_email. cbv zeta. destruct (bool_decide _); [reflexivity|].
  unfold isModified, mark, isModified. simpl.
  destruct (bool_decide ("email" ∈ modified u)); [reflexivity|].
  apply bool_decide_ext. rewrite elem_of_cons. split; [intros [H|H]|]; auto. discriminate.
Qed.

Lemma isModified_password_set_password v u :
  isModified "password" (set_password v u) =
  if bool_decide (password u = v) then isModified "password" u else true.
Proof.
  unfold set_password. destruct (bool_decide (password u = v)); [reflexivity|].
  unfold isModified at 1. unfold mark. simpl.
  destruct (isModified "password" u) eqn:E; [exact E|].
  apply bool_decide_eq_true. apply elem_of_cons. now left.
Qed.

Lemma password_set_nombre v u : password (set_nombre v u) = password u.
Proof. unfold set_nombre. cbv zeta. destruct (bool_decide _); reflexivity. Qed.

Lemma password_set_email v u : password (set_email L v u) = password u.
Proof. unfold set_email. cbv zeta. destruct (bool_decide _); reflexivity. Qed.

Lemma password_set_password v u : password (set_password v u) = v.
Proof.
  unfold set_password. destruct (bool_decide (password u = v)) eqn:E; [|reflexivity].
  now apply bool_decide_eq_true in E.
Qed.

Lemma id_set_nombre v u : _id (set_nombre v u) = _id u.
Proof. unfold set_nombre. cbv zeta. destruct (bool_decide _); reflexivity. Qed.

Lemma id_set_email v u : _id (set_email L v u) = _id u.
Proof. unfold set_email. cbv zeta. destruct (bool_decide _); reflexivity. Qed.

Lemma id_set_password v u : _id (set_password v u) = _id u.
Proof. unfold set_password. destruct (bool_decide _); reflexivity. Qed.

Lemma load_load u : load (load u) = load u.
Proof. reflexivity. Qed.

Lemma find_upsert (u : user) (us : list user) :
  find (fun v => String.eqb (_id v) (_id u)) (upsert u us) = Some u.
Proof.
  induction us as [|v us IH]; simpl.
  - now rewrite String.eqb_refl.
  - destruct (String.eqb (_id v) (_id u)) eqn:E; simpl.
    + now rewrite String.eqb_refl.
    + now rewrite E.
Qed.

Lemma findById_found id us u :
  findById id us = Some u -> _id u = Mongo.canon id /\ modified u = nil.
Proof.
  unfold findById. destruct (find _ us) as [v|] eqn:E; [|discriminate].
  intros [= <-]. apply find_some in E as [_ E]. apply String.eqb_eq in E. auto.
Qed.

Lemma pre_save_id salt u h : pre_save L salt u = Ok h -> _id h = _id u.
Proof.
  unfold pre_save. destruct (negb (isModified "password" u)); [now intros [= <-]|].
  destruct (password u); [|discriminate]. intros [= <-]. apply id_set_password.
Qed.

(** What [save] writes as the password. *)
Lemma save_password (salt : string) (u : user) (us : list user) (u' : user) (us' : list user) :
  save L salt u us = Ok (u', us') ->
  findById (_id u) us' = Some u'
  /\ (isModified "password" u = false -> password u' = password u)
  /\ (isModified "password" u = true ->
      exists plain, password u = Some plain
                    /\ password u' = Some (bcrypt_hash L plain salt)).
Proof.
  unfold save.
  destruct (validate L u); [discriminate|].
  destruct (pre_save L salt u) as [h|] eqn:Hh; [|discriminate].
  destruct (email_taken h us); [discriminate|].
  destruct (Mongo.is_id (_id h)) eqn:Hoid; [|discriminate].
  intros [= <- <-].
  pose proof (pre_save_id _ _ _ Hh) as Hid.
  apply is_id_inv in Hoid as [_ Hcanon].
  split.
  { unfold findById. rewrite <- Hid, Hcanon.
    change (_id h) with (_id (load h)). rewrite find_upsert. reflexivity. }
  unfold pre_save in Hh.
  destruct (isModified "password" u) eqn:Hm; simpl in Hh.
  - destruct (password u) as [plain|]; [|discriminate].
    injection Hh as <-. split; [discriminate|].
    intros _. exists plain. split; [reflexivity|].
    simpl. apply password_set_password.
  - injection Hh as <-. split; [reflexivity|discriminate].
Qed.

(** C6. A save hashes the password exactly when the password path was
    modified: the stored password is then the hash of the plain text, and
    otherwise it is the password the document already had.  For an update
    of a user, the stored hash is replaced by the hash of the password
    sent when that password has at least 6 characters, counted as
    [password.length] counts them, in UTF-16 code units (and is not the
    stored string itself); in every other successful update the stored
    hash stays as it was. *)
Theorem password_hashed_iff_modified (salt : string) :
  (forall u us u' us',
      save L salt u us = Ok (u', us') ->
      findById (_id u) us' = Some u'
      /\ (isModified "password" u = false -> password u' = password u)
      /\ (isModified "password" u = true ->
          exists plain, password u = Some plain
                        /\ password u' = Some (bcrypt_hash L plain salt)))
  /\ (forall st id n e p st' r,
      updateUser L salt st id n e p = (st', r) ->
      status r = 200 ->
      exists old new,
        findById id (users st) = Some old
        /\ findById id (users st') = Some new
        /\ if JS.truthy p && (6 <=? JS.length (default "" p))%nat
              && negb (bool_decide (password old = p))
           then exists plain, p = Some plain
                              /\ password new = Some (bcrypt_hash L plain salt)
           else password new = password old).
Proof.
  split; [intros u us u' us' Hs; exact (save_password salt u us u' us' Hs)|].
  intros st id n e p st' r. unfold updateUser.
  destruct (Mongo.isObjectId id) eqn:Hoid; [|intros [= <- <-]; simpl; discriminate].
  cbn [negb].
  destruct (findById id (users st)) as [old|] eqn:Hold;
    [|intros [= <- <-]; simpl; discriminate].
  destruct (findById_found _ _ _ Hold) as [Hid Hmod].
  set (u1 := set_email L (JS.or_else e (email (set_nombre (JS.or_else n (nombre old)) old)))
               (set_nombre (JS.or_else n (nombre old)) old)).
  assert (Hm1 : isModified "password" u1 = false).
  { unfold u1. rewrite isModified_password_set_email, isModified_password_set_nombre.
    unfold isModified. rewrite Hmod. reflexivity. }
  assert (Hp1 : password u1 = password old).
  { unfold u1. now rewrite password_set_email, password_set_nombre. }
  assert (Hi1 : _id u1 = Mongo.canon id).
  { unfold u1. now rewrite id_set_email, id_set_nombre. }
  set (cond := JS.truthy p && (6 <=? JS.length (default "" p))%nat).
  set (u2 := if cond then set_password p u1 else u1).
  destruct (save L salt u2 (users st)) as [[updated us]|err] eqn:Hs.
  2:{ destruct (bool_decide (code err = Some 11000)); intros [= <- <-]; simpl; discriminate. }
  intros [= <- <-] _.
  apply save_password in Hs as (Hfind & Hkeep & Hhash).
  assert (Hi2 : _id u2 = Mongo.canon id).
  { unfold u2. destruct cond; [rewrite id_set_password|]; exact Hi1. }
  rewrite Hi2 in Hfind. unfold findById in Hfind. rewrite canon_idem in Hfind.
  exists old, updated. split; [reflexivity|]. split; [exact Hfind|].
  unfold u2 in Hkeep, Hhash.
  destruct cond eqn:Hc; cbn [andb].
  - rewrite isModified_password_set_password, Hp1, Hm1 in Hkeep, Hhash.
    rewrite password_set_password in Hkeep, Hhash.
    destruct (bool_decide (password old = p)) eqn:Heq; cbn [negb].
    + rewrite (Hkeep eq_refl). symmetry. now apply bool_decide_eq_true in Heq.
    + destruct (Hhash eq_refl) as (plain & Hplain & Hnew). eauto.
  - rewrite Hkeep by exact Hm1. exact Hp1.
Qed.

Lemma user_json_no_password (rol : json) (u : user) :
  password u = None -> has_prop "password" (user_json rol u) = false.
Proof.
  intros H. unfold user_json. rewrite H.
  destruct (nombre u), (email u); reflexivity.
Qed.

Lemma cleared_user_json (rol : json) (u : user) :
  has_prop "password" (user_json rol (set_password None u)) = false.
Proof. apply user_json_no_password, password_set_password. Qed.

(** C9. Every success response that carries a user carries it without a
    password property: the user of a login, of the two registrations and
    of a user update, and each user of the administrators' list. *)
Theorem success_responses_omit_password :
  (forall st e p,
      is_success (loginUser L st e p) = true ->
      exists u, prop "user" (body (loginUser L st e p)) = Some u
                /\ has_prop "password" u = false)
  /\ (forall salt fresh st n e p,
      is_success (snd (registerAdmin L salt fresh st n e p)) = true ->
      exists u, prop "user" (body (snd (registerAdmin L salt fresh st n e p))) = Some u
                /\ has_prop "password" u = false)
  /\ (forall salt fresh st n e p,
      is_success (snd (registerClient L salt fresh st n e p)) = true ->
      exists u, prop "user" (body (snd (registerClient L salt fresh st n e p))) = Some u
                /\ has_prop "password" u = false)
  /\ (forall st,
      is_success (getAdminUsers st) = true ->
      exists items, body (getAdminUsers st) = JArr items
                    /\ Forall (fun u => has_prop "password" u = false) items)
  /\ (forall salt st id n e p,
      is_success (snd (updateUser L salt st id n e p)) = true ->
      exists u, prop "user" (body (snd (updateUser L salt st id n e p))) = Some u
                /\ has_prop "password" u = false).
Proof.
  repeat split.
  - intros st e p. unfold loginUser.
    destruct (findOne_email L e (users st)) as [u|]; [|simpl; discriminate].
    destruct (comparePassword L p u) as [[|]|]; try (simpl; discriminate).
    destruct (role_by_id (idRol u) (roles st)) as [r|]; [|simpl; discriminate].
    intros _. eexists. split; [reflexivity|apply cleared_user_json].
  - intros salt fresh st n e p. unfold registerAdmin.
    destruct (findOne_role "admin" (roles st)); [|simpl; discriminate].
    destruct (findOne_email L e (users st)); [simpl; discriminate|].
    destruct (save L salt _ (users st)) as [[saved us]|]; [|simpl; discriminate].
    intros _. eexists. split; [reflexivity|apply cleared_user_json].
  - intros salt fresh st n e p. unfold registerClient.
    destruct (negb (JS.truthy n) || negb (JS.truthy e) || negb (JS.truthy p));
      [simpl; discriminate|].
    destruct (JS.length (default "" p) <? 6)%nat; [simpl; discriminate|].
    destruct (findOne_role "cliente" (roles st)); [|simpl; discriminate].
    destruct (findOne_email L e (users st)); [simpl; discriminate|].
    destruct (save L salt _ (users st)) as [[saved us]|]; [|simpl; discriminate].
    intros _. eexists. split; [reflexivity|apply cleared_user_json].
  - intros st. unfold getAdminUsers.
    destruct (findOne_role "admin" (roles st)); [|simpl; discriminate].
    intros _. eexists. split; [reflexivity|].
    apply List.Forall_forall. intros j Hj. apply in_map_iff in Hj as (u & <- & _).
    now apply user_json_no_password.
  - intros salt st id n e p. unfold updateUser.
    destruct (Mongo.isObjectId id); [|simpl; discriminate]. cbn [negb].
    destruct (findById id (users st)); [|simpl; discriminate].
    destruct (save L salt _ (users st)) as [[saved us]|err].
    + intros _. eexists. split; [reflexivity|apply cleared_user_json].
    + destruct (bool_decide (code err = Some 11000)); simpl; discriminate.
Qed.

End UserModel.

Lemma password_hashed_iff_modified_witness :
  exists old new,
    Users.findById (oid "00c1") (Users.users sample_users) = Some old
    /\ Users.findById (oid "00c1")
         (Users.users (fst (Users.updateUser sample_libs "salt1" sample_users (oid "00c1")
                              None None (Some "nuevaclave")))) = Some new
    /\ if JS.truthy (Some "nuevaclave")
          && (6 <=? JS.length (default "" (Some "nuevaclave")))%nat
          && negb (bool_decide (Users.password old = Some "nuevaclave"))
       then exists plain, Some "nuevaclave" = Some plain
                          /\ Users.password new =
                             Some (Users.bcrypt_hash sample_libs plain "salt1")
       else Users.password new = Users.password old.
Proof.
  eapply (proj2 (password_hashed_iff_modified sample_libs "salt1") sample_users (oid "00c1")
            None None (Some "nuevaclave")).
  - vm_compute. reflexivity.
  - reflexivity.
Defined.

(** A password of 5 characters, 7 bytes in UTF-8, is too short: an update
    carrying it is answered 200 and keeps the stored hash, and a client
    registration with it is answered 400. *)
Example short_password_keeps_hash :
  status (snd (Users.updateUser sample_libs "salt1" sample_users (oid "00c1")
                 None None (Some "ñandú"))) = 200
  /\ Users.password <$>
       Users.findById (oid "00c1")
         (Users.users (fst (Users.updateUser sample_libs "salt1" sample_users (oid "00c1")
                              None None (Some "ñandú"))))
     = Some (Some "$2a$salt0$secreto")
  /\ status (snd (Users.registerClient sample_libs "salt1" (oid "00c2") sample_users
                    (Some "Luis") (Some "luis@example.com") (Some "ñandú"))) = 400.
Proof. repeat split; vm_compute; reflexivity. Qed.

Lemma success_responses_omit_password_witness :
  exists u,
    prop "user" (body (Users.loginUser sample_libs sample_users
                         (Some "ana@example.com") (Some "secreto"))) = Some u
    /\ has_prop "password" u = false.
Proof.
  apply (proj1 (success_responses_omit_password sample_libs)).
  vm_compute. reflexivity.
Defined.

(** ** The mass upload *)

Section MassUploadRows.

Import Products.

Variable number_toString : Q -> string.
Variable insertMany : list productData -> collection -> insert_outcome * collection.

Lemma assign_same_cell (r r' : row) (pd : productData) (k : nat) (h : option string) :
  r !! k = r' !! k -> assign number_toString r pd k h = assign number_toString r' pd k h.
Proof. intros H. unfold assign. now rewrite H. Qed.

Lemma numeric_field_truthy (f : string) :
  is_numeric_field f = true -> JS.keep_truthy (Some f) = Some f.
Proof.
  unfold is_numeric_field. intros H. apply orb_true_iff in H as [H|H];
    apply String.eqb_eq in H; subst; reflexivity.
Qed.

Lemma fill_coerced (r : row) (i : nat) (c : cell) (hs : list (option string)) :
  r !! i = Some (Some c) ->
  parseFloat_cell c = JS.NaN ->
  forall (k : nat) (pd : productData),
    (forall j h, hs !! j = Some h -> (k + j)%nat = i ->
                 exists h', h = Some h' /\ is_numeric_field (model_field h') = true) ->
    fill number_toString r hs k pd = fill number_toString (<[i := Some (CNum 0)]> r) hs k pd.
Proof.
  intros Hc Hnan. induction hs as [|h rest IH]; intros k pd Hcol; [reflexivity|].
  simpl.
  assert (Hstep : assign number_toString r pd k h = assign number_toString (<[i := Some (CNum 0)]> r) pd k h).
  { destruct (decide (k = i)) as [->|Hne].
    - destruct (Hcol 0%nat h eq_refl ltac:(lia)) as (h' & -> & Hnum).
      unfold assign. rewrite (numeric_field_truthy _ Hnum), Hnum.
      rewrite Hc, list_lookup_insert_eq by (eapply lookup_lt_Some; exact Hc).
      rewrite Hnan. reflexivity.
    - apply assign_same_cell. now rewrite list_lookup_insert_ne. }
  rewrite Hstep. apply IH.
  intros j h0 Hj Hk. apply (Hcol (S j) h0); [exact Hj|lia].
Qed.

Lemma assign_keeps_defined (r : row) (pd : productData) (k : nat) (h : option string)
    (X : string) :
  is_Some (pd !! X) -> is_Some (assign number_toString r pd k h !! X).
Proof.
  intros H. unfold assign. destruct h as [h|]; [|exact H].
  destruct (JS.keep_truthy (Some (model_field h))); [|exact H].
  destruct (r !! k) as [[cv|]|]; try exact H.
  destruct (is_numeric_field (model_field h));
    (destruct (decide (model_field h = X)) as [->|Hne];
     [rewrite lookup_insert_eq; eauto|rewrite lookup_insert_ne by exact Hne; exact H]).
Qed.

Lemma fill_keeps_defined (r : row) (hs : list (option string)) (X : string) :
  forall (k : nat) (pd : productData),
    is_Some (pd !! X) -> is_Some (fill number_toString r hs k pd !! X).
Proof.
  induction hs as [|h rest IH]; intros k pd H; [exact H|].
  simpl. apply IH. now apply assign_keeps_defined.
Qed.

Lemma fill_defines (r : row) (hs : list (option string)) :
  forall (k : nat) (pd : productData) (j : nat) (h : string) (c : cell),
    hs !! j = Some (Some h) ->
    r !! (k + j)%nat = Some (Some c) ->
    is_numeric_field (model_field h) = true ->
    is_Some (fill number_toString r hs k pd !! model_field h).
Proof.
  induction hs as [|h0 rest IH]; intros k pd j h c Hj Hc Hnum; [discriminate|].
  destruct j as [|j]; simpl in *.
  - injection Hj as ->. apply fill_keeps_defined.
    unfold assign. rewrite (numeric_field_truthy _ Hnum), Hnum.
    replace (k + 0)%nat with k in Hc by lia. rewrite Hc.
    rewrite lookup_insert_eq. eauto.
  - apply (IH (S k) _ j h c); [exact Hj| |exact Hnum].
    replace (S k + j)%nat with (k + S j)%nat by lia. exact Hc.
Qed.

Lemma fill_untouched (r : row) (X : string) (hs : list (option string)) :
  forall (k : nat) (pd : productData),
    pd !! X = None ->
    (forall j h, hs !! j = Some (Some h) -> model_field h = X ->
                 r !! (k + j)%nat = None \/ r !! (k + j)%nat = Some None) ->
    fill number_toString r hs k pd !! X = None.
Proof.
  induction hs as [|h0 rest IH]; intros k pd Hpd Hcol; [exact Hpd|].
  simpl. apply IH.
  - unfold assign. destruct h0 as [h0|]; [|exact Hpd].
    destruct (JS.keep_truthy (Some (model_field h0))); [|exact Hpd].
    destruct (decide (model_field h0 = X)) as [HX|HX].
    + destruct (Hcol 0%nat h0 eq_refl HX) as [Hn|Hn];
        replace (k + 0)%nat with k in Hn by lia; rewrite Hn; exact Hpd.
    + destruct (r !! k) as [[cv|]|]; try exact Hpd.
      destruct (is_numeric_field (model_field h0));
        rewrite lookup_insert_ne by exact HX; exact Hpd.
  - intros j h Hj HX. replace (S k + j)%nat with (k + S j)%nat by lia.
    exact (Hcol (S j) h Hj HX).
Qed.

Lemma fill_keeps (r : row) (X : string) (hs : list (option string)) :
  forall (k : nat) (pd : productData),
    (forall j h, hs !! j = Some (Some h) -> model_field h = X ->
                 r !! (k + j)%nat = None \/ r !! (k + j)%nat = Some None) ->
    fill number_toString r hs k pd !! X = pd !! X.
Proof.
  induction hs as [|h0 rest IH]; intros k pd Hcol; [reflexivity|].
  simpl. rewrite IH.
  - unfold assign. destruct h0 as [h0|]; [|reflexivity].
    destruct (JS.keep_truthy (Some (model_field h0))); [|reflexivity].
    destruct (decide (model_field h0 = X)) as [HX|HX].
    + destruct (Hcol 0%nat h0 eq_refl HX) as [Hn|Hn];
        replace (k + 0)%nat with k in Hn by lia; rewrite Hn; reflexivity.
    + destruct (r !! k) as [[cv|]|]; try reflexivity.
      destruct (is_numeric_field (model_field h0));
        rewrite lookup_insert_ne by exact HX; reflexivity.
  - intros j h Hj HX. replace (S k + j)%nat with (k + S j)%nat by lia.
    exact (Hcol (S j) h Hj HX).
Qed.

(** The value an unparsable cell of a numeric column leaves in the object,
    when no later column writes the same field. *)
Lemma fill_last_coerced (r : row) (hs : list (option string)) :
  forall (k : nat) (pd : productData) (j : nat) (h : string) (c : cell),
    hs !! j = Some (Some h) ->
    r !! (k + j)%nat = Some (Some c) ->
    is_numeric_field (model_field h) = true ->
    parseFloat_cell c = JS.NaN ->
    (forall j' h', (j < j')%nat -> hs !! j' = Some (Some h') ->
                   model_field h' = model_field h ->
                   r !! (k + j')%nat = None \/ r !! (k + j')%nat = Some None) ->
    fill number_toString r hs k pd !! model_field h = Some (PNum (JS.ofZ 0)).
Proof.
  induction hs as [|h0 rest IH]; intros k pd j h c Hj Hc Hnum Hnan Hlater; [discriminate|].
  destruct j as [|j]; simpl in *.
  - injection Hj as ->. rewrite fill_keeps.
    + unfold assign. rewrite (numeric_field_truthy _ Hnum), Hnum.
      replace (k + 0)%nat with k in Hc by lia. rewrite Hc, Hnan.
      rewrite lookup_insert_eq. reflexivity.
    + intros j' h' Hj' HX. replace (S k + j')%nat with (k + S j')%nat by lia.
      apply (Hlater (S j') h'); [lia|exact Hj'|exact HX].
  - apply (IH (S k) _ j h c); [exact Hj| |exact Hnum|exact Hnan|].
    + replace (S k + j)%nat with (k + S j)%nat by lia. exact Hc.
    + intros j' h' Hlt Hj' HX. replace (S k + j')%nat with (k + S j')%nat by lia.
      apply (Hlater (S j') h'); [lia|exact Hj'|exact HX].
Qed.

Lemma required_present (pd : productData) :
  falsy (pd !! "NombreProducto") = false -> falsy (pd !! "idMarca") = false ->
  is_Some (pd !! "PrecioVenta") -> is_Some (pd !! "stock") ->
  missing_required pd = false.
Proof.
  intros Hn Hm [x Hx] [y Hy]. unfold missing_required.
  rewrite Hn, Hm, Hx, Hy. reflexivity.
Qed.

Lemma productsToCreate_keep (headers : list (option string)) (r : row)
    (rows1 rows2 : list row) (pd : productData) :
  row_to_product number_toString headers r = Some pd ->
  In pd (productsToCreate number_toString headers (rows1 ++ r :: rows2)).
Proof.
  intros H. unfold productsToCreate. rewrite omap_app. simpl. rewrite H.
  apply in_or_app. right. now left.
Qed.

Lemma missing_field_skipped (pd : productData) (X : string) :
  X ∈ ["NombreProducto"; "PrecioVenta"; "stock"; "idMarca"] ->
  pd !! X = None -> missing_required pd = true.
Proof.
  intros HX Hnone. unfold missing_required.
  repeat (apply elem_of_cons in HX as [->|HX]);
    [| | | |now apply elem_of_nil in HX];
    rewrite Hnone; simpl; rewrite ?orb_true_r; reflexivity.
Qed.

Lemma productsToCreate_skip (headers : list (option string)) (r : row)
    (rows1 rows2 : list row) :
  row_to_product number_toString headers r = None ->
  productsToCreate number_toString headers (rows1 ++ r :: rows2) =
  productsToCreate number_toString headers (rows1 ++ rows2).
Proof.
  intros H. unfold productsToCreate. rewrite !omap_app. simpl. now rewrite H.
Qed.

(** C10. A cell of the price or stock column that is present but does not
    parse is read as 0: the row gives the same result as the row with the
    number 0 in that cell, and the field is defined, so the required-field
    test does not reject the row on its account.  A row with no cell at
    all for the name, the price, the stock or the brand is skipped, and a
    skipped row is dropped before the insertion: the answer and the
    collection are the ones of the sheet without that row, so it is not
    among the reported failures.  When no later column writes the same
    field, the value the unparsable cell leaves is the number 0; and when
    the name and the brand of that row are not empty and its price and
    stock are defined, the row is kept: its object, with the 0, is among
    the documents handed to [insertMany], and the answer is the one made
    from what [insertMany] returns for them. *)
Theorem mass_upload_coerces_and_skips (headers : list (option string)) (r : row) :
  (forall i h c,
      headers !! i = Some (Some h) ->
      is_numeric_field (model_field h) = true ->
      r !! i = Some (Some c) ->
      parseFloat_cell c = JS.NaN ->
      row_to_product number_toString headers r = row_to_product number_toString headers (<[i := Some (CNum 0)]> r)
      /\ is_Some (fill number_toString r headers 0 ∅ !! model_field h))
  /\ (forall X,
      X ∈ ["NombreProducto"; "PrecioVenta"; "stock"; "idMarca"] ->
      (forall j h, headers !! j = Some (Some h) -> model_field h = X ->
                   r !! j = None \/ r !! j = Some None) ->
      row_to_product number_toString headers r = None)
  /\ (row_to_product number_toString headers r = None ->
      forall rows1 rows2,
        productsToCreate number_toString headers (rows1 ++ r :: rows2) =
        productsToCreate number_toString headers (rows1 ++ rows2))
  /\ (forall first rows1 rows2 c,
      headers = read_headers number_toString first ->
      row_to_product number_toString headers r = None ->
      rows1 ++ rows2 <> nil ->
      uploadMassProducts number_toString insertMany (Some (first :: rows1 ++ r :: rows2)) c =
      uploadMassProducts number_toString insertMany (Some (first :: rows1 ++ rows2)) c)
  /\ (forall i h c,
      headers !! i = Some (Some h) ->
      is_numeric_field (model_field h) = true ->
      r !! i = Some (Some c) ->
      parseFloat_cell c = JS.NaN ->
      (forall j h', (i < j)%nat -> headers !! j = Some (Some h') ->
                    model_field h' = model_field h ->
                    r !! j = None \/ r !! j = Some None) ->
      fill number_toString r headers 0 ∅ !! model_field h = Some (PNum (JS.ofZ 0))
      /\ (falsy (fill number_toString r headers 0 ∅ !! "NombreProducto") = false ->
          falsy (fill number_toString r headers 0 ∅ !! "idMarca") = false ->
          is_Some (fill number_toString r headers 0 ∅ !! "PrecioVenta") ->
          is_Some (fill number_toString r headers 0 ∅ !! "stock") ->
          exists pd,
            row_to_product number_toString headers r = Some pd
            /\ pd !! model_field h = Some (PNum (JS.ofZ 0))
            /\ forall first rows1 rows2 c0,
                 headers = read_headers number_toString first ->
                 In pd (productsToCreate number_toString headers (rows1 ++ r :: rows2))
                 /\ uploadMassProducts number_toString insertMany
                      (Some (first :: rows1 ++ r :: rows2)) c0
                    = upload_answer
                        (productsToCreate number_toString headers (rows1 ++ r :: rows2))
                        (insertMany
                           (productsToCreate number_toString headers (rows1 ++ r :: rows2))
                           c0))).
Proof.
  split; [|split; [|split; [|split]]].
  - intros i h c Hh Hnum Hc Hnan. split.
    + unfold row_to_product.
      rewrite (fill_coerced r i c headers Hc Hnan 0%nat ∅); [reflexivity|].
      intros j h0 Hj Hk. simpl in Hk. subst j. rewrite Hh in Hj. injection Hj as <-. eauto.
    + apply (fill_defines r headers 0%nat ∅ i h c); assumption.
  - intros X HX Hcol. unfold row_to_product.
    rewrite (missing_field_skipped _ X HX); [reflexivity|].
    apply fill_untouched; [apply lookup_empty|exact Hcol].
  - intros Hskip rows1 rows2. now apply productsToCreate_skip.
  - intros first rows1 rows2 c -> Hskip Hne.
    pose proof (productsToCreate_skip _ r rows1 rows2 Hskip) as Heq.
    unfold uploadMassProducts.
    destruct (rows1 ++ r :: rows2) as [|a l] eqn:E1; [now destruct rows1|].
    destruct (rows1 ++ rows2) as [|a' l'] eqn:E2; [congruence|].
    rewrite Heq. reflexivity.
  - intros i h c Hh Hnum Hc Hnan Hlater.
    assert (Hzero : fill number_toString r headers 0 ∅ !! model_field h
                    = Some (PNum (JS.ofZ 0))).
    { apply (fill_last_coerced r headers 0%nat ∅ i h c); assumption. }
    split; [exact Hzero|].
    intros Hn Hm Hp Hs.
    assert (Hrow : row_to_product number_toString headers r
                   = Some (fill number_toString r headers 0 ∅)).
    { unfold row_to_product. now rewrite (required_present _ Hn Hm Hp Hs). }
    exists (fill number_toString r headers 0 ∅).
    split; [exact Hrow|]. split; [exact Hzero|].
    intros first rows1 rows2 c0 ->.
    split; [exact (productsToCreate_keep _ r rows1 rows2 _ Hrow)|].
    unfold uploadMassProducts.
    destruct (rows1 ++ r :: rows2) as [|a l] eqn:E1; [now destruct rows1|].
    cbv zeta. rewrite <- E1.
    pose proof (productsToCreate_keep _ r rows1 rows2 _ Hrow) as Hin.
    destruct (productsToCreate number_toString _ (rows1 ++ r :: rows2)) as [|d ds];
      [destruct Hin|reflexivity].
Qed.

End MassUploadRows.

Lemma mass_upload_coerces_and_skips_witness :
  (Products.row_to_product decimal_of sample_headers sample_row =
   Products.row_to_product decimal_of sample_headers
     (<[1%nat := Some (Products.CNum 0)]> sample_row)
   /\ is_Some (Products.fill decimal_of sample_row sample_headers 0 ∅
                 !! Products.model_field "Precio Venta"))
  /\ Products.row_to_product decimal_of sample_headers
       (Some (Products.CStr "Zapatilla") :: None :: Some (Products.CNum 4)
        :: Some (Products.CStr (oid "00a1")) :: nil) = None
  /\ exists pd,
       Products.row_to_product decimal_of sample_headers sample_row = Some pd
       /\ pd !! "PrecioVenta" = Some (Products.PNum (JS.ofZ 0))
       /\ In pd (Products.productsToCreate decimal_of sample_headers (sample_row :: nil)).
Proof.
  split; [|split].
  - apply (proj1 (mass_upload_coerces_and_skips decimal_of sample_insertMany
                    sample_headers sample_row) 1%nat "Precio Venta" (Products.CStr "gratis"));
      reflexivity.
  - apply (proj1 (proj2 (mass_upload_coerces_and_skips decimal_of sample_insertMany
                           sample_headers
                           (Some (Products.CStr "Zapatilla") :: None
                            :: Some (Products.CNum 4)
                            :: Some (Products.CStr (oid "00a1")) :: nil)))
             "PrecioVenta").
    + repeat constructor.
    + intros j h Hj Hf.
      destruct j as [|[|[|[|j]]]]; simpl in Hj; try discriminate;
        injection Hj as <-; try discriminate Hf.
      right. reflexivity.
  - destruct (proj2 (proj2 (proj2 (proj2
                (mass_upload_coerces_and_skips decimal_of sample_insertMany
                   sample_headers sample_row))))
                1%nat "Precio Venta" (Products.CStr "gratis")
                eq_refl eq_refl eq_refl eq_refl) as [_ Hkept].
    + intros j h' Hlt Hj Hf.
      destruct j as [|[|[|[|j]]]]; simpl in Hj; try discriminate; try lia;
        injection Hj as <-; discriminate Hf.
    + destruct Hkept as (pd & Hrow & Hzero & Hdocs);
        [reflexivity|reflexivity|vm_compute; eauto|vm_compute; eauto|].
      exists pd. split; [exact Hrow|]. split; [exact Hzero|].
      exact (proj1 (Hdocs (Some (Products.CStr "Nombre Producto")
                           :: Some (Products.CStr " Precio Venta ")
                           :: Some (Products.CStr "stock")
                           :: Some (Products.CStr "Marca ID") :: nil)
                      nil nil nil eq_refl)).
Defined.

(** The row with the unparsable price is submitted, with price 0. *)
Example unparsable_price_submitted :
  (fun pd => (pd !! "PrecioVenta", pd !! "stock")) <$>
    Products.row_to_product decimal_of sample_headers sample_row =
  Some (Some (Products.PNum (JS.ofZ 0)), Some (Products.PNum (JS.Fin 4))).
Proof. vm_compute. reflexivity. Qed.

(** The example of the specification: page 2 of 20 matches, 8 per page. *)
Example page_two_of_twenty :
  let id := fun i => oid (String.append "01" (Products.nat_to_string (10 + i))) in
  let c := map (fun i => sample_product (id i) 20 (Z.of_nat i)) (seq 1 20) in
  let r := Products.getAllProducts any_match
             (Products.mkQuery (Some "zapa") None None (Some "10") (Some "50") None
                (Some "2") (Some "8")) c in
  prop "totalPages" (body r) = Some (JNum (JS.ofZ 3))
  /\ prop "totalProducts" (body r) = Some (JNum (JS.ofZ 20))
  /\ (exists items, prop "products" (body r) = Some (JArr items)
                    /\ omap (prop "_id") items =
                       map (fun i => JStr (id i)) (rev (seq 5 8))).
Proof.
  repeat split. eexists. split; reflexivity.
Qed.

Example parseInt_prefix : JS.parseInt " 12px" = JS.ofZ 12.
Proof. reflexivity. Qed.

Example parseInt_letters : JS.parseInt "abc" = JS.NaN.
Proof. reflexivity. Qed.

Example parseFloat_decimal : JS.strict_eq (JS.parseFloat "19.95") (JS.Fin (1995 # 100)) = true.
Proof. reflexivity. Qed.

Example parseFloat_exponent : JS.strict_eq (JS.parseFloat "-1.5e2x") (JS.Fin (-150 # 1)) = true.
Proof. reflexivity. Qed.

Example parseFloat_lone_dot : JS.parseFloat "." = JS.NaN.
Proof. reflexivity. Qed.

Example split_bearer : Auth.bearer_token "Bearer abc.def" = Some "abc.def".
Proof. reflexivity. Qed.

Example trim_both_ends : JS.trim "  a b  " = "a b".
Proof. reflexivity. Qed.

Example old_public_id_of_url :
  Products.old_public_id
    "https://res.cloudinary.com/demo/image/upload/v1/prostore_products/product-a-1.jpg"
  = Some "prostore_products/product-a-1".
Proof. reflexivity. Qed.

(* ===================================================================== *)
(** * Further properties of the handlers *)
(* ===================================================================== *)

(** ** Decimal numerals *)





(** ** More on the product list *)

Section ProductPages.

Import Products.

Variable regex_test : string -> string -> bool.





End ProductPages.

Section ProductPaging.

Import Products.

Variable regex_test : string -> string -> bool.

Lemma unpaginated_inv f s c all :
  unpaginated regex_test f s c = Ok all ->
  castable f = true
  /\ all = sort_by (sort_le s) (List.filter (matches regex_test f) c).
Proof.
  unfold unpaginated, find. destruct (castable f); [|discriminate].
  rewrite as_integer_ofZ. simpl. intros [= <-]. auto.
Qed.















End ProductPaging.

(** ** Export, creation and deletion of products *)

Section ProductExport.

Import Products Lifecycle.

Variable regex_test : string -> string -> bool.
Variables marcas modelos colores : gmap string (gmap string string).




(** X4. In the export a product shows the name of its brand when the brand
    is in the catalog with a name, and N/A once the brand has been
    deleted through the catalog controller (or never existed), under any
    identifier that casts to the reference the product holds: the delete
    is not answered 500, and it does not touch the products that refer to
    the brand. *)
Theorem export_brand_name_or_NA (p : product) :
  (forall d n,
      marcas !! idMarca p = Some d -> d !! "nombre" = Some n -> n <> "" ->
      x_idMarca (to_row marcas modelos colores p) = n)
  /\ (forall sch id,
      Mongo.castObjectId id = Some (idMarca p) ->
      status (snd (Generic.deleteOne (Generic.memModel sch) id marcas)) <> 500
      /\ x_idMarca (to_row (fst (Generic.deleteOne (Generic.memModel sch) id marcas))
                      modelos colores p) = "N/A").
Proof.
  split.
  - intros d n Hd Hn Hne. simpl. unfold nombre_or_NA. rewrite Hd, Hn.
    destruct n; [congruence|reflexivity].
  - intros sch id Hid. simpl. unfold nombre_or_NA, Generic.deleteOne. simpl.
    unfold Generic.mem_findByIdAndDelete. rewrite Hid.
    destruct (marcas !! idMarca p) eqn:E; simpl.
    + split; [discriminate|]. now rewrite lookup_delete_eq.
    + split; [discriminate|]. now rewrite E.
Qed.

End ProductExport.

Section ProductLifecycle.

Import Products Lifecycle.

Lemma findById_none id c :
  findById id c = None -> forall x, In x c -> _id x <> Mongo.canon id.
Proof.
  unfold findById. intros H x Hx Hid.
  apply (find_none _ _ H) in Hx. apply String.eqb_neq in Hx. contradiction.
Qed.

Lemma findById_app_new id c p :
  findById id c = None -> _id p = Mongo.canon id -> findById id (c ++ p :: nil) = Some p.
Proof.
  unfold findById. induction c as [|x c IH]; simpl; intros H Hid.
  - rewrite Hid, String.eqb_refl. reflexivity.
  - destruct (String.eqb (_id x) (Mongo.canon id)); [discriminate|auto].
Qed.

Lemma findById_app_old id c p :
  _id p <> Mongo.canon id -> findById id (c ++ p :: nil) = findById id c.
Proof.
  unfold findById. intros Hne. induction c as [|x c IH]; simpl.
  - apply String.eqb_neq in Hne. now rewrite Hne.
  - destruct (String.eqb (_id x) (Mongo.canon id)); [reflexivity|exact IH].
Qed.

Lemma remove_app_new id c p :
  findById id c = None -> _id p = Mongo.canon id ->
  remove (Mongo.canon id) (c ++ p :: nil) = c.
Proof.
  unfold findById. induction c as [|x c IH]; simpl; intros H Hid.
  - rewrite Hid, String.eqb_refl. reflexivity.
  - destruct (String.eqb (_id x) (Mongo.canon id)); [discriminate|]. f_equal. auto.
Qed.

Lemma truthy_default (v : option string) : JS.truthy v = true -> default "" v <> "".
Proof. destruct v as [[|]|]; simpl; congruence. Qed.

Lemma canon_not_empty (s : string) : s <> "" -> Mongo.canon s <> "".
Proof. destruct s; simpl; congruence. Qed.

(** What a creation that is not stopped by the test of the four fields
    answers. *)
Lemma createProduct_saves (fresh_id : string) (now : Z) (b : update_body)
    (f : option file) (c : collection) :
  JS.truthy (b_NombreProducto b) && JS.truthy (b_PrecioVenta b)
    && JS.truthy (b_stock b) && JS.truthy (b_idMarca b) = true ->
  exists p,
    _id p = fresh_id
    /\ b_NombreProducto b = Some (NombreProducto p)
    /\ PrecioVenta p = JS.parseFloat_opt (b_PrecioVenta b)
    /\ stock p = JS.parseInt_opt (b_stock b)
    /\ imagen p = file_path <$> f
    /\ NombreProducto p <> "" /\ idMarca p <> ""
    /\ createProduct fresh_id now b f c =
       match save (mkNew p (refs_castable b)) c with
       | Ok (savedProduct, c') => (c', mkResponse 201 (product_json savedProduct), nil)
       | Throw e => (c, server_error "Error al crear el producto" e, destroy_new f)
       end.
Proof.
  intros Hreq. unfold createProduct.
  repeat (apply andb_true_iff in Hreq as [Hreq ?]).
  match goal with H : JS.truthy (b_idMarca b) = true |- _ =>
    pose proof (truthy_default _ H) as Hm; rewrite H end.
  match goal with H : JS.truthy (b_stock b) = true |- _ => rewrite H end.
  match goal with H : JS.truthy (b_PrecioVenta b) = true |- _ => rewrite H end.
  pose proof (truthy_default _ Hreq) as Hnm. rewrite Hreq. cbn [negb orb].
  exists (mkProduct fresh_id
            (default "" (b_NombreProducto b))
            (JS.parseFloat_opt (b_PrecioVenta b))
            (file_path <$> f)
            (JS.parseInt_opt (b_stock b))
            (Mongo.canon (default "" (b_idMarca b)))
            (Mongo.canon <$> JS.keep_truthy (b_idModelo b))
            (Mongo.canon <$> JS.keep_truthy (b_idColor b))
            (Mongo.canon <$> JS.keep_truthy (b_idTalla b))
            now).
  cbn [_id NombreProducto PrecioVenta stock imagen idMarca].
  split; [reflexivity|]. split.
  { destruct (b_NombreProducto b); [reflexivity|discriminate]. }
  split; [reflexivity|]. split; [reflexivity|]. split; [reflexivity|].
  split; [exact Hnm|]. split; [now apply canon_not_empty|reflexivity].
Qed.

Lemma save_validators_None (p : product) (cast_ok : bool) :
  save_validators (mkNew p cast_ok) = None <->
  JS.isNaN (PrecioVenta p) = false /\ JS.isNaN (stock p) = false /\ cast_ok = true
  /\ JS.geb (PrecioVenta p) (JS.ofZ 0) = true
  /\ NombreProducto p <> "" /\ idMarca p <> "".
Proof.
  unfold save_validators. cbn [built refs_cast].
  destruct (JS.isNaN (PrecioVenta p)); [split; [discriminate|intros (H & _); discriminate]|].
  destruct (JS.isNaN (stock p));
    [split; [discriminate|intros (_ & H & _); discriminate]|].
  destruct cast_ok; [|split; [discriminate|intros (_ & _ & H & _); discriminate]].
  destruct (JS.geb (PrecioVenta p) (JS.ofZ 0));
    [|split; [discriminate|intros (_ & _ & _ & H & _); discriminate]].
  cbn [orb negb].
  destruct (String.eqb (NombreProducto p) "") eqn:E1.
  { apply String.eqb_eq in E1. split; [discriminate|]. intros (_ & _ & _ & _ & H & _). congruence. }
  destruct (String.eqb (idMarca p) "") eqn:E2.
  { apply String.eqb_eq in E2. split; [discriminate|]. intros (_ & _ & _ & _ & _ & H). congruence. }
  apply String.eqb_neq in E1, E2. cbn [orb]. split; [|reflexivity]. intros _. auto 10.
Qed.

(** X5. A product creation that succeeds stores the product under its new
    identifier, after the products already there, with the price and the
    stock parsed from the request and the uploaded image, and starts no
    side effect; the product can then be read back by its identifier, and
    deleting it gives the collection before the creation. *)
Theorem created_product_round_trip (fresh_id : string) (now : Z) (b : update_body)
    (f : option file) (c c' : collection) (r : response) (effects : list effect) :
  createProduct fresh_id now b f c = (c', r, effects) ->
  status r = 201 ->
  exists p,
    c' = c ++ p :: nil
    /\ effects = nil
    /\ r = mkResponse 201 (product_json p)
    /\ findById fresh_id c = None
    /\ findById fresh_id c' = Some p
    /\ _id p = fresh_id
    /\ b_NombreProducto b = Some (NombreProducto p)
    /\ PrecioVenta p = JS.parseFloat_opt (b_PrecioVenta b)
    /\ stock p = JS.parseInt_opt (b_stock b)
    /\ imagen p = file_path <$> f
    /\ JS.isNaN (PrecioVenta p) = false
    /\ JS.geb (PrecioVenta p) (JS.ofZ 0) = true
    /\ fst (fst (deleteProduct fresh_id c')) = c.
Proof.
  destruct (JS.truthy (b_NombreProducto b) && JS.truthy (b_PrecioVenta b)
            && JS.truthy (b_stock b) && JS.truthy (b_idMarca b)) eqn:Hreq.
  2:{ unfold createProduct.
      destruct (JS.truthy (b_NombreProducto b)), (JS.truthy (b_PrecioVenta b)),
        (JS.truthy (b_stock b)), (JS.truthy (b_idMarca b)); simpl in *;
        try discriminate; intros [= <- <- <-]; simpl; discriminate. }
  destruct (createProduct_saves fresh_id now b f c Hreq)
    as (p & Hid & Hname & Hprice & Hstock & Himg & _ & _ & ->).
  unfold save. cbn [built].
  destruct (save_validators (mkNew p (refs_castable b))) eqn:Hv;
    [intros [= <- <- <-]; simpl; discriminate|].
  destruct (findById (_id p) c) eqn:Hfree; [intros [= <- <- <-]; simpl; discriminate|].
  destruct (Mongo.is_id (_id p)) eqn:Hoid; [|intros [= <- <- <-]; simpl; discriminate].
  intros [= <- <- <-] _.
  apply save_validators_None in Hv as (Hn & _ & _ & Hg & _).
  apply is_id_inv in Hoid as [Hoid Hcanon].
  rewrite Hid in Hfree, Hoid, Hcanon.
  exists p.
  assert (Hnew : findById fresh_id (c ++ p :: nil) = Some p)
    by (apply findById_app_new; [exact Hfree|congruence]).
  repeat split; try reflexivity; try assumption.
  unfold deleteProduct. rewrite Hoid, Hnew. simpl.
  apply remove_app_new; [exact Hfree|congruence].
Qed.

(** X6. A creation request that lacks the name, the price, the stock or
    the brand is answered 400 before anything is stored, and the image
    already uploaded for it is left on the image host; a request the
    store rejects (a price or stock that does not parse, a negative
    price, a brand, model, color or size that is not an ObjectId, an
    identifier already in use) is answered 500, stores nothing either,
    and removes the uploaded image.  A request with the four fields, a
    non-negative price and a stock that parse, references that are
    ObjectIds and an unused new identifier is answered 201. *)
Theorem rejected_creation_stores_nothing (fresh_id : string) (now : Z) (b : update_body)
    (f : option file) (c : collection) :
  (JS.truthy (b_NombreProducto b) && JS.truthy (b_PrecioVenta b)
     && JS.truthy (b_stock b) && JS.truthy (b_idMarca b) = false ->
   createProduct fresh_id now b f c =
     (c, bad_request "Nombre, Precio, Stock y Marca son obligatorios.", nil))
  /\ (forall c' r effects,
      createProduct fresh_id now b f c = (c', r, effects) ->
      status r <> 201 ->
      c' = c
      /\ (status r = 400 /\ effects = nil
          \/ status r = 500 /\ effects = destroy_new f
             /\ (~ acceptable b \/ findById fresh_id c <> None
                 \/ Mongo.is_id fresh_id = false)))
  /\ (JS.truthy (b_NombreProducto b) && JS.truthy (b_PrecioVenta b)
        && JS.truthy (b_stock b) && JS.truthy (b_idMarca b) = true ->
      (~ acceptable b ->
       createProduct fresh_id now b f c =
         (c, server_error "Error al crear el producto" validation_error, destroy_new f))
      /\ (acceptable b -> findById fresh_id c = None -> Mongo.is_id fresh_id = true ->
          status (snd (fst (createProduct fresh_id now b f c))) = 201)).
Proof.
  assert (Hacc : forall p,
             PrecioVenta p = JS.parseFloat_opt (b_PrecioVenta b) ->
             stock p = JS.parseInt_opt (b_stock b) ->
             NombreProducto p <> "" -> idMarca p <> "" ->
             (save_validators (mkNew p (refs_castable b)) = None <-> acceptable b)).
  { intros p Hprice Hstock Hnm Hm. rewrite save_validators_None, Hprice, Hstock.
    unfold acceptable. tauto. }
  split; [|split].
  - intros Hreq. unfold createProduct.
    destruct (JS.truthy (b_NombreProducto b)), (JS.truthy (b_PrecioVenta b)),
      (JS.truthy (b_stock b)), (JS.truthy (b_idMarca b)); simpl in *;
      try discriminate; reflexivity.
  - intros c' r effects.
    destruct (JS.truthy (b_NombreProducto b) && JS.truthy (b_PrecioVenta b)
              && JS.truthy (b_stock b) && JS.truthy (b_idMarca b)) eqn:Hreq.
    2:{ unfold createProduct.
        destruct (JS.truthy (b_NombreProducto b)), (JS.truthy (b_PrecioVenta b)),
          (JS.truthy (b_stock b)), (JS.truthy (b_idMarca b)); simpl in *;
          try discriminate; intros [= <- <- <-] _;
          (split; [reflexivity|]); left; split; reflexivity. }
    destruct (createProduct_saves fresh_id now b f c Hreq)
      as (p & Hid & _ & Hprice & Hstock & _ & Hnm & Hm & ->).
    specialize (Hacc p Hprice Hstock Hnm Hm).
    unfold save. cbn [built]. rewrite Hid.
    destruct (save_validators (mkNew p (refs_castable b))) eqn:Hv.
    { intros [= <- <- <-] _. split; [reflexivity|]. right.
      split; [reflexivity|]. split; [reflexivity|]. left.
      intros Ha. apply Hacc in Ha. discriminate. }
    destruct (findById fresh_id c) eqn:Hfree.
    { intros [= <- <- <-] _. split; [reflexivity|]. right.
      split; [reflexivity|]. split; [reflexivity|]. right. left. discriminate. }
    destruct (Mongo.is_id fresh_id) eqn:Hoid.
    + intros [= <- <- <-] H. simpl in H. congruence.
    + intros [= <- <- <-] _. split; [reflexivity|]. right.
      split; [reflexivity|]. split; [reflexivity|]. right. right. reflexivity.
  - intros Hreq.
    destruct (createProduct_saves fresh_id now b f c Hreq)
      as (p & Hid & _ & Hprice & Hstock & _ & Hnm & Hm & ->).
    specialize (Hacc p Hprice Hstock Hnm Hm).
    unfold save. cbn [built]. rewrite Hid. split.
    + intros Hna.
      destruct (save_validators (mkNew p (refs_castable b))) as [e|] eqn:Hv.
      * assert (e = validation_error) as ->; [|reflexivity].
        unfold save_validators in Hv.
        repeat match type of Hv with
               | (if ?x then _ else _) = _ => destruct x
               end; congruence.
      * exfalso. apply Hna, Hacc. reflexivity.
    + intros Ha Hfree Hoid. apply Hacc in Ha. rewrite Ha, Hfree, Hoid. reflexivity.
Qed.

End ProductLifecycle.

Section ProductRemoval.

Import Products Lifecycle.

Lemma findById_not_in id c : ~ In (Mongo.canon id) (map _id c) -> findById id c = None.
Proof.
  unfold findById. induction c as [|x c IH]; simpl; intros H; [reflexivity|].
  destruct (String.eqb (_id x) (Mongo.canon id)) eqn:E.
  - apply String.eqb_eq in E. tauto.
  - apply IH. tauto.
Qed.

Lemma findById_remove_same id c :
  List.NoDup (map _id c) -> findById id (remove (Mongo.canon id) c) = None.
Proof.
  induction c as [|x c IH]; simpl; intros Hnd; [reflexivity|].
  apply NoDup_cons_iff in Hnd as [Hx Hnd].
  destruct (String.eqb (_id x) (Mongo.canon id)) eqn:E.
  - apply String.eqb_eq in E. rewrite E in Hx. now apply findById_not_in.
  - unfold findById in *. simpl. rewrite E. now apply IH.
Qed.

Lemma findById_remove_other id id' c :
  Mongo.canon id' <> Mongo.canon id ->
  findById id' (remove (Mongo.canon id) c) = findById id' c.
Proof.
  intros Hne. unfold findById. induction c as [|x c IH]; simpl; [reflexivity|].
  destruct (String.eqb (_id x) (Mongo.canon id)) eqn:E; simpl.
  - apply String.eqb_eq in E. rewrite E.
    apply not_eq_sym, String.eqb_neq in Hne. now rewrite Hne.
  - destruct (String.eqb (_id x) (Mongo.canon id')); [reflexivity|exact IH].
Qed.

Lemma length_remove id c p :
  findById id c = Some p -> S (List.length (remove (Mongo.canon id) c)) = List.length c.
Proof.
  unfold findById. induction c as [|x c IH]; simpl; [discriminate|].
  destruct (String.eqb (_id x) (Mongo.canon id)); simpl; [reflexivity|].
  intros H. f_equal. auto.
Qed.

(** X7. A delete whose identifier is not an ObjectId is answered 500 and
    changes nothing.  For an identifier that is one: deleting a product
    that is not stored answers 404 and changes nothing; deleting a stored
    product removes that product and no other, answers with the
    identifier of the request, and asks the image host to remove its
    image; with distinct identifiers the product cannot be read any more
    and a second deletion answers 404. *)
Theorem delete_product_removes_one (id : string) (c : collection) :
  (Mongo.isObjectId id = false ->
     deleteProduct id c =
       (c, mkResponse 500
             (JObj (("message", JStr "Error al eliminar el producto")
                    :: ("error", JStr (message (Mongo.cast_error "_id"))) :: nil)),
        nil))
  /\ (Mongo.isObjectId id = true -> findById id c = None ->
     deleteProduct id c =
       (c, mkResponse 404 (JObj (("message", JStr "Producto no encontrado") :: nil)), nil))
  /\ (forall p,
      Mongo.isObjectId id = true -> findById id c = Some p ->
      deleteProduct id c =
        (remove (Mongo.canon id) c,
         mkResponse 200
           (JObj (("message", JStr "Producto eliminado exitosamente")
                  :: ("_id", JStr id) :: nil)),
         destroy_image (imagen p))
      /\ _id p = Mongo.canon id
      /\ S (List.length (remove (Mongo.canon id) c)) = List.length c
      /\ (forall id', Mongo.canon id' <> Mongo.canon id ->
            findById id' (remove (Mongo.canon id) c) = findById id' c)
      /\ (List.NoDup (map _id c) ->
          findById id (remove (Mongo.canon id) c) = None
          /\ status (snd (fst (deleteProduct id (remove (Mongo.canon id) c)))) = 404)).
Proof.
  split; [|split].
  - intros Hoid. unfold deleteProduct. now rewrite Hoid.
  - intros Hoid H. unfold deleteProduct. now rewrite Hoid, H.
  - intros p Hoid H. unfold deleteProduct at 1. rewrite Hoid, H.
    split; [reflexivity|]. split; [exact (findById_id _ _ _ H)|].
    split; [exact (length_remove id c p H)|].
    split; [intros id' Hne; now apply findById_remove_other|].
    intros Hnd. pose proof (findById_remove_same id c Hnd) as Hgone.
    split; [exact Hgone|]. unfold deleteProduct. now rewrite Hoid, Hgone.
Qed.

Lemma map_id_replace p' c : map _id (replace p' c) = map _id c.
Proof.
  induction c as [|x c IH]; simpl; [reflexivity|].
  destruct (String.eqb (_id x) (_id p')) eqn:E; simpl.
  - apply String.eqb_eq in E. now rewrite E.
  - now rewrite IH.
Qed.

Lemma findById_replace_other id' p' c :
  Mongo.canon id' <> _id p' -> findById id' (replace p' c) = findById id' c.
Proof.
  intros Hne. unfold findById. induction c as [|x c IH]; simpl; [reflexivity|].
  destruct (String.eqb (_id x) (_id p')) eqn:E; simpl.
  - apply String.eqb_eq in E. rewrite E.
    apply not_eq_sym, String.eqb_neq in Hne. now rewrite Hne.
  - destruct (String.eqb (_id x) (Mongo.canon id')); [reflexivity|exact IH].
Qed.

(** X8. Whatever the outcome, an update keeps the identifiers of the
    collection, in their order, and leaves every other product as it was;
    when it is not answered 200 the whole collection is unchanged.  After
    a 200 the stored image is the uploaded one if a file was sent and the
    old one otherwise, and the old image is removed from the image host
    only when a file was sent.  A 500 comes in two ways: the identifier
    is not an ObjectId, the first read throws and only the uploaded file
    is removed; or the product was read and the write was refused, and
    the uploaded file is removed while the removal of the old image,
    started before the write, stands.  A 404 is the answer for an
    ObjectId no product has, and starts nothing. *)
Theorem update_product_touches_one_record (id : string) (b : update_body)
    (f : option file) (c c' : collection) (r : response) (effects : list effect) :
  updateProduct id b f c = (c', r, effects) ->
  map _id c' = map _id c
  /\ (forall id', Mongo.canon id' <> Mongo.canon id -> findById id' c' = findById id' c)
  /\ (status r <> 200 -> c' = c)
  /\ (status r = 200 ->
      exists before after,
        findById id c = Some before /\ findById id c' = Some after
        /\ imagen after = match f with
                          | Some file => Some (file_path file)
                          | None => imagen before
                          end
        /\ List.filter (fun e => negb (is_email e)) effects = destroy_old f (imagen before))
  /\ (f = None -> Forall (fun e => is_email e = true) effects)
  /\ (status r = 500 ->
      (Mongo.isObjectId id = false /\ effects = destroy_new f)
      \/ (Mongo.isObjectId id = true
          /\ exists before,
               findById id c = Some before
               /\ effects = destroy_old f (imagen before) ++ destroy_new f))
  /\ (Mongo.isObjectId id = false -> status r = 500)
  /\ (status r = 404 ->
      Mongo.isObjectId id = true /\ findById id c = None /\ effects = nil).
Proof.
  unfold updateProduct.
  destruct (Mongo.isObjectId id) eqn:Hoid; cbn [negb].
  2:{ intros [= <- <- <-]. simpl.
      split; [reflexivity|]. split; [reflexivity|]. split; [reflexivity|].
      split; [discriminate|]. split.
      { intros ->. constructor. }
      split; [intros _; left; split; reflexivity|].
      split; [reflexivity|discriminate]. }
  destruct (findById id c) as [before|] eqn:Hb.
  2:{ intros [= <- <- <-]. simpl.
      split; [reflexivity|]. split; [reflexivity|]. split; [reflexivity|].
      split; [discriminate|]. split; [constructor|].
      split; [discriminate|]. split; [discriminate|]. auto. }
  unfold findByIdAndUpdate. rewrite Hoid, Hb. cbn [negb].
  match goal with |- context [update_validators ?u] => set (upd := u) end.
  pose proof (findById_id _ _ _ Hb) as Hid.
  assert (Hold : forall g, List.filter (fun e => negb (is_email e)) (destroy_old g (imagen before))
                           = destroy_old g (imagen before)).
  { intros g. unfold destroy_old. destruct g; [|reflexivity].
    destruct (JS.keep_truthy (imagen before)); [|reflexivity].
    destruct (old_public_id s); reflexivity. }
  destruct (update_validators upd) eqn:Hv.
  - intros [= <- <- <-]. simpl.
    split; [reflexivity|]. split; [reflexivity|]. split; [reflexivity|].
    split; [discriminate|]. split.
    { intros ->. simpl. constructor. }
    split.
    { intros _. right. split; [reflexivity|]. exists before. split; reflexivity. }
    split; discriminate.
  - intros [= <- <- <-]. simpl.
    split; [apply map_id_replace|].
    split; [intros id' Hne; apply findById_replace_other; simpl; congruence|].
    split; [congruence|].
    split.
    + intros _. exists before, (apply_update upd before).
      split; [reflexivity|].
      split; [apply (findById_replace id c before); [exact Hb|exact Hid]|].
      split.
      * simpl. destruct f; reflexivity.
      * rewrite List.filter_app, Hold.
        destruct (JS.strict_neq _ _); simpl; now rewrite app_nil_r.
    + split.
      { intros ->. simpl. destruct (JS.strict_neq _ _); repeat constructor. }
      split; [discriminate|]. split; discriminate.
Qed.

End ProductRemoval.

(** ** The documents of a mass upload *)

Section MassUploadDocuments.

Import Products Invariants.

Variable number_toString : Q -> string.

Lemma assign_well_typed (r : row) (pd : productData) (k : nat) (h : option string) :
  well_typed pd -> well_typed (assign number_toString r pd k h).
Proof.
  intros Hwt. unfold assign. destruct h as [h|]; [|exact Hwt].
  destruct (JS.keep_truthy (Some (model_field h))); [|exact Hwt].
  destruct (r !! k) as [[cv|]|]; try exact Hwt.
  destruct (is_numeric_field (model_field h)) eqn:Hnum; intros X v HX;
    (destruct (decide (model_field h = X)) as [<-|Hne];
     [rewrite lookup_insert_eq in HX; injection HX as <-; rewrite Hnum
     |rewrite lookup_insert_ne in HX by exact Hne; now apply Hwt]).
  - destruct (JS.isNaN (parseFloat_cell cv)) eqn:E; eauto.
  - eauto.
Qed.

Lemma fill_well_typed (r : row) (hs : list (option string)) :
  forall k pd, well_typed pd -> well_typed (fill number_toString r hs k pd).
Proof.
  induction hs as [|h hs IH]; intros k pd H; [exact H|].
  simpl. apply IH. now apply assign_well_typed.
Qed.

(** X9. Every document handed to [insertMany] has a non-empty name and
    brand and a price and a stock that are numbers, never NaN; no more
    documents are handed over than the sheet has data rows. *)
Theorem submitted_documents_are_complete (headers : list (option string))
    (rows : list row) :
  Forall
    (fun pd =>
       exists name price stock_ marca_,
         pd !! "NombreProducto" = Some (PStr name) /\ name <> ""
         /\ pd !! "PrecioVenta" = Some (PNum price) /\ JS.isNaN price = false
         /\ pd !! "stock" = Some (PNum stock_) /\ JS.isNaN stock_ = false
         /\ pd !! "idMarca" = Some (PStr marca_) /\ marca_ <> "")
    (productsToCreate number_toString headers rows)
  /\ (List.length (productsToCreate number_toString headers rows) <= List.length rows)%nat.
Proof.
  split.
  - apply List.Forall_forall. intros pd Hpd.
    apply list_elem_of_In, list_elem_of_omap in Hpd as (r & _ & Hr).
    unfold row_to_product in Hr.
    destruct (missing_required (fill number_toString r headers 0 ∅)) eqn:Hm; [discriminate|].
    injection Hr as <-.
    assert (Hwt : well_typed (fill number_toString r headers 0 ∅)).
    { apply fill_well_typed. intros X v HX. now rewrite lookup_empty in HX. }
    set (pd := fill number_toString r headers 0 ∅) in *.
    unfold missing_required in Hm.
    repeat (apply orb_false_iff in Hm as [Hm ?]).
    destruct (pd !! "NombreProducto") as [vn|] eqn:En; [|discriminate].
    destruct (pd !! "idMarca") as [vm|] eqn:Em; [|discriminate].
    destruct (pd !! "PrecioVenta") as [vp|] eqn:Ep; [|discriminate].
    destruct (pd !! "stock") as [vs|] eqn:Es; [|discriminate].
    destruct (Hwt _ _ En) as (name & ->). destruct (Hwt _ _ Em) as (marca_ & ->).
    destruct (Hwt _ _ Ep) as (price & -> & Hp). destruct (Hwt _ _ Es) as (stock_ & -> & Hs).
    exists name, price, stock_, marca_.
    simpl in *. repeat split; auto.
    + intros ->. discriminate.
    + intros ->. discriminate.
  - unfold productsToCreate. induction rows as [|r rows IH]; simpl; [lia|].
    unfold omap in IH.
    destruct (row_to_product number_toString headers r); simpl; lia.
Qed.

End MassUploadDocuments.

(** ** The catalog collections *)

Section CatalogCollections.

Import Generic Invariants.

Variable sch : schema.

Lemma check_required_none (ps : list path_spec) (f : gmap string string) :
  check_required ps f = None <->
  forall p msg, In p ps -> required p = Some msg ->
                exists v, f !! path p = Some v /\ v <> "".
Proof.
  induction ps as [|p ps IH]; simpl.
  - split; [intros _ p msg []|reflexivity].
  - destruct (required p) as [m|] eqn:Hr.
    + destruct (f !! path p) as [[|a v]|] eqn:Hf.
      * split; [discriminate|]. intros H.
        destruct (H p m (or_introl eq_refl) Hr) as (v & Hv & Hne). congruence.
      * rewrite IH. split.
        -- intros H q msg [<-|Hq] Hm; [|eauto].
           exists (String a v). split; [exact Hf|discriminate].
        -- intros H q msg Hq. apply H. now right.
      * split; [discriminate|]. intros H.
        destruct (H p m (or_introl eq_refl) Hr) as (v & Hv & Hne). congruence.
    + rewrite IH. split.
      * intros H q msg [<-|Hq] Hm; [congruence|eauto].
      * intros H q msg Hq. apply H. now right.
Qed.

Lemma clashes_false (id : string) (f : gmap string string)
    (c : gmap string (gmap string string)) :
  clashes sch id f c = false ->
  forall p v id' f',
    In p sch -> unique p = true -> f !! path p = Some v ->
    c !! id' = Some f' -> f' !! path p = Some v -> id' = id.
Proof.
  unfold clashes. intros H p v id' f' Hp Hu Hf Hc Hf'.
  destruct (decide (id' = id)) as [|Hne]; [assumption|exfalso].
  assert (Hex : existsb
                  (fun p => unique p &&
                     match f !! path p with
                     | Some v => bool_decide
                         (map_Exists (fun id' f' => id' ≠ id ∧ f' !! path p = Some v) c)
                     | None => false
                     end) sch = true).
  { apply existsb_exists. exists p. split; [exact Hp|].
    rewrite Hu, Hf. simpl. apply bool_decide_eq_true.
    apply map_Exists_lookup. exists id', f'. auto. }
  congruence.
Qed.

Lemma mem_save_ok (d : document) (c c' : gmap string (gmap string string)) (d' : document) :
  mem_save sch d c = Ok (d', c') ->
  d' = d /\ c' = <[_id d := fields d]> c /\ c !! _id d = None
  /\ check_required sch (fields d) = None
  /\ clashes sch (_id d) (fields d) c = false
  /\ Mongo.is_id (_id d) = true.
Proof.
  unfold mem_save.
  destruct (check_required sch (fields d)) eqn:Hr; [discriminate|].
  destruct (clashes sch (_id d) (fields d) c) eqn:Hc; [discriminate|]. simpl.
  destruct (bool_decide (is_Some (c !! _id d))) eqn:Hi; [discriminate|].
  destruct (Mongo.is_id (_id d)) eqn:Hoid; [|discriminate]. simpl.
  intros [= <- <-]. apply bool_decide_eq_false in Hi.
  repeat split; auto. destruct (c !! _id d); [|reflexivity].
  exfalso. apply Hi. eauto.
Qed.

Lemma mem_update_ok (id : string) (body : gmap string string)
    (c c' : gmap string (gmap string string)) (d : document) :
  mem_findByIdAndUpdate sch id body c = Ok (Some d, c') ->
  exists old,
    Mongo.isObjectId id = true
    /\ c !! Mongo.canon id = Some old
    /\ d = mkDoc (Mongo.canon id) (cast sch body ∪ old)
    /\ c' = <[Mongo.canon id := cast sch body ∪ old]> c
    /\ check_required
         (filter (fun p => bool_decide (is_Some (cast sch body !! path p))) sch)
         (cast sch body) = None
    /\ clashes sch (Mongo.canon id) (cast sch body) c = false.
Proof.
  unfold mem_findByIdAndUpdate, Mongo.castObjectId, update_validators.
  destruct (Mongo.isObjectId id); [|discriminate].
  destruct (check_required _ (cast sch body)) eqn:Hr; [discriminate|].
  destruct (c !! Mongo.canon id) as [old|] eqn:Hold; [|discriminate].
  destruct (clashes sch (Mongo.canon id) (cast sch body) c) eqn:Hc; [discriminate|].
  intros [= <- <-]. exists old. auto 10.
Qed.

Lemma mem_update_none (id : string) (body : gmap string string)
    (c c' : gmap string (gmap string string)) :
  mem_findByIdAndUpdate sch id body c = Ok (None, c') -> c' = c.
Proof.
  unfold mem_findByIdAndUpdate.
  destruct (Mongo.castObjectId id); [|discriminate].
  destruct (update_validators sch (cast sch body)); [discriminate|].
  destruct (c !! s); [|now intros [= <-]].
  destruct (clashes _ _ _ _); discriminate.
Qed.

Lemma required_after_update (upd old : gmap string string) :
  check_required (filter (fun p => bool_decide (is_Some (upd !! path p))) sch) upd = None ->
  check_required sch old = None ->
  check_required sch (upd ∪ old) = None.
Proof.
  rewrite !check_required_none. intros Hupd Hold p msg Hp Hm.
  destruct (upd !! path p) as [v|] eqn:E.
  - destruct (Hupd p msg) as (v' & Hv' & Hne); [|exact Hm|].
    + apply list_elem_of_In, list_elem_of_filter. split.
      * apply Is_true_true, bool_decide_eq_true_2. rewrite E. eauto.
      * now apply list_elem_of_In.
    + exists v'. split; [|exact Hne]. now apply lookup_union_Some_l.
  - destruct (Hold p msg Hp Hm) as (v & Hv & Hne).
    exists v. split; [|exact Hne]. rewrite lookup_union_r; assumption.
Qed.

Lemma invariants_insert_new (id : string) (f : gmap string string)
    (c : gmap string (gmap string string)) :
  required_ok sch c -> unique_ok sch c ->
  check_required sch f = None ->
  (forall p v id' f', In p sch -> unique p = true -> f !! path p = Some v ->
                      c !! id' = Some f' -> id' <> id -> f' !! path p = Some v -> False) ->
  required_ok sch (<[id := f]> c) /\ unique_ok sch (<[id := f]> c).
Proof.
  intros Hreq Huni Hf Hfresh. split.
  - intros i g Hi. destruct (decide (id = i)) as [<-|Hne].
    + rewrite lookup_insert_eq in Hi. now injection Hi as <-.
    + rewrite lookup_insert_ne in Hi by exact Hne. eauto.
  - intros p i1 i2 g1 g2 v Hp Hu H1 H2 Hv1 Hv2.
    destruct (decide (id = i1)) as [<-|Hn1], (decide (id = i2)) as [<-|Hn2]; auto.
    + rewrite lookup_insert_eq in H1. injection H1 as <-.
      rewrite lookup_insert_ne in H2 by exact Hn2.
      exfalso. eapply (Hfresh p v i2 g2); eauto.
    + rewrite lookup_insert_eq in H2. injection H2 as <-.
      rewrite lookup_insert_ne in H1 by exact Hn1.
      exfalso. eapply (Hfresh p v i1 g1); eauto.
    + rewrite lookup_insert_ne in H1 by exact Hn1.
      rewrite lookup_insert_ne in H2 by exact Hn2.
      eapply Huni; eauto.
Qed.

(** X10. The operations of the generic controller keep a catalog
    collection well formed: after a create, an update (whose validators
    are run) or a delete, whatever its outcome, every stored document
    still has its required paths and no two documents share a value on a
    unique path. *)
Theorem catalog_operations_keep_invariants (c : gmap string (gmap string string)) :
  required_ok sch c -> unique_ok sch c ->
  (forall id body,
      required_ok sch (fst (createOne (memModel sch) id body c))
      /\ unique_ok sch (fst (createOne (memModel sch) id body c)))
  /\ (forall id body,
      required_ok sch (fst (updateOne (memModel sch) id body c))
      /\ unique_ok sch (fst (updateOne (memModel sch) id body c)))
  /\ (forall id,
      required_ok sch (fst (deleteOne (memModel sch) id c))
      /\ unique_ok sch (fst (deleteOne (memModel sch) id c))).
Proof.
  intros Hreq Huni. split; [|split].
  - intros id body. unfold createOne. simpl.
    destruct (mem_save sch (mkDoc id (cast sch body)) c) as [[d c']|e] eqn:Hs; simpl; [|auto].
    apply mem_save_ok in Hs as (-> & -> & Hfree & Hr & Hc & _). simpl in *.
    apply invariants_insert_new; auto.
    intros p v id' f' Hp Hu Hv Hl Hne Hv'.
    apply Hne. eapply clashes_false; eauto.
  - intros id body. unfold updateOne. simpl.
    destruct (mem_findByIdAndUpdate sch id body c) as [[[d|] c']|e] eqn:Hs; simpl; auto.
    + apply mem_update_ok in Hs as (old & _ & Hold & -> & -> & Hr & Hc).
      apply invariants_insert_new; auto.
      * apply required_after_update; [exact Hr|eauto].
      * intros p v id' f' Hp Hu Hv Hl Hne Hv'.
        destruct (cast sch body !! path p) as [w|] eqn:E.
        -- rewrite (lookup_union_Some_l _ _ _ _ E) in Hv. injection Hv as <-.
           apply Hne. eapply clashes_false; eauto.
        -- rewrite lookup_union_r in Hv by exact E.
           apply Hne. eapply (Huni p id' (Mongo.canon id)); eauto.
    + apply mem_update_none in Hs as ->. auto.
  - intros id. unfold deleteOne. simpl. unfold mem_findByIdAndDelete.
    destruct (Mongo.castObjectId id) as [oid|]; simpl; [|auto].
    destruct (c !! oid) as [old|] eqn:E; simpl; [|auto].
    split.
    + intros i g Hi. apply lookup_delete_Some in Hi as [_ Hi]. eauto.
    + intros p i1 i2 g1 g2 v Hp Hu H1 H2.
      apply lookup_delete_Some in H1 as [_ H1]. apply lookup_delete_Some in H2 as [_ H2].
      eapply Huni; eauto.
Qed.

(** X11. A create that is answered 201 stores the cast body under the new
    identifier, which was free, and leaves the other documents alone; the
    document is answered back, and deleting it gives the collection
    before the create.  Every other answer of a create leaves the
    collection unchanged. *)
Theorem catalog_create_round_trip (id : string) (body : gmap string string)
    (c c' : gmap string (gmap string string)) (r : response) :
  createOne (memModel sch) id body c = (c', r) ->
  (status r = 201 ->
     c !! id = None
     /\ c' !! id = Some (cast sch body)
     /\ (forall id', id' <> id -> c' !! id' = c !! id')
     /\ r = mkResponse 201 (mem_toJSON sch (mkDoc id (cast sch body)))
     /\ deleteOne (memModel sch) id c' =
        (c, mkResponse 200
              (JObj (("message", JStr "Item eliminado exitosamente")
                     :: ("_id", JStr id) :: nil))))
  /\ (status r <> 201 -> c' = c).
Proof.
  unfold createOne. simpl.
  destruct (mem_save sch (mkDoc id (cast sch body)) c) as [[d c0]|e] eqn:Hs.
  - apply mem_save_ok in Hs as (-> & -> & Hfree & _ & _ & Hoid). simpl in *.
    intros [= <- <-]. split; [|simpl; congruence].
    intros _. split; [exact Hfree|].
    split; [apply lookup_insert_eq|].
    split; [intros id' Hne; now apply lookup_insert_ne|].
    split; [reflexivity|].
    apply is_id_inv in Hoid as [Hoid Hcanon].
    unfold deleteOne. simpl. unfold mem_findByIdAndDelete, Mongo.castObjectId.
    rewrite Hoid, Hcanon, lookup_insert_eq. now rewrite delete_insert_id.
  - intros [= <- <-]. split; [simpl; discriminate|reflexivity].
Qed.

(** X12. An update that is answered 200 replaces the paths given in the
    body and keeps the other paths of the document stored under the
    ObjectId the identifier of the request casts to; it touches no other
    document.  Every other answer of an update leaves the collection
    unchanged. *)
Theorem catalog_update_merges (id : string) (body : gmap string string)
    (c c' : gmap string (gmap string string)) (r : response) :
  updateOne (memModel sch) id body c = (c', r) ->
  (status r = 200 ->
     exists old new,
       Mongo.castObjectId id = Some (Mongo.canon id)
       /\ c !! Mongo.canon id = Some old /\ c' !! Mongo.canon id = Some new
       /\ (forall k v, cast sch body !! k = Some v -> new !! k = Some v)
       /\ (forall k, cast sch body !! k = None -> new !! k = old !! k)
       /\ (forall id', id' <> Mongo.canon id -> c' !! id' = c !! id')
       /\ r = mkResponse 200 (mem_toJSON sch (mkDoc (Mongo.canon id) new)))
  /\ (status r <> 200 -> c' = c).
Proof.
  unfold updateOne. simpl.
  destruct (mem_findByIdAndUpdate sch id body c) as [[[d|] c0]|e] eqn:Hs.
  - apply mem_update_ok in Hs as (old & Hoid & Hold & -> & -> & _).
    intros [= <- <-]. split; [|simpl; congruence].
    intros _. exists old, (cast sch body ∪ old).
    split; [now apply castObjectId_Some|].
    split; [exact Hold|]. split; [apply lookup_insert_eq|].
    split; [intros k v Hk; now apply lookup_union_Some_l|].
    split; [intros k Hk; now apply lookup_union_r|].
    split; [intros id' Hne; now apply lookup_insert_ne|reflexivity].
  - intros [= <- <-]. split; [simpl; discriminate|].
    intros _. now apply mem_update_none in Hs.
  - intros [= <- <-]. split; [simpl; discriminate|reflexivity].
Qed.

End CatalogCollections.

(** ** The list of a catalog *)

Section CatalogList.

Import Generic Catalog.

Lemma ascii_compare_refl (a : ascii) : Ascii.compare a a = Eq.
Proof. unfold Ascii.compare. apply N.compare_refl. Qed.

Lemma ascii_compare_lt_trans (a b c : ascii) :
  Ascii.compare a b = Lt -> Ascii.compare b c = Lt -> Ascii.compare a c = Lt.
Proof.
  unfold Ascii.compare. rewrite !N.compare_lt_iff. apply N.lt_trans.
Qed.

Lemma string_leb_trans (a b c : string) :
  String.leb a b = true -> String.leb b c = true -> String.leb a c = true.
Proof.
  unfold String.leb. revert b c.
  induction a as [|x a IH]; intros [|y b] [|z c]; simpl; try congruence; try reflexivity.
  destruct (Ascii.compare x y) eqn:Exy; try discriminate;
    destruct (Ascii.compare y z) eqn:Eyz; try discriminate.
  - apply Ascii.compare_eq_iff in Exy, Eyz. subst. rewrite ascii_compare_refl. apply IH.
  - apply Ascii.compare_eq_iff in Exy. subst. now rewrite Eyz.
  - apply Ascii.compare_eq_iff in Eyz. subst. now rewrite Exy.
  - now rewrite (ascii_compare_lt_trans _ _ _ Exy Eyz).
Qed.

Lemma nombre_le_total (a b : document) : nombre_le a b = true \/ nombre_le b a = true.
Proof.
  unfold nombre_le.
  destruct (fields a !! "nombre"), (fields b !! "nombre"); auto.
  apply String.leb_total.
Qed.

Lemma nombre_le_trans (a b c : document) :
  nombre_le a b = true -> nombre_le b c = true -> nombre_le a c = true.
Proof.
  unfold nombre_le.
  destruct (fields a !! "nombre"), (fields b !! "nombre"), (fields c !! "nombre");
    try congruence; try reflexivity.
  apply string_leb_trans.
Qed.

Lemma insert_sorted_perm (x : document) (l : list document) :
  Permutation (insert_sorted x l) (x :: l).
Proof.
  induction l as [|y l IH]; simpl; [reflexivity|].
  destruct (nombre_le x y); [reflexivity|].
  rewrite IH. apply perm_swap.
Qed.

Lemma insert_sorted_sorted (x : document) (l : list document) :
  StronglySorted (fun a b => nombre_le a b = true) l ->
  StronglySorted (fun a b => nombre_le a b = true) (insert_sorted x l).
Proof.
  intros Hs. induction Hs as [|y l Hs IH Hy]; simpl; [repeat constructor|].
  destruct (nombre_le x y) eqn:E.
  - constructor; [now constructor|]. constructor; [exact E|].
    eapply List.Forall_impl; [|exact Hy]. intros z Hz. eapply nombre_le_trans; eassumption.
  - constructor; [exact IH|].
    apply List.Forall_forall. intros z Hz.
    apply (Permutation_in _ (insert_sorted_perm x l)) in Hz. destruct Hz as [<-|Hz].
    + destruct (nombre_le_total x y); congruence.
    + rewrite List.Forall_forall in Hy. now apply Hy.
Qed.

(** X13. The list of a catalog is answered 200 with every stored
    document, each once, in ascending order of the name. *)
Theorem catalog_list_is_complete_and_sorted (sch : schema)
    (c : gmap string (gmap string string)) :
  exists items,
    getAll (memModel sch) mem_find_sorted c =
      mkResponse 200 (JArr (map (mem_toJSON sch) items))
    /\ Permutation items (documents c)
    /\ StronglySorted (fun a b => nombre_le a b = true) items
    /\ List.length items = size c
    /\ (forall id f, c !! id = Some f <-> In (mkDoc id f) items).
Proof.
  exists (fold_right insert_sorted nil (documents c)).
  assert (Hperm : forall l, Permutation (fold_right insert_sorted nil l) l).
  { induction l as [|x l IH]; simpl; [reflexivity|].
    rewrite insert_sorted_perm. now constructor. }
  split; [reflexivity|]. split; [apply Hperm|]. split; [|split].
  - induction (documents c) as [|x l IH]; simpl; [constructor|].
    now apply insert_sorted_sorted.
  - rewrite (Permutation_length (Hperm _)). unfold documents.
    rewrite length_map. apply length_map_to_list.
  - intros id f.
    assert (Hin : In (mkDoc id f) (fold_right insert_sorted nil (documents c))
                  <-> In (mkDoc id f) (documents c)).
    { split; apply Permutation_in; [apply Hperm|symmetry; apply Hperm]. }
    rewrite Hin. unfold documents. rewrite in_map_iff. split.
    + intros H. exists (id, f). split; [reflexivity|].
      apply list_elem_of_In. now apply elem_of_map_to_list.
    + intros ([i g] & Heq & Hig). simpl in Heq. injection Heq as -> ->.
      apply list_elem_of_In in Hig. now apply elem_of_map_to_list in Hig.
Qed.

End CatalogList.

(** ** The middleware in front of the routes *)

Section ProtectedRoutes.

Import Auth Catalog.

Variable jwt_verify : option string -> result claim.

(** X14. What the middleware does with a request, given that the
    verification rejects a missing or empty token.  With a Bearer header
    whose token is verified it hands the request on and sends nothing.
    With a Bearer header whose token fails the verification it sends the
    invalid-token 401, and a second, no-token 401 on top when the header
    has no token after the scheme.  With no header or another scheme it
    sends the no-token 401.  It never stays silent and never both hands
    the request on and answers it. *)
Theorem protect_outcomes (req : request) :
  (forall t, JS.truthy t = false -> exists e, jwt_verify t = Throw e) ->
  (forall h d,
      authorization req = Some h -> JS.starts_with "Bearer" h = true ->
      jwt_verify (bearer_token h) = Ok d ->
      protect jwt_verify req = Next (mkRequest (authorization req) (claim_id d)) :: nil)
  /\ (forall h e,
      authorization req = Some h -> JS.starts_with "Bearer" h = true ->
      jwt_verify (bearer_token h) = Throw e -> JS.truthy (bearer_token h) = true ->
      protect jwt_verify req = Send bad_token_response :: nil)
  /\ (forall h,
      authorization req = Some h -> JS.starts_with "Bearer" h = true ->
      JS.truthy (bearer_token h) = false ->
      protect jwt_verify req = Send bad_token_response :: Send no_token_response :: nil)
  /\ (authorization req = None
      \/ (exists h, authorization req = Some h /\ JS.starts_with "Bearer" h = false) ->
      protect jwt_verify req = Send no_token_response :: nil).
Proof.
  intros Hreject. unfold protect. split; [|split; [|split]].
  - intros h d Hh Hs Hv. rewrite Hh, Hs.
    rewrite (starts_with_truthy "Bearer" h ltac:(discriminate) Hs). cbn [andb].
    rewrite Hv.
    destruct (JS.truthy (bearer_token h)) eqn:Ht; [reflexivity|].
    destruct (Hreject _ Ht) as [e He]. congruence.
  - intros h e Hh Hs Hv Ht. rewrite Hh, Hs.
    rewrite (starts_with_truthy "Bearer" h ltac:(discriminate) Hs). cbn [andb].
    rewrite Hv, Ht. reflexivity.
  - intros h Hh Hs Ht. rewrite Hh, Hs.
    rewrite (starts_with_truthy "Bearer" h ltac:(discriminate) Hs). cbn [andb].
    destruct (Hreject _ Ht) as [e He]. rewrite He, Ht. reflexivity.
  - intros [Hn|(h & Hh & Hs)].
    + rewrite Hn. reflexivity.
    + rewrite Hh, Hs, andb_false_r. reflexivity.
Qed.

Lemma protect_denied (req : request) :
  next_called jwt_verify req = false ->
  protect jwt_verify req = Send no_token_response :: nil
  \/ protect jwt_verify req = Send bad_token_response :: nil
  \/ protect jwt_verify req = Send bad_token_response :: Send no_token_response :: nil.
Proof.
  unfold next_called, protect.
  destruct (authorization req) as [h|]; [|auto].
  destruct (JS.truthy (Some h) && JS.starts_with "Bearer" h); [|auto].
  destruct (jwt_verify (bearer_token h)); [simpl; discriminate|].
  destruct (JS.truthy (bearer_token h)); simpl; auto.
Qed.

Lemma guard_denied {S : Type} (req : request) (handler : S -> S * response) (s : S) :
  next_called jwt_verify req = false ->
  exists rs, guard jwt_verify req handler s = (s, rs)
             /\ rs <> nil /\ Forall (fun r => status r = 401) rs.
Proof.
  intros H. unfold guard.
  destruct (protect_denied req H) as [-> | [-> | ->]]; simpl;
    eexists; (split; [reflexivity|]); (split; [discriminate|]); repeat constructor.
Qed.

Lemma guard_granted {S : Type} (req : request) (handler : S -> S * response) (s : S)
    (h : string) (d : claim) :
  authorization req = Some h -> JS.starts_with "Bearer" h = true ->
  jwt_verify (bearer_token h) = Ok d -> JS.truthy (bearer_token h) = true ->
  guard jwt_verify req handler s = (fst (handler s), snd (handler s) :: nil).
Proof.
  intros Hh Hs Hv Ht. unfold guard, protect. rewrite Hh, Hs.
  rewrite (starts_with_truthy "Bearer" h ltac:(discriminate) Hs). cbn [andb].
  rewrite Hv, Ht. simpl. now destruct (handler s).
Qed.

(** X15. On a catalog resource the list is served to everybody, and the
    three writes go through the middleware: a request that does not pass
    it is answered 401 and leaves the collection as it was, and a request
    with a verified token gets exactly what the handler of the generic
    controller does. *)
Theorem catalog_writes_need_token (M : Generic.Model)
    (find_sorted : Generic.collection M -> result (list (Generic.doc M)))
    (req : request) (c : Generic.collection M) :
  catalog_route M find_sorted jwt_verify req ListAll c = (c, getAll M find_sorted c :: nil)
  /\ (forall rq,
      next_called jwt_verify req = false -> rq <> ListAll ->
      exists rs, catalog_route M find_sorted jwt_verify req rq c = (c, rs)
                 /\ rs <> nil /\ Forall (fun r => status r = 401) rs)
  /\ (forall h d,
      authorization req = Some h -> JS.starts_with "Bearer" h = true ->
      jwt_verify (bearer_token h) = Ok d -> JS.truthy (bearer_token h) = true ->
      (forall id body,
          catalog_route M find_sorted jwt_verify req (Create id body) c =
          (fst (Generic.createOne M id body c), snd (Generic.createOne M id body c) :: nil))
      /\ (forall id body,
          catalog_route M find_sorted jwt_verify req (Update id body) c =
          (fst (Generic.updateOne M id body c), snd (Generic.updateOne M id body c) :: nil))
      /\ (forall id,
          catalog_route M find_sorted jwt_verify req (Remove id) c =
          (fst (Generic.deleteOne M id c), snd (Generic.deleteOne M id c) :: nil))).
Proof.
  split; [reflexivity|]. split.
  - intros rq Hden Hrq. destruct rq; [congruence|..]; simpl; now apply guard_denied.
  - intros h d Hh Hs Hv Ht. repeat split; intros; simpl; eapply guard_granted; eassumption.
Qed.

(** X16. Of the session and user routes, the login and the client
    registration do not look at the token; the administrator
    registration, the administrators' list, the user update and the user
    deletion go through the middleware, and a request that does not pass
    it is answered 401 and changes neither the users nor the roles. *)
Theorem account_routes_need_token (L : Users.Libs) (salt fresh_id : string)
    (req : request) (st : Users.state) :
  (forall e p,
      Accounts.account_route L jwt_verify salt fresh_id req (Accounts.Login e p) st =
      (st, Users.loginUser L st e p :: nil))
  /\ (forall n e p,
      Accounts.account_route L jwt_verify salt fresh_id req (Accounts.RegisterClient n e p) st =
      (fst (Users.registerClient L salt fresh_id st n e p),
       snd (Users.registerClient L salt fresh_id st n e p) :: nil))
  /\ (forall rq,
      next_called jwt_verify req = false ->
      (forall e p, rq <> Accounts.Login e p) ->
      (forall n e p, rq <> Accounts.RegisterClient n e p) ->
      exists rs, Accounts.account_route L jwt_verify salt fresh_id req rq st = (st, rs)
                 /\ rs <> nil /\ Forall (fun r => status r = 401) rs).
Proof.
  split; [reflexivity|]. split.
  - intros n e p. simpl. now destruct (Users.registerClient L salt fresh_id st n e p).
  - intros rq Hden Hl Hc.
    destruct rq; simpl; try now apply guard_denied.
    + exfalso. eapply Hl. reflexivity.
    + exfalso. eapply Hc. reflexivity.
Qed.

End ProtectedRoutes.

(** ** Registration, login, update and deletion of users *)

Section UserAccounts.

Import Users Accounts Invariants.

Variable L : Libs.

Lemma email_set_nombre v u : email (set_nombre v u) = email u.
Proof. unfold set_nombre. cbv zeta. destruct (bool_decide _); reflexivity. Qed.

Lemma email_set_email v u : email (set_email L v u) = email_setters L v.
Proof.
  unfold set_email. cbv zeta.
  destruct (bool_decide (email u = email_setters L v)) eqn:E; [|reflexivity].
  now apply bool_decide_eq_true in E.
Qed.

Lemma email_set_password v u : email (set_password v u) = email u.
Proof. unfold set_password. destruct (bool_decide _); reflexivity. Qed.

Lemma nombre_set_nombre v u : nombre (set_nombre v u) = trimmed v.
Proof.
  unfold set_nombre. cbv zeta.
  destruct (bool_decide (nombre u = trimmed v)) eqn:E; [|reflexivity].
  now apply bool_decide_eq_true in E.
Qed.

Lemma nombre_set_email v u : nombre (set_email L v u) = nombre u.
Proof. unfold set_email. cbv zeta. destruct (bool_decide _); reflexivity. Qed.

Lemma nombre_set_password v u : nombre (set_password v u) = nombre u.
Proof. unfold set_password. destruct (bool_decide _); reflexivity. Qed.

Lemma idRol_set_nombre v u : idRol (set_nombre v u) = idRol u.
Proof. unfold set_nombre. cbv zeta. destruct (bool_decide _); reflexivity. Qed.

Lemma idRol_set_email v u : idRol (set_email L v u) = idRol u.
Proof. unfold set_email. cbv zeta. destruct (bool_decide _); reflexivity. Qed.

Lemma idRol_set_password v u : idRol (set_password v u) = idRol u.
Proof. unfold set_password. destruct (bool_decide _); reflexivity. Qed.

(** What [save] keeps of the document and where it writes it. *)
Lemma save_fields (salt : string) (u : user) (us : list user) (u' : user) (us' : list user) :
  save L salt u us = Ok (u', us') ->
  us' = upsert u' us
  /\ _id u' = _id u /\ nombre u' = nombre u /\ email u' = email u
  /\ idRol u' = idRol u /\ modified u' = nil
  /\ email_taken u' us = false.
Proof.
  unfold save.
  destruct (validate L u); [discriminate|].
  destruct (pre_save L salt u) as [h|] eqn:Hh; [|discriminate].
  destruct (email_taken h us) eqn:Ht; [discriminate|].
  destruct (Mongo.is_id (_id h)); [|discriminate].
  intros [= <- <-].
  unfold pre_save in Hh.
  destruct (negb (isModified "password" u)).
  - injection Hh as <-. repeat split; auto.
  - destruct (password u); [|discriminate]. injection Hh as <-.
    simpl. rewrite id_set_password, nombre_set_password, email_set_password,
      idRol_set_password.
    repeat split; auto.
Qed.

Lemma find_email_upsert (e : option string) (u : user) (us : list user) :
  email u = e ->
  find (fun v => bool_decide (email v = e)) us = None ->
  find (fun v => bool_decide (email v = e)) (upsert u us) = Some u.
Proof.
  intros He. induction us as [|v us IH]; simpl; intros Hnone.
  - now rewrite bool_decide_eq_true_2.
  - destruct (bool_decide (email v = e)) eqn:Ev; [discriminate|].
    destruct (String.eqb (_id v) (_id u)); simpl.
    + now rewrite bool_decide_eq_true_2.
    + rewrite Ev. auto.
Qed.

Lemma findOne_email_none (e : option string) (us : list user) :
  findOne_email L e us = None ->
  find (fun v => bool_decide (email v = email_setters L e)) us = None.
Proof. unfold findOne_email. destruct (find _ us); [discriminate|reflexivity]. Qed.

(** The answer of a query on the email depends on the email through the
    value the setters give it. *)
Lemma findOne_email_setters (e e' : option string) (us : list user) :
  email_setters L e' = email_setters L e -> findOne_email L e' us = findOne_email L e us.
Proof. intros H. unfold findOne_email. now rewrite H. Qed.

Lemma loginUser_setters (st : state) (e e' p : option string) :
  email_setters L e' = email_setters L e -> loginUser L st e' p = loginUser L st e p.
Proof. intros H. unfold loginUser. now rewrite (findOne_email_setters e e' _ H). Qed.

Lemma role_by_id_found (r : role) (rs : list role) (n : string) :
  findOne_role n rs = Some r -> exists r', role_by_id (role_id r) rs = Some r'.
Proof.
  unfold findOne_role, role_by_id. intros H. apply find_some in H as [Hin _].
  destruct (find (fun r0 => String.eqb (role_id r0) (role_id r)) rs) eqn:E; [eauto|].
  apply (find_none _ _ E) in Hin. now rewrite String.eqb_refl in Hin.
Qed.

(** X17. A client registration that is answered 201 stores the user with
    the name trimmed, the email trimmed and in lower case, the hash of
    the password, not the password, and the role of clients.  A login
    with the same email and password, or with any email the setters take
    to the same value (other letter case, spaces around it), is then
    answered 200 with a token, given that the hash library accepts a
    password against its own hash. *)
Theorem registered_client_can_log_in (salt fresh_id : string) (st st' : state)
    (n e p : option string) (r : response) :
  (forall plain s, bcrypt_compare L plain (bcrypt_hash L plain s) = true) ->
  registerClient L salt fresh_id st n e p = (st', r) ->
  status r = 201 ->
  exists plain u clientRole,
    p = Some plain
    /\ findOne_role "cliente" (roles st) = Some clientRole
    /\ findOne_email L e (users st') = Some u
    /\ _id u = fresh_id /\ email u = email_setters L e /\ nombre u = trimmed n
    /\ idRol u = role_id clientRole
    /\ password u = Some (bcrypt_hash L plain salt)
    /\ (forall e', email_setters L e' = email_setters L e ->
          status (loginUser L st' e' p) = 200
          /\ has_prop "token" (body (loginUser L st' e' p)) = true).
Proof.
  intros Hlaw. unfold registerClient.
  destruct (negb (JS.truthy n) || negb (JS.truthy e) || negb (JS.truthy p)) eqn:Hreq;
    [intros [= <- <-]; simpl; discriminate|].
  destruct (JS.length (default "" p) <? 6)%nat; [intros [= <- <-]; simpl; discriminate|].
  destruct (findOne_role "cliente" (roles st)) as [clientRole|] eqn:Hrole;
    [|intros [= <- <-]; simpl; discriminate].
  destruct (findOne_email L e (users st)) eqn:Hfree; [intros [= <- <-]; simpl; discriminate|].
  set (newUser := new_User L fresh_id n e p (role_id clientRole)).
  destruct (save L salt newUser (users st)) as [[saved us]|err] eqn:Hs;
    [|intros [= <- <-]; simpl; discriminate].
  intros [= <- <-] _.
  apply orb_false_iff in Hreq as [_ Hp]. apply negb_false_iff in Hp.
  destruct p as [plain|]; [|discriminate].
  pose proof (save_fields _ _ _ _ _ Hs) as (-> & Hid & Hn & He & Hr & Hmod & _).
  pose proof (save_password L _ _ _ _ _ Hs) as (_ & _ & Hhash).
  assert (Hm : isModified "password" newUser = true).
  { unfold newUser, new_User. rewrite isModified_password_set_password.
    rewrite password_set_email, password_set_nombre. reflexivity. }
  destruct (Hhash Hm) as (plain' & Hplain & Hpw).
  unfold newUser, new_User in Hplain. rewrite password_set_password in Hplain.
  injection Hplain as <-.
  unfold newUser, new_User in Hid, Hn, He, Hr.
  rewrite id_set_password, id_set_email, id_set_nombre in Hid.
  rewrite nombre_set_password, nombre_set_email, nombre_set_nombre in Hn.
  rewrite email_set_password, email_set_email in He.
  rewrite idRol_set_password, idRol_set_email, idRol_set_nombre in Hr.
  simpl in Hid, Hr.
  assert (Hload : load saved = saved).
  { destruct saved. simpl in Hmod. now subst. }
  assert (Hfind : findOne_email L e (upsert saved (users st)) = Some saved).
  { unfold findOne_email.
    rewrite (find_email_upsert _ saved (users st) He (findOne_email_none _ _ Hfree)).
    simpl. now rewrite Hload. }
  exists plain, saved, clientRole. simpl.
  repeat (split; [assumption || reflexivity|]).
  intros e' He'. rewrite (loginUser_setters _ e e' _ He').
  unfold loginUser. simpl. rewrite Hfind.
  unfold comparePassword. rewrite Hpw, Hlaw, Hr.
  destruct (role_by_id_found _ _ _ Hrole) as [r' Hr']. rewrite Hr'.
  split; reflexivity.
Qed.


Lemma find_id_remove_other id id' us :
  id' <> id ->
  find (fun u => String.eqb (_id u) id') (remove id us) =
  find (fun u => String.eqb (_id u) id') us.
Proof.
  intros Hne. induction us as [|x us IH]; simpl; [reflexivity|].
  destruct (String.eqb (_id x) id) eqn:E; simpl.
  - apply String.eqb_eq in E. subst id.
    apply not_eq_sym, String.eqb_neq in Hne. now rewrite Hne.
  - destruct (String.eqb (_id x) id'); [reflexivity|exact IH].
Qed.

Lemma in_remove id us v : In v (remove id us) -> In v us.
Proof.
  induction us as [|x us IH]; simpl; [tauto|].
  destruct (String.eqb (_id x) id); simpl; tauto.
Qed.

Lemma remove_no_id id us : List.NoDup (map _id us) -> ~ In id (map _id (remove id us)).
Proof.
  induction us as [|x us IH]; simpl; intros Hnd; [tauto|].
  apply NoDup_cons_iff in Hnd as [Hx Hnd].
  destruct (String.eqb (_id x) id) eqn:E.
  - apply String.eqb_eq in E. now subst id.
  - simpl. apply String.eqb_neq in E. intros [H|H]; [contradiction|]. now apply IH.
Qed.

(** X19. A delete whose identifier is not an ObjectId is answered 500 and
    changes nothing.  For an identifier that is one: deleting a user that
    is not stored answers 404 and changes nothing; deleting a stored user
    answers with the identifier of the request and removes that user and
    no other; when identifiers and emails are distinct, the user cannot
    be read any more and a login with its email, however it is spelled,
    is answered 401. *)
Theorem deleted_user_is_gone (st : state) (id : string) :
  (Mongo.isObjectId id = false ->
     deleteUser st id =
       (st, mkResponse 500
              (JObj (("message", JStr "Error al eliminar el usuario")
                     :: ("error", JStr (message (Mongo.cast_error "_id"))) :: nil))))
  /\ (Mongo.isObjectId id = true -> findById id (users st) = None ->
     deleteUser st id = (st, msg 404 "Usuario no encontrado"))
  /\ (forall u,
      Mongo.isObjectId id = true -> findById id (users st) = Some u ->
      deleteUser st id =
        (mkState (remove (Mongo.canon id) (users st)) (roles st),
         mkResponse 200
           (JObj (("message", JStr "Usuario eliminado exitosamente")
                  :: ("_id", JStr id) :: nil)))
      /\ (forall id', Mongo.canon id' <> Mongo.canon id ->
            findById id' (users (fst (deleteUser st id))) = findById id' (users st))
      /\ (users_ok (users st) ->
          findById id (users (fst (deleteUser st id))) = None
          /\ forall e p, email_setters L e = email u ->
               loginUser L (fst (deleteUser st id)) e p =
               msg 401 "Credenciales inválidas (email)")).
Proof.
  split; [|split].
  - intros Hoid. unfold deleteUser. now rewrite Hoid.
  - intros Hoid H. unfold deleteUser. now rewrite Hoid, H.
  - intros u Hoid Hu. unfold deleteUser. rewrite Hoid, Hu. simpl.
    split; [reflexivity|].
    split.
    { intros id' Hne. unfold findById. simpl.
      rewrite (find_id_remove_other (Mongo.canon id) (Mongo.canon id') (users st) Hne).
      reflexivity. }
    intros [Hnd Hemail].
    pose proof (remove_no_id (Mongo.canon id) (users st) Hnd) as Hgone.
    assert (Hnone : forall P,
               (forall v, In v (users st) -> P v = true -> _id v = Mongo.canon id) ->
               find P (remove (Mongo.canon id) (users st)) = None).
    { intros P HP.
      destruct (find P (remove (Mongo.canon id) (users st))) as [v|] eqn:E; [|reflexivity].
      apply find_some in E as [Hin Hv]. exfalso. apply Hgone.
      apply in_map_iff. exists v.
      split; [exact (HP v (in_remove _ _ _ Hin) Hv)|exact Hin]. }
    split.
    + unfold findById. rewrite Hnone; [reflexivity|].
      intros v _ Hv. now apply String.eqb_eq.
    + intros e p He. unfold loginUser, findOne_email. simpl.
      rewrite Hnone; [reflexivity|].
      intros v Hv Hev. apply bool_decide_eq_true in Hev.
      unfold findById in Hu. destruct (find _ (users st)) as [w|] eqn:Ew; [|discriminate].
      injection Hu as <-. apply find_some in Ew as [Hw Hid]. apply String.eqb_eq in Hid.
      rewrite <- Hid. apply Hemail; [assumption|assumption|].
      rewrite Hev, He. reflexivity.
Qed.

(** X20. A user update that is answered 200 gives the name and the email
    the values the setters of the schema make of what is assigned: the
    value of the body when it is not empty, the stored one otherwise; the
    name is trimmed, the email trimmed and put in lower case.  So an
    absent or empty field never erases the stored one: a stored name or
    email the setters leave as it is, is kept.  The update keeps the role
    of the user and the roles, and touches no other user. *)
Theorem update_user_keeps_missing_fields (salt : string) (st st' : state) (id : string)
    (n e p : option string) (r : response) :
  updateUser L salt st id n e p = (st', r) ->
  status r = 200 ->
  exists old new,
    findById id (users st) = Some old
    /\ findById id (users st') = Some new
    /\ nombre new = trimmed (if JS.truthy n then n else nombre old)
    /\ email new = email_setters L (if JS.truthy e then e else email old)
    /\ (JS.truthy n = false -> trimmed (nombre old) = nombre old ->
        nombre new = nombre old)
    /\ (JS.truthy e = false -> email_setters L (email old) = email old ->
        email new = email old)
    /\ idRol new = idRol old
    /\ roles st' = roles st
    /\ users st' = upsert new (users st).
Proof.
  unfold updateUser.
  destruct (Mongo.isObjectId id) eqn:Hoid; [|intros [= <- <-]; simpl; discriminate].
  cbn [negb].
  destruct (findById id (users st)) as [old|] eqn:Hold;
    [|intros [= <- <-]; simpl; discriminate].
  destruct (findById_found _ _ _ Hold) as [Hid _].
  match goal with |- context [save L salt ?u _] => set (u2 := u) end.
  destruct (save L salt u2 (users st)) as [[updated us]|err] eqn:Hs.
  2:{ destruct (bool_decide (code err = Some 11000)); intros [= <- <-]; simpl; discriminate. }
  intros [= <- <-] _.
  pose proof (save_fields _ _ _ _ _ Hs) as (-> & Hi & Hn & He & Hr & _).
  pose proof (save_password L _ _ _ _ _ Hs) as (Hfind & _).
  assert (Hu2 : _id u2 = Mongo.canon id
                /\ nombre u2 = trimmed (JS.or_else n (nombre old))
                /\ email u2 = email_setters L (JS.or_else e (email old))
                /\ idRol u2 = idRol old).
  { unfold u2.
    destruct (JS.truthy p && (6 <=? JS.length (default "" p))%nat);
      rewrite ?id_set_password, ?nombre_set_password, ?email_set_password,
        ?idRol_set_password;
      rewrite id_set_email, id_set_nombre, nombre_set_email, nombre_set_nombre,
        email_set_email, email_set_nombre, idRol_set_email, idRol_set_nombre; auto. }
  destruct Hu2 as (Hi2 & Hn2 & He2 & Hr2).
  rewrite Hi2 in Hfind. unfold findById in Hfind. rewrite canon_idem in Hfind.
  exists old, updated. simpl.
  split; [reflexivity|]. split; [exact Hfind|].
  assert (Hnew_n : nombre updated = trimmed (if JS.truthy n then n else nombre old))
    by (rewrite Hn, Hn2; reflexivity).
  assert (Hnew_e : email updated = email_setters L (if JS.truthy e then e else email old))
    by (rewrite He, He2; reflexivity).
  split; [exact Hnew_n|]. split; [exact Hnew_e|].
  split; [intros Hf Hkeep; rewrite Hnew_n, Hf; exact Hkeep|].
  split; [intros Hf Hkeep; rewrite Hnew_e, Hf; exact Hkeep|].
  split; [congruence|]. split; reflexivity.
Qed.

End UserAccounts.

Section UserInvariant.

Import Users Accounts Invariants.

Variable L : Libs.

Lemma map_id_upsert (u : user) (us : list user) :
  (In (_id u) (map _id us) -> map _id (upsert u us) = map _id us)
  /\ (~ In (_id u) (map _id us) -> map _id (upsert u us) = map _id us ++ _id u :: nil).
Proof.
  induction us as [|v us [IH1 IH2]]; simpl.
  - split; [tauto|reflexivity].
  - destruct (String.eqb (_id v) (_id u)) eqn:E; simpl.
    + apply String.eqb_eq in E. split; [now rewrite E|tauto].
    + apply String.eqb_neq in E. split.
      * intros [H|H]; [contradiction|]. now rewrite IH1.
      * intros H. rewrite IH2; tauto.
Qed.

Lemma in_upsert (u v : user) (us : list user) :
  List.NoDup (map _id us) ->
  In v (upsert u us) -> v = u \/ (In v us /\ _id v <> _id u).
Proof.
  induction us as [|w us IH]; simpl; intros Hnd Hin.
  - destruct Hin as [<-|[]]. now left.
  - apply NoDup_cons_iff in Hnd as [Hw Hnd].
    destruct (String.eqb (_id w) (_id u)) eqn:E.
    + apply String.eqb_eq in E. destruct Hin as [<-|Hin]; [now left|].
      right. split; [now right|]. intros Hv. apply Hw. rewrite E, <- Hv.
      apply in_map_iff. eauto.
    + apply String.eqb_neq in E. destruct Hin as [<-|Hin]; [right; auto|].
      destruct (IH Hnd Hin) as [->|[Hv Hne]]; [now left|right; auto].
Qed.

Lemma users_ok_upsert (u : user) (us : list user) :
  users_ok us -> email_taken u us = false -> users_ok (upsert u us).
Proof.
  intros [Hnd Hemail] Htaken. split.
  - destruct (in_dec string_dec (_id u) (map _id us)) as [B|B].
    + now rewrite (proj1 (map_id_upsert u us) B).
    + rewrite (proj2 (map_id_upsert u us) B).
      induction (map _id us) as [|x l IHl]; simpl.
      * repeat constructor. tauto.
      * apply NoDup_cons_iff in Hnd as [Hx Hl]. constructor.
        -- rewrite in_app_iff. simpl in B. simpl. intuition congruence.
        -- apply IHl; [exact Hl|]. simpl in B. tauto.
  - assert (Hfree : forall v, In v us -> _id v <> _id u -> email v <> email u).
    { intros v Hv Hne He. unfold email_taken in Htaken.
      assert (existsb (fun v => negb (String.eqb (_id v) (_id u))
                                && bool_decide (email v = email u)) us = true); [|congruence].
      apply existsb_exists. exists v. split; [exact Hv|].
      apply String.eqb_neq in Hne. rewrite Hne. simpl. now apply bool_decide_eq_true_2. }
    intros a b Ha Hb He.
    destruct (in_upsert u a us Hnd Ha) as [->|[Ha' Hna]],
             (in_upsert u b us Hnd Hb) as [->|[Hb' Hnb]]; auto.
    + exfalso. eapply Hfree; eauto.
    + exfalso. eapply Hfree; eauto.
Qed.

Lemma users_ok_remove (id : string) (us : list user) :
  users_ok us -> users_ok (remove id us).
Proof.
  intros [Hnd Hemail]. split.
  - clear Hemail. induction us as [|x us IH]; simpl; [constructor|].
    apply NoDup_cons_iff in Hnd as [Hx Hnd].
    destruct (String.eqb (_id x) id); [exact Hnd|]. simpl. constructor; [|auto].
    intros Hin. apply Hx. apply in_map_iff in Hin as (v & Hv & Hin).
    apply in_map_iff. exists v. split; [exact Hv|]. eapply in_remove; eauto.
  - intros a b Ha Hb. apply Hemail; eapply in_remove; eauto.
Qed.

(** X21. The user handlers keep the collection well formed: after a
    registration, an update or a deletion, whatever its outcome, the
    users still have distinct identifiers and distinct emails. *)
Theorem user_writes_keep_invariants (salt fresh_id : string) (st : state)
    (id : string) (n e p : option string) :
  users_ok (users st) ->
  users_ok (users (fst (registerAdmin L salt fresh_id st n e p)))
  /\ users_ok (users (fst (registerClient L salt fresh_id st n e p)))
  /\ users_ok (users (fst (updateUser L salt st id n e p)))
  /\ users_ok (users (fst (deleteUser st id))).
Proof.
  intros Hok.
  assert (Hsave : forall u saved us,
             save L salt u (users st) = Ok (saved, us) -> users_ok us).
  { intros u saved us Hs. apply save_fields in Hs as (-> & _ & _ & _ & _ & _ & Ht).
    now apply users_ok_upsert. }
  split; [|split; [|split]].
  - unfold registerAdmin.
    destruct (findOne_role "admin" (roles st)); [|exact Hok].
    destruct (findOne_email L e (users st)); [exact Hok|].
    destruct (save L salt _ (users st)) as [[saved us]|] eqn:Hs; [|exact Hok].
    simpl. eapply Hsave; eauto.
  - unfold registerClient.
    destruct (negb (JS.truthy n) || negb (JS.truthy e) || negb (JS.truthy p)); [exact Hok|].
    destruct (JS.length (default "" p) <? 6)%nat; [exact Hok|].
    destruct (findOne_role "cliente" (roles st)); [|exact Hok].
    destruct (findOne_email L e (users st)); [exact Hok|].
    destruct (save L salt _ (users st)) as [[saved us]|] eqn:Hs; [|exact Hok].
    simpl. eapply Hsave; eauto.
  - unfold updateUser.
    destruct (Mongo.isObjectId id); [|exact Hok]. cbn [negb].
    destruct (findById id (users st)); [|exact Hok].
    destruct (save L salt _ (users st)) as [[saved us]|err] eqn:Hs.
    + simpl. eapply Hsave; eauto.
    + destruct (bool_decide (code err = Some 11000)); exact Hok.
  - unfold deleteUser.
    destruct (Mongo.isObjectId id); [|exact Hok]. cbn [negb].
    destruct (findById id (users st)); [|exact Hok].
    simpl. now apply users_ok_remove.
Qed.

(** X22. The role seed writes the two roles exactly when the collection
    is empty, after which both can be found; run again, with whatever
    identifiers, it changes nothing.  On a collection that already holds
    a role it writes nothing, so a missing client role stays missing and
    a client registration with the three fields and a password of at
    least 6 characters, counted in UTF-16 code units as [password.length]
    counts them, keeps being answered 500; with a shorter password it is
    answered 400 whatever the roles. *)
Theorem role_seed_only_on_empty (id1 id2 : string) (rs : list role) :
  (forall id3 id4,
      createInitialRoles id3 id4 (createInitialRoles id1 id2 rs)
      = createInitialRoles id1 id2 rs)
  /\ findOne_role "admin" (createInitialRoles id1 id2 nil) = Some (mkRole id1 "admin")
  /\ findOne_role "cliente" (createInitialRoles id1 id2 nil) = Some (mkRole id2 "cliente")
  /\ (rs <> nil -> createInitialRoles id1 id2 rs = rs)
  /\ (rs <> nil -> findOne_role "cliente" rs = None ->
      forall salt fresh_id us n e p,
        JS.truthy n && JS.truthy e && JS.truthy p = true ->
        ((6 <= JS.length (default "" p))%nat ->
         status (snd (registerClient L salt fresh_id
                        (mkState us (createInitialRoles id1 id2 rs)) n e p)) = 500)
        /\ ((JS.length (default "" p) < 6)%nat ->
            status (snd (registerClient L salt fresh_id
                           (mkState us (createInitialRoles id1 id2 rs)) n e p)) = 400)).
Proof.
  assert (Hkeep : rs <> nil -> createInitialRoles id1 id2 rs = rs).
  { intros H. unfold createInitialRoles. destruct rs; [congruence|reflexivity]. }
  split; [|split; [|split; [|split]]]; try reflexivity; try exact Hkeep.
  - intros id3 id4. unfold createInitialRoles. destruct rs; reflexivity.
  - intros Hne Hnone salt fresh_id us n e p Hreq.
    rewrite (Hkeep Hne). unfold registerClient. simpl.
    destruct (JS.truthy n), (JS.truthy e), (JS.truthy p); try discriminate. simpl.
    split; intros Hlen.
    + apply Nat.ltb_ge in Hlen. rewrite Hlen, Hnone. reflexivity.
    + apply Nat.ltb_lt in Hlen. rewrite Hlen. reflexivity.
Qed.

End UserInvariant.

(** ** The price-change mail *)

Section PriceMail.

Import Users Mailer.

Lemma prop_email_user_json (rol : json) (u : user) :
  prop "email" (user_json rol u) = JStr <$> email u.
Proof.
  unfold user_json.
  destruct (nombre u), (email u), (password u); reflexivity.
Qed.

(** X23. When the price-change mail is sent, its recipients are the emails
    of the users whose role is the administrator role, in the order of
    the collection, that is, the emails of the users the administrators'
    list answers; there is at least one recipient.  Nothing is sent when
    the administrator role is missing or no user has it. *)
Theorem price_mail_goes_to_admins (st : state) (p : Products.product)
    (oldPrice : JS.jsnum) :
  (forall m,
      sendPriceChangeEmail st p oldPrice = Some m ->
      mail_to m <> nil
      /\ (exists adminRole,
            findOne_role "admin" (roles st) = Some adminRole
            /\ mail_to m =
               map email (List.filter (fun u => String.eqb (idRol u) (role_id adminRole))
                                      (users st)))
      /\ exists items,
           getAdminUsers st = mkResponse 200 (JArr items)
           /\ map (prop "email") items = map (fmap JStr) (mail_to m))
  /\ (sendPriceChangeEmail st p oldPrice = None <->
      findOne_role "admin" (roles st) = None
      \/ exists adminRole,
           findOne_role "admin" (roles st) = Some adminRole
           /\ forall u, In u (users st) -> idRol u <> role_id adminRole).
Proof.
  unfold sendPriceChangeEmail, getAdminUsers.
  destruct (findOne_role "admin" (roles st)) as [adminRole|] eqn:Hrole.
  - assert (Hfilter : forall us : list user,
               filter (fun u => String.eqb (idRol u) (role_id adminRole) = true) us
               = List.filter (fun u => String.eqb (idRol u) (role_id adminRole)) us).
    { induction us as [|u us IH]; [reflexivity|]. simpl.
      rewrite <- IH. unfold filter at 1. simpl.
      destruct (String.eqb (idRol u) (role_id adminRole)) eqn:E.
      - rewrite decide_True by reflexivity. reflexivity.
      - rewrite decide_False by discriminate. reflexivity. }
    set (admins := List.filter _ (users st)).
    split.
    + intros m Hm. destruct (map email admins) eqn:E; [discriminate|].
      injection Hm as <-. simpl. split; [discriminate|].
      split; [exists adminRole; split; [reflexivity|]; symmetry; exact E|].
      eexists. split; [reflexivity|].
      rewrite Hfilter. fold admins.
      change ((JStr <$> o) :: map (fmap JStr) l) with (map (fmap JStr) (o :: l)).
      rewrite <- E, !List.map_map. apply map_ext. intros u.
      exact (prop_email_user_json _ (without_password u)).
    + split.
      * intros Hnone. right. exists adminRole. split; [reflexivity|].
        intros u Hu Hr. destruct (map email admins) eqn:E; [|discriminate].
        apply map_eq_nil in E.
        assert (Hin : In u admins).
        { apply filter_In. split; [exact Hu|]. now apply String.eqb_eq. }
        rewrite E in Hin. destruct Hin.
      * intros [H|(r & Hr & Hno)]; [discriminate|]. injection Hr as <-.
        assert (E : admins = nil).
        { destruct admins as [|u l] eqn:E; [reflexivity|].
          assert (Hin : In u admins) by (rewrite E; now left).
          apply filter_In in Hin as [Hu Hr]. apply String.eqb_eq in Hr.
          exfalso. eapply Hno; eauto. }
        now rewrite E.
  - split; [discriminate|]. split; auto.
Qed.

End PriceMail.

(** ** File names and public identifiers of images *)

Section ImageNames.

Local Open Scope string_scope.

#[local] Arguments String.append !_ _ / : simpl nomatch.

Lemma append_assoc (a b c : string) : (a ++ b) ++ c = a ++ (b ++ c).
Proof. induction a as [|x a IH]; simpl; [reflexivity|now rewrite IH]. Qed.

Lemma append_nil_r (a : string) : a ++ "" = a.
Proof. induction a as [|x a IH]; simpl; [reflexivity|now rewrite IH]. Qed.

Lemma lastIndexOf_none_cons (c a : ascii) (s : string) :
  JS.lastIndexOf c (String a s) = None ->
  Ascii.eqb a c = false /\ JS.lastIndexOf c s = None.
Proof.
  simpl. destruct (JS.lastIndexOf c s); [discriminate|].
  destruct (Ascii.eqb a c); [discriminate|auto].
Qed.

Lemma lastIndexOf_none_app (c : ascii) (a b : string) :
  JS.lastIndexOf c a = None -> JS.lastIndexOf c b = None ->
  JS.lastIndexOf c (a ++ b) = None.
Proof.
  induction a as [|x a IH]; simpl; intros Ha Hb; [exact Hb|].
  destruct (JS.lastIndexOf c a); [discriminate|].
  rewrite (IH eq_refl Hb). exact Ha.
Qed.

Lemma lastIndexOf_app (c : ascii) (a b : string) :
  JS.lastIndexOf c b = None ->
  JS.lastIndexOf c (a ++ String c b) = Some (String.length a).
Proof.
  intros Hb. induction a as [|x a IH]; simpl.
  - now rewrite Hb, Ascii.eqb_refl.
  - simpl in IH. now rewrite IH.
Qed.

Lemma split_aux_app (sep : ascii) (a b cur : string) :
  JS.split_aux sep cur (a ++ String sep b) =
  (JS.split_aux sep cur a ++ JS.split_aux sep "" b)%list.
Proof.
  revert cur. induction a as [|x a IH]; intros cur; simpl.
  - now rewrite Ascii.eqb_refl.
  - destruct (Ascii.eqb x sep); simpl; now rewrite IH.
Qed.

Lemma split_aux_no_sep (sep : ascii) (s cur : string) :
  JS.lastIndexOf sep s = None -> JS.split_aux sep cur s = (cur ++ s) :: nil.
Proof.
  revert cur. induction s as [|x s IH]; intros cur H.
  - simpl. now rewrite append_nil_r.
  - apply lastIndexOf_none_cons in H as [Hx Hs]. simpl. rewrite Hx.
    rewrite (IH _ Hs), append_assoc. reflexivity.
Qed.

Lemma split_aux_not_nil (sep : ascii) (s cur : string) : JS.split_aux sep cur s <> nil.
Proof.
  revert cur. induction s as [|x s IH]; intros cur; simpl; [discriminate|].
  destruct (Ascii.eqb x sep); [discriminate|apply IH].
Qed.

(** Joining the pieces of a split gives the string back. *)
Lemma join_split_aux (sep : ascii) (s cur : string) :
  JS.join (String sep "") (JS.split_aux sep cur s) = cur ++ s.
Proof.
  revert cur. induction s as [|x s IH]; intros cur; simpl.
  - now rewrite append_nil_r.
  - destruct (Ascii.eqb x sep) eqn:E.
    + apply Ascii.eqb_eq in E. subst x.
      pose proof (IH "") as H0. pose proof (split_aux_not_nil sep s "") as Hn.
      destruct (JS.split_aux sep "" s) as [|y l]; [congruence|].
      change (JS.join (String sep "") (cur :: y :: l))
        with (cur ++ String sep "" ++ JS.join (String sep "") (y :: l)).
      rewrite H0. reflexivity.
    + rewrite IH, append_assoc. reflexivity.
Qed.

Lemma join_split (sep : ascii) (s : string) :
  JS.join (String sep "") (JS.split sep s) = s.
Proof. unfold JS.split. now rewrite join_split_aux. Qed.

Lemma substring_prefix (a b : string) :
  String.substring 0 (String.length a) (a ++ b) = a.
Proof.
  induction a as [|x a IH]; simpl; [now destruct b|now rewrite IH].
Qed.

Lemma indexOf_app (x : string) (l1 l2 : list string) :
  JS.indexOf x l1 = None ->
  JS.indexOf x (l1 ++ x :: l2) = Some (List.length l1).
Proof.
  induction l1 as [|y l1 IH]; simpl.
  - now rewrite String.eqb_refl.
  - destruct (String.eqb y x); [discriminate|].
    destruct (JS.indexOf x l1); [discriminate|].
    intros _. now rewrite IH.
Qed.

(** X24. The name given to an upload drops the last extension of the
    original file name and keeps everything before it, dots included; a
    file name without a dot has no name left at all. *)
Theorem uploaded_name_drops_last_extension (now rnd : nat) :
  (forall base ext,
      JS.lastIndexOf "." ext = None ->
      Upload.filenameWithoutExt (base ++ "." ++ ext) = base
      /\ Upload.public_id now rnd (base ++ "." ++ ext) =
         "product-" ++ base ++ "-" ++ Products.nat_to_string now ++ "-"
         ++ Products.nat_to_string rnd)
  /\ (forall name,
      JS.lastIndexOf "." name = None ->
      Upload.filenameWithoutExt name = ""
      /\ Upload.public_id now rnd name =
         "product--" ++ Products.nat_to_string now ++ "-" ++ Products.nat_to_string rnd).
Proof.
  split.
  - intros base ext Hext.
    assert (H : Upload.filenameWithoutExt (base ++ "." ++ ext) = base).
    { unfold Upload.filenameWithoutExt, JS.split. simpl.
      rewrite split_aux_app, (split_aux_no_sep _ _ _ Hext). simpl.
      rewrite removelast_last. apply (join_split_aux "." base ""). }
    split; [exact H|]. unfold Upload.public_id. now rewrite H.
  - intros name Hname.
    assert (H : Upload.filenameWithoutExt name = "").
    { unfold Upload.filenameWithoutExt, JS.split.
      now rewrite (split_aux_no_sep _ _ _ Hname). }
    split; [exact H|]. unfold Upload.public_id. now rewrite H.
Qed.

(** X25. For the URL of an image stored in the upload folder, that is a
    prefix with no segment named like the folder, the folder, a public
    identifier without slash and an extension without dot or slash, the
    identifier computed for the removal is the folder and the public
    identifier, without the extension: deleting the product, or replacing
    its image, asks the image host to remove exactly that image. *)
Theorem stored_image_is_the_one_removed (prefix pid ext : string) :
  JS.indexOf "prostore_products" (JS.split "/" prefix) = None ->
  JS.lastIndexOf "/" pid = None ->
  JS.lastIndexOf "/" ext = None ->
  JS.lastIndexOf "." ext = None ->
  let url := prefix ++ "/" ++ "prostore_products" ++ "/" ++ pid ++ "." ++ ext in
  Products.old_public_id url = Some ("prostore_products/" ++ pid)
  /\ Lifecycle.destroy_image (Some url)
     = Products.Destroy ("prostore_products/" ++ pid) :: nil
  /\ (forall f, Products.destroy_old (Some f) (Some url)
                = Products.Destroy ("prostore_products/" ++ pid) :: nil).
Proof.
  intros Hprefix Hpid Hext Hdot url.
  assert (Hid : Products.old_public_id url = Some ("prostore_products/" ++ pid)).
  { unfold Products.old_public_id, url, JS.split.
    assert (Hfile : JS.lastIndexOf "/" (pid ++ "." ++ ext) = None).
    { apply lastIndexOf_none_app; [exact Hpid|]. simpl. now rewrite Hext. }
    change (prefix ++ "/" ++ "prostore_products" ++ "/" ++ pid ++ "." ++ ext)
      with (prefix ++ String "/" ("prostore_products" ++ String "/" (pid ++ "." ++ ext))).
    rewrite split_aux_app, split_aux_app.
    rewrite (split_aux_no_sep "/" "prostore_products" "" eq_refl).
    rewrite (split_aux_no_sep "/" _ "" Hfile).
    change ("" ++ "prostore_products") with "prostore_products".
    change ("" ++ (pid ++ "." ++ ext)) with (pid ++ "." ++ ext).
    cbn [app].
    fold (JS.split "/" prefix).
    rewrite (indexOf_app _ _ _ Hprefix).
    rewrite drop_app_length.
    change (JS.join "/" ("prostore_products" :: (pid ++ "." ++ ext) :: nil))
      with ("prostore_products/" ++ (pid ++ String "." ext)).
    rewrite <- append_assoc.
    rewrite (lastIndexOf_app "." ("prostore_products/" ++ pid) ext Hdot).
    unfold JS.substring_to. rewrite substring_prefix. reflexivity. }
  split; [exact Hid|]. split.
  - unfold Lifecycle.destroy_image.
    replace (JS.keep_truthy (Some url)) with (Some url); [now rewrite Hid|].
    unfold url. destruct prefix; reflexivity.
  - intros f. unfold Products.destroy_old.
    replace (JS.keep_truthy (Some url)) with (Some url); [now rewrite Hid|].
    unfold url. destruct prefix; reflexivity.
Qed.

End ImageNames.

(** ** Sessions and rejected user updates *)

Section UserSessions.

Import Users Accounts Invariants.

Variable L : Libs.

Lemma findOne_email_found (e : option string) (us : list user) (u : user) :
  findOne_email L e us = Some u -> email u = email_setters L e.
Proof.
  unfold findOne_email. destruct (find _ us) as [v|] eqn:E; [|discriminate].
  intros [= <-]. apply find_some in E as [_ E]. now apply bool_decide_eq_true in E.
Qed.

(** X26. A login is answered 200 only for a stored user whose email is
    the given one, trimmed and in lower case as the query casts it, whose
    stored hash the hash library accepts for the given password, and
    whose role is stored; the token of the answer is then the one signed
    for that user and that role.  An email no user has and a password the
    library refuses are answered 401 with their own messages, no answer
    other than a 200 carries a token, and two emails the setters take to
    the same value get the same answer. *)
Theorem login_needs_stored_credentials (st : state) (e p : option string) :
  (status (loginUser L st e p) = 200 ->
     exists u plain hash r,
       findOne_email L e (users st) = Some u
       /\ email u = email_setters L e
       /\ p = Some plain /\ password u = Some hash
       /\ bcrypt_compare L plain hash = true
       /\ role_by_id (idRol u) (roles st) = Some r
       /\ prop "token" (body (loginUser L st e p))
          = Some (JStr (jwt_sign L (_id u) (Some (role_nombre r)))))
  /\ (findOne_email L e (users st) = None ->
      loginUser L st e p = msg 401 "Credenciales inválidas (email)")
  /\ ((forall u, In u (users st) -> email u <> email_setters L e) ->
      loginUser L st e p = msg 401 "Credenciales inválidas (email)")
  /\ (forall u plain hash,
      findOne_email L e (users st) = Some u -> p = Some plain -> password u = Some hash ->
      bcrypt_compare L plain hash = false ->
      loginUser L st e p = msg 401 "Credenciales inválidas (contraseña)")
  /\ (has_prop "token" (body (loginUser L st e p)) = true ->
      status (loginUser L st e p) = 200)
  /\ (forall e', email_setters L e' = email_setters L e ->
      loginUser L st e' p = loginUser L st e p).
Proof.
  split; [|split; [|split; [|split; [|split]]]].
  - unfold loginUser, comparePassword.
    destruct (findOne_email L e (users st)) as [u|] eqn:Hu; [|simpl; discriminate].
    destruct p as [plain|]; [|simpl; discriminate].
    destruct (password u) as [hash|] eqn:Hp; [|simpl; discriminate].
    cbn match.
    destruct (bcrypt_compare L plain hash) eqn:Hc; [|simpl; discriminate].
    destruct (role_by_id (idRol u) (roles st)) as [r|] eqn:Hr; [|simpl; discriminate].
    intros _. exists u, plain, hash, r.
    split; [reflexivity|]. split; [exact (findOne_email_found _ _ _ Hu)|].
    split; [reflexivity|]. split; [exact Hp|].
    split; [exact Hc|]. split; [exact Hr|]. reflexivity.
  - unfold loginUser. intros ->. reflexivity.
  - intros Hno. unfold loginUser.
    destruct (findOne_email L e (users st)) as [u|] eqn:Hu; [|reflexivity].
    exfalso. unfold findOne_email in Hu.
    destruct (find _ (users st)) as [v|] eqn:E; [|discriminate].
    apply find_some in E as [Hin E]. apply bool_decide_eq_true in E.
    exact (Hno v Hin E).
  - unfold loginUser, comparePassword.
    intros u plain hash -> -> Hp Hc. now rewrite Hp, Hc.
  - unfold loginUser, comparePassword.
    destruct (findOne_email L e (users st)) as [u|]; [|simpl; discriminate].
    destruct p as [plain|]; [|simpl; discriminate].
    destruct (password u) as [hash|]; [|simpl; discriminate].
    cbn match.
    destruct (bcrypt_compare L plain hash); [|simpl; discriminate].
    destruct (role_by_id (idRol u) (roles st)) as [r|]; [|simpl; discriminate].
    reflexivity.
  - intros e' He'. unfold loginUser, findOne_email. now rewrite He'.
Qed.

Lemma pre_save_edited (salt : string) (old : user) (n e p : option string) :
  modified old = nil ->
  exists h,
    pre_save L salt
      (let u := set_nombre (JS.or_else n (nombre old)) old in
       let u := set_email L (JS.or_else e (email u)) u in
       if JS.truthy p && (6 <=? JS.length (default "" p))%nat
       then set_password p u else u) = Ok h
    /\ _id h = _id old /\ email h = email_setters L (JS.or_else e (email old)).
Proof.
  intros Hmod. cbv zeta.
  set (u1 := set_email L _ (set_nombre _ old)).
  assert (Hm1 : isModified "password" u1 = false).
  { unfold u1. rewrite isModified_password_set_email, isModified_password_set_nombre.
    unfold isModified. rewrite Hmod. reflexivity. }
  assert (Hi1 : _id u1 = _id old).
  { unfold u1. now rewrite id_set_email, id_set_nombre. }
  assert (He1 : email u1 = email_setters L (JS.or_else e (email old))).
  { unfold u1. now rewrite email_set_email, email_set_nombre. }
  destruct (JS.truthy p && (6 <=? JS.length (default "" p))%nat) eqn:Hc.
  - apply andb_true_iff in Hc as [Hp _].
    unfold pre_save. rewrite isModified_password_set_password, password_set_password.
    destruct (bool_decide (password u1 = p)) eqn:Hsame.
    + rewrite Hm1. simpl. exists (set_password p u1).
      now rewrite id_set_password, email_set_password.
    + simpl. destruct p as [plain|]; [|discriminate].
      eexists. split; [reflexivity|].
      now rewrite !id_set_password, !email_set_password.
  - unfold pre_save. rewrite Hm1. simpl. now exists u1.
Qed.

(** X27. A user update that is not answered 200 changes neither the users
    nor the roles.  An identifier that is not an ObjectId is answered
    500; one that is and that no user has is answered 404; and when the
    validators pass, an update carrying an email that, trimmed and in
    lower case, is the email of another stored user is answered 400 with
    the email-in-use message, whatever else it carries. *)
Theorem rejected_user_update_changes_nothing (salt : string) (st : state) (id : string)
    (n e p : option string) :
  (status (snd (updateUser L salt st id n e p)) <> 200 ->
   fst (updateUser L salt st id n e p) = st)
  /\ (Mongo.isObjectId id = false ->
      updateUser L salt st id n e p
      = (st, mkResponse 500
               (JObj (("message", JStr "Error al actualizar el usuario")
                      :: ("error", JStr (message (Mongo.cast_error "_id"))) :: nil))))
  /\ (Mongo.isObjectId id = true -> findById id (users st) = None ->
      updateUser L salt st id n e p = (st, msg 404 "Usuario no encontrado"))
  /\ (forall old other,
      Mongo.isObjectId id = true ->
      findById id (users st) = Some old ->
      (forall u, validate L u = None) ->
      JS.truthy e = true ->
      In other (users st) -> _id other <> Mongo.canon id ->
      email other = email_setters L e ->
      updateUser L salt st id n e p
      = (st, msg 400 "El email ya está en uso por otro usuario.")).
Proof.
  split; [|split; [|split]].
  - unfold updateUser.
    destruct (Mongo.isObjectId id); [|reflexivity]. cbn [negb].
    destruct (findById id (users st)) as [old|]; [|reflexivity].
    match goal with |- context [save L salt ?u _] => set (u2 := u) end.
    destruct (save L salt u2 (users st)) as [[updated us]|err].
    + simpl. congruence.
    + destruct (bool_decide (code err = Some 11000)); reflexivity.
  - intros Hoid. unfold updateUser. now rewrite Hoid.
  - intros Hoid Hnone. unfold updateUser. now rewrite Hoid, Hnone.
  - intros old other Hoid Hold Hval He Hin Hne Hem.
    unfold updateUser. rewrite Hoid, Hold. cbn [negb].
    destruct (findById_found _ _ _ Hold) as [Hid Hmod].
    destruct (pre_save_edited salt old n e p Hmod) as (h & Hh & Hhid & Hhem).
    cbv zeta in Hh. cbv zeta. unfold save. rewrite Hval, Hh.
    assert (Htaken : email_taken h (users st) = true).
    { unfold email_taken. apply existsb_exists. exists other. split; [exact Hin|].
      apply andb_true_iff. split.
      - apply negb_true_iff, String.eqb_neq. congruence.
      - apply bool_decide_eq_true_2. rewrite Hhem. unfold JS.or_else. now rewrite He. }
    rewrite Htaken. reflexivity.
Qed.

End UserSessions.

(** ** The further properties on sample data *)




Lemma export_brand_name_or_NA_witness :
  Lifecycle.x_idMarca (Lifecycle.to_row marcas ∅ ∅ nike_product) = "Nike".
Proof.
  apply (proj1 (export_brand_name_or_NA marcas ∅ ∅ nike_product) {["nombre" := "Nike"]}).
  - vm_compute. reflexivity.
  - vm_compute. reflexivity.
  - discriminate.
Defined.

(** A brand deleted under the upper-case form of its identifier. *)
Example deleted_brand_reads_NA :
  Lifecycle.x_idMarca
    (Lifecycle.to_row
       (fst (Generic.deleteOne (Generic.memModel Generic.marcaSchema) (oid "00B1") marcas))
       ∅ ∅ nike_product) = "N/A".
Proof. vm_compute. reflexivity. Qed.

Lemma created_product_round_trip_witness :
  exists p,
    Products.findById (oid "0004")
      (fst (fst (Lifecycle.createProduct (oid "0004") 4 new_product_body None sample_collection)))
      = Some p
    /\ Products.PrecioVenta p = JS.parseFloat "49.90"
    /\ fst (fst (Lifecycle.deleteProduct (oid "0004")
                   (fst (fst (Lifecycle.createProduct (oid "0004") 4 new_product_body None
                                sample_collection))))) = sample_collection.
Proof.
  destruct (created_product_round_trip (oid "0004") 4 new_product_body None sample_collection
              (fst (fst (Lifecycle.createProduct (oid "0004") 4 new_product_body None
                           sample_collection)))
              (snd (fst (Lifecycle.createProduct (oid "0004") 4 new_product_body None
                           sample_collection)))
              (snd (Lifecycle.createProduct (oid "0004") 4 new_product_body None sample_collection))
              ltac:(vm_compute; reflexivity) ltac:(vm_compute; reflexivity))
    as (p & _ & _ & _ & _ & Hfind & _ & _ & Hprice & _ & _ & _ & _ & Hdel).
  exists p. split; [exact Hfind|]. split; [exact Hprice|exact Hdel].
Defined.

Lemma rejected_creation_stores_nothing_witness :
  Lifecycle.createProduct (oid "0004") 4 (price_update None) None sample_collection =
  (sample_collection,
   Lifecycle.bad_request "Nombre, Precio, Stock y Marca son obligatorios.", nil).
Proof.
  apply (proj1 (rejected_creation_stores_nothing (oid "0004") 4 (price_update None) None
                  sample_collection)).
  reflexivity.
Defined.

Lemma delete_product_removes_one_witness :
  Lifecycle.deleteProduct (oid "0007") sample_collection =
  (sample_collection,
   mkResponse 404 (JObj (("message", JStr "Producto no encontrado") :: nil)), nil).
Proof.
  apply (proj1 (proj2 (delete_product_removes_one (oid "0007") sample_collection)));
    reflexivity.
Defined.

(** A product deleted under the upper-case form of its identifier, and a
    delete with an identifier that is no ObjectId. *)
Example delete_product_by_cast_identifier :
  fst (fst (Lifecycle.deleteProduct "65F0A1B2C3D4E5F6A7B80002" sample_collection))
  = sample_product (oid "0001") 10 1 :: sample_product (oid "0003") 30 3 :: nil
  /\ status (snd (fst (Lifecycle.deleteProduct "p2" sample_collection))) = 500.
Proof. split; vm_compute; reflexivity. Qed.

Lemma update_product_touches_one_record_witness :
  map Products._id
    (fst (fst (Products.updateProduct (oid "0002") (price_update (Some "25")) None sample_collection)))
  = map Products._id sample_collection.
Proof.
  refine (proj1 (update_product_touches_one_record (oid "0002") (price_update (Some "25")) None
                   sample_collection _ _ _ _)).
  vm_compute. reflexivity.
Defined.

Lemma required_ok_empty (sch : Generic.schema) : Invariants.required_ok sch ∅.
Proof. intros id f H. simplify_map_eq. Qed.

Lemma unique_ok_empty (sch : Generic.schema) : Invariants.unique_ok sch ∅.
Proof. intros p i1 i2 f1 f2 v _ _ H. simplify_map_eq. Qed.

Lemma catalog_operations_keep_invariants_witness :
  Invariants.required_ok Generic.marcaSchema
    (fst (Generic.createOne (Generic.memModel Generic.marcaSchema) (oid "00b1")
            {["nombre" := "Nike"]} ∅))
  /\ Invariants.unique_ok Generic.marcaSchema
       (fst (Generic.createOne (Generic.memModel Generic.marcaSchema) (oid "00b1")
               {["nombre" := "Nike"]} ∅)).
Proof.
  apply (proj1 (catalog_operations_keep_invariants Generic.marcaSchema ∅
                  (required_ok_empty _) (unique_ok_empty _))).
Defined.

Lemma catalog_create_round_trip_witness :
  Generic.deleteOne (Generic.memModel Generic.marcaSchema) (oid "00b2")
    (fst (Generic.createOne (Generic.memModel Generic.marcaSchema) (oid "00b2")
            {["nombre" := "Puma"]} marcas))
  = (marcas,
     mkResponse 200
       (JObj (("message", JStr "Item eliminado exitosamente") :: ("_id", JStr (oid "00b2")) :: nil))).
Proof.
  pose proof (catalog_create_round_trip Generic.marcaSchema (oid "00b2") {["nombre" := "Puma"]}
                marcas _ _ eq_refl) as [H _].
  apply H. vm_compute. reflexivity.
Defined.

Lemma catalog_update_merges_witness :
  fst (Generic.updateOne (Generic.memModel Generic.marcaSchema) (oid "00b7")
         {["nombre" := "Puma"]} marcas) = marcas.
Proof.
  pose proof (catalog_update_merges Generic.marcaSchema (oid "00b7") {["nombre" := "Puma"]}
                marcas _ _ eq_refl) as [_ H].
  apply H. vm_compute. discriminate.
Defined.

Lemma sample_verify_rejects_no_token (t : option string) :
  JS.truthy t = false -> exists e, sample_verify t = Throw e.
Proof.
  intros Ht. unfold sample_verify.
  destruct (bool_decide (t = Some "good")) eqn:E; [|eauto].
  apply bool_decide_eq_true in E. subst t. discriminate.
Qed.

Lemma protect_outcomes_witness :
  Auth.protect sample_verify (Auth.mkRequest (Some "Bearer") None) =
  Auth.Send Catalog.bad_token_response :: Auth.Send Catalog.no_token_response :: nil.
Proof.
  apply (proj1 (proj2 (proj2 (protect_outcomes sample_verify
                                (Auth.mkRequest (Some "Bearer") None)
                                sample_verify_rejects_no_token))) "Bearer");
    reflexivity.
Defined.

Lemma catalog_writes_need_token_witness :
  exists rs,
    Catalog.catalog_route (Generic.memModel Generic.marcaSchema) Catalog.mem_find_sorted
      sample_verify no_header (Catalog.Create (oid "00b2") {["nombre" := "Puma"]}) marcas
    = (marcas, rs)
    /\ rs <> nil /\ Forall (fun r => status r = 401) rs.
Proof.
  apply (proj1 (proj2 (catalog_writes_need_token sample_verify
                         (Generic.memModel Generic.marcaSchema) Catalog.mem_find_sorted
                         no_header marcas))).
  - reflexivity.
  - discriminate.
Defined.

Lemma account_routes_need_token_witness :
  exists rs,
    Accounts.account_route sample_libs sample_verify "salt1" (oid "00c2") no_header
      (Accounts.DeleteUser (oid "00c1")) sample_users = (sample_users, rs)
    /\ rs <> nil /\ Forall (fun r => status r = 401) rs.
Proof.
  apply (proj2 (proj2 (account_routes_need_token sample_verify sample_libs "salt1" (oid "00c2")
                         no_header sample_users))).
  - reflexivity.
  - discriminate.
  - discriminate.
Defined.

Lemma registered_client_can_log_in_witness :
  status (Users.loginUser plain_libs
            (fst (Users.registerClient plain_libs "salt1" (oid "00c2") sample_users
                    (Some " Luis ") (Some " Luis@Example.com ") (Some "clave123")))
            (Some "LUIS@example.com") (Some "clave123")) = 200.
Proof.
  destruct (registered_client_can_log_in plain_libs "salt1" (oid "00c2") sample_users
              (fst (Users.registerClient plain_libs "salt1" (oid "00c2") sample_users
                      (Some " Luis ") (Some " Luis@Example.com ") (Some "clave123")))
              (Some " Luis ") (Some " Luis@Example.com ") (Some "clave123")
              (snd (Users.registerClient plain_libs "salt1" (oid "00c2") sample_users
                      (Some " Luis ") (Some " Luis@Example.com ") (Some "clave123")))
              ltac:(intros plain s; apply String.eqb_refl)
              ltac:(vm_compute; reflexivity) ltac:(vm_compute; reflexivity))
    as (plain & u & role & _ & _ & _ & _ & _ & _ & _ & _ & Hlogin).
  exact (proj1 (Hlogin (Some "LUIS@example.com") ltac:(vm_compute; reflexivity))).
Defined.

(** The registered client is stored with the name trimmed and the email
    trimmed and in lower case. *)
Example registered_client_is_normalised :
  (fun u => (Users.nombre u, Users.email u)) <$>
    Users.findById (oid "00c2")
      (Users.users
         (fst (Users.registerClient plain_libs "salt1" (oid "00c2") sample_users
                 (Some " Luis ") (Some " Luis@Example.com ") (Some "clave123"))))
  = Some (Some "Luis", Some "luis@example.com").
Proof. vm_compute. reflexivity. Qed.


Lemma deleted_user_is_gone_witness :
  Accounts.deleteUser sample_users (oid "00c9") = (sample_users, Users.msg 404 "Usuario no encontrado").
Proof.
  apply (proj1 (proj2 (deleted_user_is_gone sample_libs sample_users (oid "00c9"))));
    reflexivity.
Defined.

(** A user deleted under the upper-case form of its identifier cannot log
    in any more, and a delete with an identifier that is no ObjectId
    fails. *)
Example delete_user_by_cast_identifier :
  Users.loginUser sample_libs
    (fst (Accounts.deleteUser sample_users "65F0A1B2C3D4E5F6A7B800C1"))
    (Some "Ana@Example.com") (Some "secreto")
  = Users.msg 401 "Credenciales inválidas (email)"
  /\ status (snd (Accounts.deleteUser sample_users "u1")) = 500.
Proof. split; vm_compute; reflexivity. Qed.

Lemma update_user_keeps_missing_fields_witness :
  exists old new,
    Users.findById (oid "00c1") (Users.users sample_users) = Some old
    /\ Users.findById (oid "00c1")
         (Users.users (fst (Users.updateUser sample_libs "salt1" sample_users (oid "00c1")
                              (Some "") None None))) = Some new
    /\ Users.nombre new = Users.nombre old.
Proof.
  destruct (update_user_keeps_missing_fields sample_libs "salt1" sample_users
              (fst (Users.updateUser sample_libs "salt1" sample_users (oid "00c1")
                      (Some "") None None))
              (oid "00c1") (Some "") None None
              (snd (Users.updateUser sample_libs "salt1" sample_users (oid "00c1")
                      (Some "") None None))
              ltac:(vm_compute; reflexivity) ltac:(vm_compute; reflexivity))
    as (old & new & Hold & Hnew & _ & _ & Hkeep & _).
  exists old, new. split; [exact Hold|]. split; [exact Hnew|].
  apply Hkeep; [reflexivity|].
  vm_compute in Hold. injection Hold as <-. reflexivity.
Defined.

(** The setters of the schema on an update: the name is trimmed, the
    email trimmed and put in lower case. *)
Example update_user_normalises :
  (fun u => (Users.nombre u, Users.email u)) <$>
    Users.findById (oid "00c1")
      (Users.users (fst (Users.updateUser sample_libs "salt1" sample_users (oid "00c1")
                           (Some "  Ana María ") (Some " Ana.M@Example.COM") None)))
  = Some (Some "Ana María", Some "ana.m@example.com").
Proof. vm_compute. reflexivity. Qed.

Lemma sample_users_ok : Invariants.users_ok (Users.users sample_users).
Proof.
  split.
  - repeat constructor. simpl. tauto.
  - intros u v [<-|[]] [<-|[]] _. reflexivity.
Qed.

Lemma user_writes_keep_invariants_witness :
  Invariants.users_ok
    (Users.users (fst (Users.registerClient sample_libs "salt1" (oid "00c2") sample_users
                         (Some "Luis") (Some "luis@example.com") (Some "clave123")))).
Proof.
  apply (proj1 (proj2 (user_writes_keep_invariants sample_libs "salt1" (oid "00c2") sample_users
                         (oid "00c1") (Some "Luis") (Some "luis@example.com") (Some "clave123")
                         sample_users_ok))).
Defined.

Lemma role_seed_only_on_empty_witness :
  Accounts.createInitialRoles (oid "00d8") (oid "00d9") (Users.roles sample_users) = Users.roles sample_users.
Proof.
  apply (proj1 (proj2 (proj2 (proj2 (role_seed_only_on_empty sample_libs (oid "00d8") (oid "00d9")
                                       (Users.roles sample_users)))))).
  discriminate.
Defined.

Lemma price_mail_goes_to_admins_witness :
  exists items,
    Users.getAdminUsers sample_users = mkResponse 200 (JArr items)
    /\ map (prop "email") items = Some (JStr "ana@example.com") :: nil.
Proof.
  destruct (proj1 (price_mail_goes_to_admins sample_users nike_product (JS.ofZ 30))
              (Mailer.mkMail (Some "ana@example.com" :: nil) "⚠️ Cambio de Precio: Bota")
              ltac:(vm_compute; reflexivity))
    as (_ & _ & items & Hitems & Hemails).
  exists items. split; [exact Hitems|exact Hemails].
Defined.

Lemma uploaded_name_drops_last_extension_witness :
  Upload.filenameWithoutExt "foto.perfil.png" = "foto.perfil".
Proof.
  apply (proj1 (proj1 (uploaded_name_drops_last_extension 0 0) "foto.perfil" "png"
                  ltac:(reflexivity))).
Defined.

Lemma stored_image_is_the_one_removed_witness :
  Products.old_public_id
    "https://res.cloudinary.com/demo/image/upload/v1/prostore_products/product-a-1.jpg"
  = Some "prostore_products/product-a-1".
Proof.
  apply (proj1 (stored_image_is_the_one_removed
                  "https://res.cloudinary.com/demo/image/upload/v1" "product-a-1" "jpg"
                  ltac:(vm_compute; reflexivity) ltac:(reflexivity) ltac:(reflexivity)
                  ltac:(reflexivity))).
Defined.

Lemma login_needs_stored_credentials_witness :
  Users.loginUser sample_libs sample_users (Some " Ana@Example.com") (Some "otra")
  = Users.msg 401 "Credenciales inválidas (contraseña)".
Proof.
  refine (proj1 (proj2 (proj2 (proj2 (login_needs_stored_credentials sample_libs sample_users
                                        (Some " Ana@Example.com") (Some "otra")))))
            _ "otra" "$2a$salt0$secreto" _ _ _ _);
    vm_compute; reflexivity.
Defined.

(** A login with the stored email in another letter case. *)
Example login_ignores_letter_case :
  status (Users.loginUser sample_libs sample_users (Some " Ana@Example.com")
            (Some "secreto")) = 200.
Proof. vm_compute. reflexivity. Qed.

Lemma rejected_user_update_changes_nothing_witness :
  Users.updateUser sample_libs "salt1" sample_users (oid "00c9") (Some "Eva") None None
  = (sample_users, Users.msg 404 "Usuario no encontrado").
Proof.
  apply (proj1 (proj2 (proj2 (rejected_user_update_changes_nothing sample_libs "salt1"
                                sample_users (oid "00c9") (Some "Eva") None None))));
    vm_compute; reflexivity.
Defined.

(** An update with an identifier that is no ObjectId fails. *)
Example update_user_malformed_identifier :
  status (snd (Users.updateUser sample_libs "salt1" sample_users "u1" (Some "Eva") None None))
  = 500.
Proof. vm_compute. reflexivity. Qed.
